(** * infra-boomer: pull-request comment scripts

    A shallow embedding of [scripts/terraform_comment.py] (the plan-comment
    pipeline) and [scripts/terraform_lint_comment.py] (the lint-comment
    pipeline), with the properties of their parser, renderer, comment
    locator and upsert logic.

    Text.  A Python [str] is modelled as a Stdlib [string] holding the
    UTF-8 bytes of the text.  The character classes the scripts rely on
    ([str.strip], [str.splitlines], [str.lower], [str.title], and the regex
    classes [\s], [\d], [[A-Za-z]]) are modelled on the ASCII range, where
    they are exact; bytes above 127 are ordinary characters (the few
    non-ASCII Unicode spaces, digits, line separators and case pairs are
    outside the model).  Python integers are unbounded and modelled as [Z];
    [int()] on a string is modelled with the interpreter's default limit of
    4300 digits (CPython 3.11, and the maintenance releases of 3.7 to 3.10
    that carry the limit), which neither script changes.

    Effects.  Exceptions are explicit: fallible code returns a [result].
    The forge (the REST API holding the pull request's comments) is an
    explicit state that the pipelines read and transform, and it answers
    every request; printed log lines are returned as a list.  What a run
    finds on disk (the event file, the plan text files) is given by a
    [world] record that holds the outcome of each call, an exception
    included. *)

From Stdlib Require Import String Ascii ZArith NArith Lia List Permutation DecimalString Bool
  Sorted.
From stdpp Require Import gmap strings.
Import ListNotations.
Open Scope string_scope.
Open Scope list_scope.
Open Scope nat_scope.

(* ===================================================================== *)
(** ** Exceptions *)
(* ===================================================================== *)

(** A raised Python exception: its class name and its message ([str(e)]). *)
Record exn := Exn { exn_type : string; exn_msg : string }.

Inductive result (A : Type) : Type :=
| Ok (a : A)
| Raise (e : exn).
Arguments Ok {A} a.
Arguments Raise {A} e.

Definition bind {A B : Type} (m : result A) (k : A -> result B) : result B :=
  match m with
  | Ok a => k a
  | Raise e => Raise e
  end.

#[global] Instance result_bind : MBind result := fun _ _ k m => bind m k.

(* ===================================================================== *)
(** ** Python string operations used by the scripts *)
(* ===================================================================== *)

Module Py.

Definition nl : string := String "010"%char "".

Definition ord (c : ascii) : N := N_of_ascii c.

Definition in_range (lo hi : N) (c : ascii) : bool :=
  ((lo <=? ord c) && (ord c <=? hi))%N.

(** [str.isspace] / regex [\s] on ASCII: TAB LF VT FF CR, FS GS RS US, SPACE. *)
Definition isspace (c : ascii) : bool :=
  in_range 9 13 c || in_range 28 31 c || (ord c =? 32)%N.

(** Regex [\d] on ASCII. *)
Definition isdigit (c : ascii) : bool := in_range 48 57 c.

Definition isupper (c : ascii) : bool := in_range 65 90 c.
Definition islower (c : ascii) : bool := in_range 97 122 c.

(** Regex [[A-Za-z]]. *)
Definition isalpha (c : ascii) : bool := isupper c || islower c.

(** The line boundaries of [str.splitlines] on ASCII: LF VT FF CR, FS GS RS. *)
Definition is_linebreak (c : ascii) : bool :=
  in_range 10 13 c || in_range 28 30 c.

Definition lower_char (c : ascii) : ascii :=
  if isupper c then ascii_of_N (ord c + 32) else c.

Definition upper_char (c : ascii) : ascii :=
  if islower c then ascii_of_N (ord c - 32) else c.

Fixpoint map_str (f : ascii -> ascii) (s : string) : string :=
  match s with
  | EmptyString => EmptyString
  | String c r => String (f c) (map_str f r)
  end.

(** [s.lower()] *)
Definition lower (s : string) : string := map_str lower_char s.

(** [s.title()]: a cased character is upper-cased when it follows an uncased
    one and lower-cased when it follows a cased one. *)
Fixpoint title_go (prev_cased : bool) (s : string) : string :=
  match s with
  | EmptyString => EmptyString
  | String c r =>
      if islower c then String (if prev_cased then c else upper_char c) (title_go true r)
      else if isupper c then String (if prev_cased then lower_char c else c) (title_go true r)
      else String c (title_go false r)
  end.

Definition title (s : string) : string := title_go false s.

Fixpoint forall_str (p : ascii -> bool) (s : string) : bool :=
  match s with
  | EmptyString => true
  | String c r => p c && forall_str p r
  end.

Definition is_empty (s : string) : bool :=
  match s with
  | EmptyString => true
  | String _ _ => false
  end.

(** Longest prefix of characters satisfying [p], and the rest. *)
Fixpoint span (p : ascii -> bool) (s : string) : string * string :=
  match s with
  | EmptyString => (EmptyString, EmptyString)
  | String c r =>
      if p c then let (a, b) := span p r in (String c a, b)
      else (EmptyString, s)
  end.

Fixpoint lstrip (s : string) : string :=
  match s with
  | EmptyString => EmptyString
  | String c r => if isspace c then lstrip r else s
  end.

Fixpoint rstrip (s : string) : string :=
  match s with
  | EmptyString => EmptyString
  | String c r =>
      match rstrip r with
      | EmptyString => if isspace c then EmptyString else String c EmptyString
      | r' => String c r'
      end
  end.

(** [s.strip()] *)
Definition strip (s : string) : string := rstrip (lstrip s).

(** The rest of [s] after the literal character [c], if [s] starts with it. *)
Definition expect (c : ascii) (s : string) : option string :=
  match s with
  | String x r => if (x =? c)%char then Some r else None
  | EmptyString => None
  end.

(** [s.startswith(p)] *)
Fixpoint startswith (p s : string) : bool :=
  match p, s with
  | EmptyString, _ => true
  | String a p', String b s' => (a =? b)%char && startswith p' s'
  | String _ _, EmptyString => false
  end.

(** [needle in hay] *)
Fixpoint contains (needle hay : string) : bool :=
  startswith needle hay ||
  match hay with
  | EmptyString => false
  | String _ r => contains needle r
  end.

(** [s.endswith(p)] *)
Fixpoint endswith (p s : string) : bool :=
  (s =? p)%string ||
  match s with
  | EmptyString => false
  | String _ r => endswith p r
  end.

Definition starts_with_lf (s : string) : bool :=
  match s with
  | String c _ => (c =? "010")%char
  | EmptyString => false
  end.

(** [s.splitlines()]: split at line boundaries, CR LF counting as one; a
    final boundary does not open a new (empty) line. *)
Fixpoint splitlines (s : string) : list string :=
  match s with
  | EmptyString => []
  | String c r =>
      if is_linebreak c then
        if (c =? "013")%char && starts_with_lf r then splitlines r
        else EmptyString :: splitlines r
      else
        match splitlines r with
        | [] => [String c EmptyString]
        | l :: ls => String c l :: ls
        end
  end.

(** [sep.join(parts)] *)
Definition join (sep : string) (parts : list string) : string :=
  String.concat sep parts.

(** [lines[start:]] *)
Definition slice_from {A : Type} (start : nat) (l : list A) : list A := skipn start l.

Definition escape_char (c : ascii) : string :=
  if (c =? "&")%char then "&amp;"
  else if (c =? "<")%char then "&lt;"
  else if (c =? ">")%char then "&gt;"
  else if (c =? "034")%char then "&quot;"
  else if (c =? "'")%char then "&#x27;"
  else String c EmptyString.

(** [html.escape(s)] with the default [quote=True]. *)
Fixpoint escape (s : string) : string :=
  match s with
  | EmptyString => EmptyString
  | String c r => escape_char c +:+ escape r
  end.

(** [str(n)] for an integer. *)
Definition str_of_Z (z : Z) : string := NilZero.string_of_int (Z.to_int z).

(** [str(n)] for a length. *)
Definition str_of_nat (n : nat) : string := str_of_Z (Z.of_nat n).

Definition digit_val (c : ascii) : Z := Z.of_N (ord c - 48).

(** Whitespace for [int()] on an ASCII string: TAB LF VT FF CR and SPACE
    (narrower than [str.isspace]: FS GS RS US are not skipped). *)
Definition is_int_space (c : ascii) : bool :=
  in_range 9 13 c || (ord c =? 32)%N.

(** The characters of the digit run of an integer literal. *)
Definition is_int_char (c : ascii) : bool := isdigit c || (c =? "_")%char.

(** A digit run is well formed when it is not empty, starts and ends with a
    digit and has no two underscores in a row.  [prev_digit] tells whether
    the previous character was a digit. *)
Fixpoint underscores_ok (prev_digit : bool) (s : string) : bool :=
  match s with
  | EmptyString => prev_digit
  | String c r =>
      if isdigit c then underscores_ok true r
      else prev_digit && underscores_ok false r
  end.

Fixpoint count_digits (s : string) : nat :=
  match s with
  | EmptyString => 0
  | String c r => if isdigit c then S (count_digits r) else count_digits r
  end.

(** The value of a digit run, most significant digit first; [acc] is the
    value so far, underscores are passed over. *)
Fixpoint run_value (acc : Z) (s : string) : Z :=
  match s with
  | EmptyString => acc
  | String c r =>
      if isdigit c then run_value (10 * acc + digit_val c)%Z r
      else run_value acc r
  end.

Definition hex_digit (n : N) : ascii :=
  if (n <? 10)%N then ascii_of_N (48 + n) else ascii_of_N (87 + n).

(** [repr(s)] on ASCII, one character at a time. *)
Definition repr_char (quote c : ascii) : string :=
  if (c =? quote)%char || (c =? "\")%char then String "\" (String c EmptyString)
  else if (c =? "009")%char then "\t"
  else if (c =? "010")%char then "\n"
  else if (c =? "013")%char then "\r"
  else if (ord c <? 32)%N || (ord c =? 127)%N then
    String "\" (String "x" (String (hex_digit (ord c / 16))
                              (String (hex_digit (ord c mod 16)) EmptyString)))
  else String c EmptyString.

Fixpoint repr_body (quote : ascii) (s : string) : string :=
  match s with
  | EmptyString => EmptyString
  | String c r => repr_char quote c +:+ repr_body quote r
  end.

(** [repr(s)]: single quotes, unless the text holds a single quote and no
    double quote. *)
Definition repr (s : string) : string :=
  let quote :=
    if contains "'" s && negb (contains (String "034" EmptyString) s)
    then "034"%char else "'"%char in
  String quote (repr_body quote s +:+ String quote EmptyString).

(** The message of [int()] on a malformed literal shows at most the first
    200 characters of the text's [repr]. *)
Definition invalid_literal (s : string) : exn :=
  Exn "ValueError"
      ("invalid literal for int() with base 10: " +:+ String.substring 0 200 (repr s)).

(** The interpreter's default limit on the digits of an integer string
    ([sys.int_info.default_max_str_digits]); neither script changes it. *)
Definition int_max_str_digits : nat := 4300.

Definition int_too_long (digits : nat) : exn :=
  Exn "ValueError"
      ("Exceeds the limit (4300 digits) for integer string conversion: value has "
       +:+ str_of_nat digits
       +:+ " digits; use sys.set_int_max_str_digits() to increase the limit").

(** [int(s)] for a string: leading whitespace, an optional sign, a run of
    decimal digits with single underscores between them, trailing
    whitespace.  In the order of the interpreter: a malformed run raises
    [ValueError]; a run of more than 4300 digits raises [ValueError]; text
    left after the trailing whitespace raises [ValueError]. *)
Definition int_of_str (s : string) : result Z :=
  let t := snd (span is_int_space s) in
  let (neg, ds) :=
    match t with
    | String c r =>
        if (c =? "-")%char then (true, r)
        else if (c =? "+")%char then (false, r)
        else (false, t)
    | EmptyString => (false, t)
    end in
  let (run, rest) := span is_int_char ds in
  if negb (underscores_ok false run) then Raise (invalid_literal s)
  else if (int_max_str_digits <? count_digits run)%nat then
    Raise (int_too_long (count_digits run))
  else if negb (forall_str is_int_space rest) then Raise (invalid_literal s)
  else Ok (if neg then (- run_value 0 run)%Z else run_value 0 run).

End Py.


(* ===================================================================== *)
(** ** The forge: issue comments behind the REST API *)
(* ===================================================================== *)

(** A comment as the API returns it: [c["id"]], the pull request it belongs
    to, and [c.get("body")] (absent or null is [None]). *)
Record comment := Comment { c_id : Z; c_pr : Z; c_body : option string }.

(** All comments of the repository, oldest first. *)
Definition forge := list comment.

Definition comments_on (pr : Z) (st : forge) : list comment :=
  List.filter (fun c => (c_pr c =? pr)%Z) st.

(** GET /repos/../issues/{pr}/comments?per_page=..&page=.. *)
Definition api_get_comments (st : forge) (pr : Z) (per_page page : nat) : list comment :=
  firstn per_page (skipn (per_page * (page - 1)) (comments_on pr st)).

Definition has_id (id : Z) (st : forge) : bool :=
  existsb (fun c => (c_id c =? id)%Z) st.

Definition set_body (id : Z) (body : string) (c : comment) : comment :=
  if (c_id c =? id)%Z then Comment (c_id c) (c_pr c) (Some body) else c.

Definition http_error (status : string) : exn := Exn "HTTPError" status.

(** PATCH /repos/../issues/comments/{id}, followed by [raise_for_status]. *)
Definition update_comment (st : forge) (comment_id : Z) (body : string) : result forge :=
  if has_id comment_id st then Ok (map (set_body comment_id body) st)
  else Raise (http_error "404 Client Error: Not Found").

(** The forge numbers a new comment above every existing one. *)
Definition next_id (st : forge) : Z := (1 + fold_right Z.max 0 (map c_id st))%Z.

(** POST /repos/../issues/{pr}/comments, followed by [raise_for_status]. *)
Definition create_comment (st : forge) (pr_number : Z) (body : string) : result forge :=
  Ok (st ++ [Comment (next_id st) pr_number (Some body)]).

(** DELETE /repos/../issues/comments/{id}: status 204, or 404 when the
    comment is already gone; the script accepts both. *)
Definition delete_comment (st : forge) (comment_id : Z) : result forge :=
  Ok (List.filter (fun c => negb (c_id c =? comment_id)%Z) st).

Definition out_of_fuel : exn := Exn "OutOfFuel" "".

(** The [while True] loop of [list_all_comments], identical in both scripts:
    fetch pages of 100 until a page is empty or short.  [fuel] bounds the
    number of requests. *)
Fixpoint list_pages (fuel : nat) (st : forge) (pr_number : Z) (page : nat)
    (comments : list comment) : result (list comment) :=
  match fuel with
  | O => Raise out_of_fuel
  | S fuel' =>
      let batch := api_get_comments st pr_number 100 page in
      match batch with
      | [] => Ok comments
      | _ :: _ =>
          let comments' := comments ++ batch in
          if length batch <? 100 then Ok comments'
          else list_pages fuel' st pr_number (page + 1) comments'
      end
  end.

Definition list_all_comments (st : forge) (pr_number : Z) : result (list comment) :=
  list_pages (S (length st)) st pr_number 1 [].

(** [c.get("body") or ""] *)
Definition body_of (c : comment) : string := default "" (c_body c).

(** Truthiness of an [Optional[int]]: [None] and [0] are false. *)
Definition truthy (o : option Z) : bool :=
  match o with
  | Some z => negb (z =? 0)%Z
  | None => false
  end.

(* ===================================================================== *)
(** ** JSON values and the Python operations applied to them *)
(* ===================================================================== *)

(** What [json.load] returns (numbers restricted to integers). *)
#[warnings="-register-all"] Inductive json :=
| JNull
| JBool (b : bool)
| JInt (z : Z)
| JStr (s : string)
| JList (l : list json)
| JDict (kv : list (string * json)).

Definition type_name (j : json) : string :=
  match j with
  | JNull => "NoneType"
  | JBool _ => "bool"
  | JInt _ => "int"
  | JStr _ => "str"
  | JList _ => "list"
  | JDict _ => "dict"
  end.

Fixpoint assoc {A : Type} (key : string) (kv : list (string * A)) : option A :=
  match kv with
  | [] => None
  | (k, v) :: rest => if (k =? key)%string then Some v else assoc key rest
  end.

Definition is_str (key : string) (j : json) : bool :=
  match j with
  | JStr s => (s =? key)%string
  | _ => false
  end.

(** [key in j] for a string [key]. *)
Definition py_in (key : string) (j : json) : result bool :=
  match j with
  | JDict kv => Ok (bool_decide (is_Some (assoc key kv)))
  | JList l => Ok (existsb (is_str key) l)
  | JStr s => Ok (Py.contains key s)
  | _ => Raise (Exn "TypeError" ("argument of type '" +:+ type_name j +:+ "' is not iterable"))
  end.

(** [j[key]] for a string [key]. *)
Definition py_getitem (j : json) (key : string) : result json :=
  match j with
  | JDict kv =>
      match assoc key kv with
      | Some v => Ok v
      | None => Raise (Exn "KeyError" ("'" +:+ key +:+ "'"))
      end
  | JList _ => Raise (Exn "TypeError" "list indices must be integers or slices, not str")
  | JStr _ => Raise (Exn "TypeError" "string indices must be integers, not 'str'")
  | _ => Raise (Exn "TypeError" ("'" +:+ type_name j +:+ "' object is not subscriptable"))
  end.

(** [j.get(key, dflt)] *)
Definition py_get (j : json) (key : string) (dflt : json) : result json :=
  match j with
  | JDict kv => Ok (default dflt (assoc key kv))
  | _ => Raise (Exn "AttributeError" ("'" +:+ type_name j +:+ "' object has no attribute 'get'"))
  end.

(** [int(j)] *)
Definition py_int (j : json) : result Z :=
  match j with
  | JInt z => Ok z
  | JBool b => Ok (if b then 1%Z else 0%Z)
  | JStr s => Py.int_of_str s
  | _ => Raise (Exn "TypeError"
           ("int() argument must be a string, a bytes-like object or a real number, not '"
            +:+ type_name j +:+ "'"))
  end.

(* ===================================================================== *)
(** ** scripts/terraform_comment.py: the plan-comment pipeline *)
(* ===================================================================== *)

Module Plan.

(** The module-level constants, as read from the environment at import. *)
Record globals := Globals {
  GITHUB_API : string;
  REPO : string;
  OWNER : string;
  REPO_NAME : string;
  TOKEN : string;
  EVENT_NAME : string;
  EVENT_PATH : string;
  RUN_ID : string;
  REPO_OWNER_FOR_URL : string;
  GITHUB_ACTOR : string;
  GITHUB_WORKFLOW : string;
  TF_ACTIONS_WORKING_DIR : string;
  PR_COMMENT_MARKER : string;
  CREATE_COMMENT : bool;
  GITHUB_SHA : string;
  TF_ADD_COUNT : string;
  TF_CHANGE_COUNT : string;
  TF_DESTROY_COUNT : string;
  GITHUB_SERVER_URL : string
}.

(** A path as the run finds it: the outcome of [Path.exists] and the
    outcome of [Path.read_text] (the decoded text, or the [OSError] of a
    directory or of a file that may not be read). *)
Record path := Path {
  path_exists : result bool;
  path_read_text : result string
}.

Definition file_with (text : string) : path := Path (Ok true) (Ok text).

Definition no_file : path :=
  Path (Ok false) (Raise (Exn "FileNotFoundError" "[Errno 2] No such file or directory")).

(** What the run finds outside the process: the event file ([is_file], and
    the outcome of opening and [json.load]-ing it), the answer of the
    commit-pulls endpoint, and the two plan text files. *)
Record world := World {
  event_is_file : bool;
  event_load : result json;
  commit_pulls : result json;
  plan_txt : path;
  output_txt : path
}.

Definition getenv (environ : gmap string string) (key dflt : string) : string :=
  default dflt (environ !! key).

Definition or_else (s dflt : string) : string :=
  if Py.is_empty s then dflt else s.

(** The "Env / setup" block.  [os.environ["GITHUB_REPOSITORY"]] raises
    [KeyError] when unset, and unpacking [REPO.split("/", 1)] raises
    [ValueError] when the slug has no slash. *)
Definition load_globals (environ : gmap string string) : result globals :=
  match environ !! "GITHUB_REPOSITORY" with
  | None => Raise (Exn "KeyError" "'GITHUB_REPOSITORY'")
  | Some repo =>
      match Py.span (fun c => negb (c =? "/")%char) repo with
      | (owner, String _ repo_name) =>
          Ok {| GITHUB_API := getenv environ "GITHUB_API_URL" "https://api.github.com";
                REPO := repo;
                OWNER := owner;
                REPO_NAME := repo_name;
                TOKEN := getenv environ "GITHUB_TOKEN" "";
                EVENT_NAME := getenv environ "GITHUB_EVENT_NAME" "";
                EVENT_PATH := getenv environ "GITHUB_EVENT_PATH" "";
                RUN_ID := getenv environ "GITHUB_RUN_ID" "";
                REPO_OWNER_FOR_URL := getenv environ "GITHUB_REPOSITORY_OWNER" owner;
                GITHUB_ACTOR := getenv environ "GITHUB_ACTOR" "";
                GITHUB_WORKFLOW := getenv environ "GITHUB_WORKFLOW" "";
                TF_ACTIONS_WORKING_DIR :=
                  Py.strip (or_else (getenv environ "TF_ACTIONS_WORKING_DIR" ".") ".");
                PR_COMMENT_MARKER := Py.strip (getenv environ "PR_COMMENT_MARKER" "");
                CREATE_COMMENT :=
                  (Py.lower (getenv environ "CREATE_COMMENT" "false") =? "true")%string;
                GITHUB_SHA := getenv environ "GITHUB_SHA" "";
                TF_ADD_COUNT := getenv environ "TF_ADD_COUNT" "0";
                TF_CHANGE_COUNT := getenv environ "TF_CHANGE_COUNT" "0";
                TF_DESTROY_COUNT := getenv environ "TF_DESTROY_COUNT" "0";
                GITHUB_SERVER_URL := getenv environ "GITHUB_SERVER_URL" "https://github.com" |}
      | (_, EmptyString) =>
          Raise (Exn "ValueError" "not enough values to unpack (expected 2, got 1)")
      end
  end.

(** The body of the first [try] of [get_pr_number]: [Ok (Some n)] is
    [return n], [Ok None] falls out of the [try], [Raise e] is an exception
    inside it. *)
Definition pr_from_payload (payload : json) : result (option Z) :=
  b1 ← py_in "pull_request" payload;
  b2 ← (if b1 : bool then py_in "number" payload else Ok false);
  if b2 : bool then
    v ← py_getitem payload "number";
    n ← py_int v;
    Ok (Some n)
  else
    c1 ← py_in "issue" payload;
    c2 ← (if c1 : bool then i ← py_get payload "issue" (JDict []); py_in "pull_request" i
          else Ok false);
    if c2 : bool then
      i ← py_getitem payload "issue";
      v ← py_get i "number" JNull;
      n ← py_int v;
      Ok (Some n)
    else Ok None.

(** The body of the second [try]: the first pull request associated with the
    commit. *)
Definition pr_from_commit (w : world) : result (option Z) :=
  prs ← commit_pulls w;
  match prs with
  | JList (first :: _) =>
      v ← py_get first "number" JNull;
      n ← py_int v;
      Ok (Some n)
  | _ => Ok None
  end.

Section WithGlobals.

Variable g : globals.

Definition get_pr_number_fallback (w : world) : option Z * list string :=
  if negb (Py.is_empty (GITHUB_SHA g)) then
    match pr_from_commit w with
    | Ok (Some n) => (Some n, [])
    | Ok None => (None, [])
    | Raise e =>
        (None, ["::warning::Failed resolving PR via commit association: " +:+ exn_msg e])
    end
  else (None, []).

(** [get_pr_number]: the resolved number and the lines printed on the way. *)
Definition get_pr_number (w : world) : option Z * list string :=
  if negb (Py.is_empty (EVENT_PATH g)) && event_is_file w then
    match payload ← event_load w; pr_from_payload payload with
    | Ok (Some n) => (Some n, [])
    | Ok None => get_pr_number_fallback w
    | Raise e =>
        let (r, out) := get_pr_number_fallback w in
        (r, ("::warning::Failed reading event payload for PR number: " +:+ exn_msg e) :: out)
    end
  else get_pr_number_fallback w.

Definition find_existing_comment_id (st : forge) (pr_number : Z) (marker_html : string)
    : result (option Z) :=
  comments ← list_all_comments st pr_number;
  Ok (c_id <$> List.find (fun c => Py.contains marker_html (body_of c)) comments).

Definition workflow_url : string :=
  "https://github.com/" +:+ REPO_OWNER_FOR_URL g +:+ "/" +:+ REPO_NAME g
  +:+ "/actions/runs/" +:+ RUN_ID g.

(** [GITHUB_SHA[:7]] *)
Definition short_sha : string := String.substring 0 7 (GITHUB_SHA g).

Definition footer_md : string :=
  let run_url := workflow_url in
  let lines :=
    [ Py.nl +:+ "---" +:+ Py.nl;
      "ðŸ§‘â€ðŸ’» **Actor**: @" +:+ GITHUB_ACTOR g +:+ Py.nl;
      "ðŸ“‚ **Dir**: `" +:+ TF_ACTIONS_WORKING_DIR g +:+ "`" +:+ Py.nl;
      "ðŸ”— **Run**: [logs](" +:+ run_url +:+ ")" +:+ Py.nl ] in
  let lines :=
    if negb (Py.is_empty (GITHUB_SHA g)) then
      let commit_url :=
        GITHUB_SERVER_URL g +:+ "/" +:+ REPO_OWNER_FOR_URL g +:+ "/" +:+ REPO_NAME g
        +:+ "/commit/" +:+ GITHUB_SHA g in
      lines ++ ["ðŸ”§ **Commit**: [" +:+ short_sha +:+ "](" +:+ commit_url +:+ ")" +:+ Py.nl]
    else lines in
  Py.join "" lines.

Definition build_summary_md : string :=
  "### ðŸš€ Terraform Plan Summary" +:+ Py.nl
  +:+ "- âž• (+) **Add**: `" +:+ TF_ADD_COUNT g +:+ "`" +:+ Py.nl
  +:+ "- â™»ï¸ (~) **Change**: `" +:+ TF_CHANGE_COUNT g +:+ "`" +:+ Py.nl
  +:+ "- ðŸ—‘ï¸ (-) **Destroy**: `" +:+ TF_DESTROY_COUNT g +:+ "`" +:+ Py.nl +:+ Py.nl
  +:+ "âœ… **Plan succeeded**" +:+ Py.nl.

Definition plan_marker_phrase : string :=
  "Terraform used the selected providers to generate the following execution".

(** The [for i, l in enumerate(lines)] loop: index of the first line that
    contains the phrase, counting from [i]. *)
Fixpoint first_plan_line (i : nat) (lines : list string) : option nat :=
  match lines with
  | [] => None
  | l :: rest =>
      if Py.contains plan_marker_phrase l then Some i
      else first_plan_line (S i) rest
  end.

Definition _extract_plan_only (text : string) : string :=
  let lines := Py.splitlines text in
  let start := default 0 (first_plan_line 0 lines) in
  Py.strip (Py.join Py.nl (Py.slice_from start lines)).

Definition details_block (body : string) (footer : string) : string :=
  "<details>" +:+ Py.nl
  +:+ "<summary>ðŸ“– Details (Click me)</summary>" +:+ Py.nl +:+ Py.nl
  +:+ "```terraform" +:+ Py.nl +:+ body +:+ Py.nl +:+ "``" +:+ Py.nl +:+ Py.nl
  +:+ footer
  +:+ "</details>" +:+ Py.nl.

Definition not_available_block (footer : string) : string :=
  "<details>" +:+ Py.nl +:+ "<summary>ðŸ“– Details (Click me)</summary>"
  +:+ Py.nl +:+ Py.nl
  +:+ "_Not available._" +:+ Py.nl +:+ Py.nl
  +:+ footer
  +:+ "</details>" +:+ Py.nl.

(** [plan.txt] of the working directory when it exists, else [output.txt];
    neither [exists] nor [read_text] is inside a [try]. *)
Definition read_plan_details (w : world) (footer : string) : result string :=
  plan_exists ← path_exists (plan_txt w);
  if plan_exists : bool then
    text ← path_read_text (plan_txt w);
    Ok (details_block (_extract_plan_only text) footer)
  else
    out_exists ← path_exists (output_txt w);
    if out_exists : bool then
      text ← path_read_text (output_txt w);
      Ok (details_block (_extract_plan_only text) footer)
    else Ok (not_available_block footer).

Definition is_pr_event (name : string) : bool :=
  (name =? "pull_request")%string || (name =? "pull_request_target")%string.

(** Marker: honor a provided HTML comment, else synthesize from the working
    directory. *)
Definition marker_html : string :=
  if Py.startswith "<!--" (PR_COMMENT_MARKER g) && Py.endswith "-->" (PR_COMMENT_MARKER g)
  then PR_COMMENT_MARKER g
  else "<!-- tf-plan:" +:+ TF_ACTIONS_WORKING_DIR g +:+ " -->".

Definition header : string :=
  "## ðŸ“¦ Terraform Plan for `" +:+ TF_ACTIONS_WORKING_DIR g +:+ "` " +:+ marker_html.

(** The f-string that assembles the comment around the details block. *)
Definition body (details_html : string) : string :=
  header +:+ Py.nl +:+ Py.nl +:+ build_summary_md +:+ Py.nl +:+ details_html +:+ Py.nl
  +:+ marker_html +:+ Py.nl.

(** The body [main] builds: the details block is read first, and a failing
    read leaves [main] as an exception. *)
Definition comment_body (w : world) : result string :=
  details_html ← read_plan_details w footer_md;
  Ok (body details_html).

(** The upsert coordinator: the tail of [main] from
    [find_existing_comment_id] on.  The lookup is outside the [try]; a
    failing update or create is caught and logged. *)
Definition upsert (st : forge) (pr_number : Z) (marker : string) (body : string)
    : result (forge * list string) :=
  existing_id ← find_existing_comment_id st pr_number marker;
  if truthy existing_id then
    let id := default 0%Z existing_id in
    match update_comment st id body with
    | Ok st' =>
        Ok (st', ["::notice::Updated Terraform plan PR comment (id=" +:+ Py.str_of_Z id +:+ ")."])
    | Raise e => Ok (st, ["::error::Failed to upsert Terraform plan PR comment: " +:+ exn_msg e])
    end
  else
    match create_comment st pr_number body with
    | Ok st' => Ok (st', ["::notice::Created Terraform plan PR comment."])
    | Raise e => Ok (st, ["::error::Failed to upsert Terraform plan PR comment: " +:+ exn_msg e])
    end.

Definition main (w : world) (st : forge) : result (forge * list string) :=
  if negb (is_pr_event (EVENT_NAME g)) then
    Ok (st, ["::notice::Creation of PR comment was skipped (not a PR event)."])
  else
    let (pr_number, out) := get_pr_number w in
    if negb (truthy pr_number) then
      Ok (st, out ++ ["::notice::No PR number detected; skipping comment."])
    else if CREATE_COMMENT g && Py.is_empty (TOKEN g) then
      Ok (st, out ++ ["::error::GITHUB_TOKEN is not set but CREATE_COMMENT=true; cannot post PR comment."])
    else
      let pr := default 0%Z pr_number in
      body ← comment_body w;
      let out := out ++ ["::notice::Upserting Terraform plan PR comment for "
                         +:+ TF_ACTIONS_WORKING_DIR g +:+ " with marker " +:+ marker_html] in
      '(st', out') ← upsert st pr marker_html body;
      Ok (st', out ++ out').

End WithGlobals.

(** Running the script: the module-level block, then [main()]. *)
Definition run (environ : gmap string string) (w : world) (st : forge)
    : result (forge * list string) :=
  g ← load_globals environ;
  main g w st.

End Plan.

(* ===================================================================== *)
(** ** scripts/terraform_lint_comment.py: the lint-comment pipeline *)
(* ===================================================================== *)

Module Lint.

(** The module-level constants.  [GITHUB_WORKSPACE] is the value
    [os.environ.get("GITHUB_WORKSPACE", ".")] that [main] reads. *)
Record globals := Globals {
  GITHUB_API : string;
  REPO : string;
  OWNER : string;
  REPO_NAME : string;
  TOKEN : string;
  EVENT_NAME : string;
  EVENT_PATH : string;
  RUN_ID : string;
  REPO_OWNER_FOR_URL : string;
  GITHUB_SHA : string;
  PR_COMMENT_MARKER : string;
  TF_ACTIONS_WORKING_DIR : string;
  GITHUB_ACTOR : string;
  GITHUB_WORKFLOW : string;
  TFLINT_OUTPUT : string;
  PR_DELETE_COMMENT : bool;
  GITHUB_WORKSPACE : string
}.

(** The event file: [is_file], and the outcome of opening and
    [json.load]-ing it. *)
Record world := World {
  event_is_file : bool;
  event_load : result json
}.

Definition getenv (environ : gmap string string) (key dflt : string) : string :=
  default dflt (environ !! key).

Definition or_else (s dflt : string) : string :=
  if Py.is_empty s then dflt else s.

(** The module-level block: [GITHUB_REPOSITORY] and [GITHUB_TOKEN] are
    read with [os.environ[...]] and raise [KeyError] when unset. *)
Definition load_globals (environ : gmap string string) : result globals :=
  match environ !! "GITHUB_REPOSITORY" with
  | None => Raise (Exn "KeyError" "'GITHUB_REPOSITORY'")
  | Some repo =>
      match Py.span (fun c => negb (c =? "/")%char) repo with
      | (owner, String _ repo_name) =>
          match environ !! "GITHUB_TOKEN" with
          | None => Raise (Exn "KeyError" "'GITHUB_TOKEN'")
          | Some token =>
              Ok {| GITHUB_API := getenv environ "GITHUB_API_URL" "https://api.github.com";
                    REPO := repo;
                    OWNER := owner;
                    REPO_NAME := repo_name;
                    TOKEN := token;
                    EVENT_NAME := getenv environ "GITHUB_EVENT_NAME" "";
                    EVENT_PATH := getenv environ "GITHUB_EVENT_PATH" "";
                    RUN_ID := getenv environ "GITHUB_RUN_ID" "";
                    REPO_OWNER_FOR_URL := getenv environ "GITHUB_REPOSITORY_OWNER" owner;
                    GITHUB_SHA := getenv environ "GITHUB_SHA" "";
                    PR_COMMENT_MARKER := getenv environ "PR_COMMENT_MARKER" ".";
                    TF_ACTIONS_WORKING_DIR := getenv environ "TF_ACTIONS_WORKING_DIR" ".";
                    GITHUB_ACTOR := getenv environ "GITHUB_ACTOR" "";
                    GITHUB_WORKFLOW := getenv environ "GITHUB_WORKFLOW" "";
                    TFLINT_OUTPUT := getenv environ "TFLINT_OUTPUT" "";
                    PR_DELETE_COMMENT :=
                      (Py.lower (getenv environ "PR_DELETE_COMMENT" "false") =? "true")%string;
                    GITHUB_WORKSPACE := getenv environ "GITHUB_WORKSPACE" "." |}
          end
      | (_, EmptyString) =>
          Raise (Exn "ValueError" "not enough values to unpack (expected 2, got 1)")
      end
  end.

Definition SEV_EMOJI : gmap string string :=
  list_to_map [("error", "❌"); ("warning", "⚠️"); ("notice", "ℹ️"); ("info", "ℹ️")].

Definition SEV_WEIGHT : gmap string Z :=
  list_to_map [("error", 3%Z); ("warning", 2%Z); ("notice", 1%Z); ("info", 1%Z)].

(** *** LINE_RE *)

(** The named groups of a match; [g_rule] is [None] when the optional rule
    group took no part. *)
Record groups := Groups {
  g_file : string;
  g_line : string;
  g_col : string;
  g_level : string;
  g_msg : string;
  g_rule : option string
}.

Definition all_space (s : string) : bool := Py.forall_str Py.isspace s.

(** The tail [\s*\((?P<rule>[^)]+)\)\s*$] of the pattern, with the rule
    group taken. *)
Definition match_rule_suffix (r : string) : option string :=
  r2 ← Py.expect "(" (Py.lstrip r);
  let (rule, r3) := Py.span (fun c => negb (c =? ")")%char) r2 in
  if Py.is_empty rule then None
  else
    r4 ← Py.expect ")" r3;
    if all_space r4 then Some rule else None.

(** [(?P<msg>.*?)(?:\s*\((?P<rule>[^)]+)\))?\s*$]: the lazy message is the
    shortest prefix after which the rest is a rule suffix or, failing that,
    only whitespace; [.] does not cross a line feed. *)
Fixpoint match_msg (r : string) : option (string * option string) :=
  match match_rule_suffix r with
  | Some rule => Some (EmptyString, Some rule)
  | None =>
      if all_space r then Some (EmptyString, None)
      else
        match r with
        | EmptyString => None
        | String c r' =>
            if (c =? "010")%char then None
            else
              match match_msg r' with
              | Some (m, rule) => Some (String c m, rule)
              | None => None
              end
        end
  end.

(** [LINE_RE.match(raw)]:
    [^(?P<file>[^:\n]+):(?P<line>\d+):(?P<col>\d+):\s*(?P<level>[A-Za-z]+)\s*-\s*]
    followed by the message and rule tail. *)
Definition LINE_RE_match (raw : string) : option groups :=
  let (file, r1) := Py.span (fun c => negb ((c =? ":")%char || (c =? "010")%char)) raw in
  if Py.is_empty file then None
  else
    r2 ← Py.expect ":" r1;
    let (line, r3) := Py.span Py.isdigit r2 in
    if Py.is_empty line then None
    else
      r4 ← Py.expect ":" r3;
      let (col, r5) := Py.span Py.isdigit r4 in
      if Py.is_empty col then None
      else
        r6 ← Py.expect ":" r5;
        let (level, r7) := Py.span Py.isalpha (Py.lstrip r6) in
        if Py.is_empty level then None
        else
          r8 ← Py.expect "-" (Py.lstrip r7);
          '(msg, rule) ← match_msg (Py.lstrip r8);
          Some (Groups file line col level msg rule).

(** *** parse_tflint_output *)

Record issue := Issue {
  line : Z;
  col : Z;
  level : string;
  rule : string;
  msg : string
}.

(** An insertion-ordered [Dict[str, List[issue]]]. *)
Definition files := list (string * list issue).

(** [files.setdefault(file, []).append(issue)] *)
Fixpoint setdefault_append (file : string) (it : issue) (fs : files) : files :=
  match fs with
  | [] => [(file, [it])]
  | (k, v) :: rest =>
      if (k =? file)%string then (k, v ++ [it]) :: rest
      else (k, v) :: setdefault_append file it rest
  end.

Definition is_summary_line (raw : string) : bool :=
  let low := Py.lower raw in
  Py.contains "issue(s) found" low || Py.contains "no issues" low.

(** The file key and the [issue] dict built from [d = m.groupdict()]. *)
Definition issue_of_groups (d : groups) : result (string * issue) :=
  let file := Py.strip (g_file d) in
  ln ← Py.int_of_str (g_line d);
  cl ← Py.int_of_str (g_col d);
  Ok (file, {| line := ln;
               col := cl;
               level := Py.lower (g_level d);
               rule := Py.strip (default "" (g_rule d));
               msg := Py.strip (g_msg d) |}).

(** One iteration of the [for raw in text.splitlines()] loop. *)
Definition parse_line (raw : string) (fs : files) : result files :=
  if Py.is_empty (Py.strip raw) then Ok fs
  else if is_summary_line raw then Ok fs
  else
    match LINE_RE_match raw with
    | None => Ok fs
    | Some d =>
        '(file, it) ← issue_of_groups d;
        Ok (setdefault_append file it fs)
    end.

Fixpoint parse_lines (lines : list string) (fs : files) : result files :=
  match lines with
  | [] => Ok fs
  | raw :: rest => fs' ← parse_line raw fs; parse_lines rest fs'
  end.

(** A stable sort: [x] is put before the first element it does not exceed,
    so equal keys keep their order. *)
Fixpoint insert_by {A : Type} (le : A -> A -> bool) (x : A) (l : list A) : list A :=
  match l with
  | [] => [x]
  | y :: r => if le x y then x :: l else y :: insert_by le x r
  end.

Definition sort_by {A : Type} (le : A -> A -> bool) (l : list A) : list A :=
  fold_right (insert_by le) [] l.

(** The sort key [(-SEV_WEIGHT.get(x["level"], 0), x["line"], x["col"])]. *)
Definition issue_key (it : issue) : Z * Z * Z :=
  ((- default 0 (SEV_WEIGHT !! level it))%Z, line it, col it).

Definition key_le (a b : Z * Z * Z) : bool :=
  let '(a1, a2, a3) := a in
  let '(b1, b2, b3) := b in
  ((a1 <? b1) || ((a1 =? b1) && ((a2 <? b2) || ((a2 =? b2) && (a3 <=? b3)))))%Z.

Definition issue_le (a b : issue) : bool := key_le (issue_key a) (issue_key b).

(** The key [kv[0].lower()] of the final [sorted]. *)
Definition file_le (a b : string * list issue) : bool :=
  (Py.lower (fst a) <=? Py.lower (fst b))%string.

Definition sort_issues (fs : files) : files :=
  map (fun kv => (fst kv, sort_by issue_le (snd kv))) fs.

Definition parse_tflint_output (text : string) : result files :=
  fs ← parse_lines (Py.splitlines text) [];
  Ok (sort_by file_le (sort_issues fs)).

(** *** totals_from_files *)

Record totals := Totals {
  t_error : nat;
  t_warning : nat;
  t_info : nat;
  t_total : nat
}.

(** [t.get(k, 0)] *)
Definition get0 (t : gmap string nat) (k : string) : nat := default 0 (t !! k).

(** [t[lvl] = t.get(lvl, 0) + 1] *)
Definition count_issue (t : gmap string nat) (it : issue) : gmap string nat :=
  <[level it := get0 t (level it) + 1]> t.

Definition count_file (t : gmap string nat) (kv : string * list issue) : gmap string nat :=
  fold_left count_issue (snd kv) t.

Definition totals_from_files (fs : files) : totals :=
  let t0 : gmap string nat :=
    list_to_map [("error", 0); ("warning", 0); ("notice", 0); ("info", 0)] in
  let t := fold_left count_file fs t0 in
  let t := <["info" := get0 t "info" + get0 t "notice"]> t in
  {| t_error := get0 t "error";
     t_warning := get0 t "warning";
     t_info := get0 t "info";
     t_total := get0 t "error" + get0 t "warning" + get0 t "info" |}.

(** [SEV_EMOJI[k]] for a key of the table. *)
Definition sev_emoji (k : string) : string := default "" (SEV_EMOJI !! k).

Definition build_summary_md (t : totals) : string :=
  "### 🧹 TFLint Summary" +:+ Py.nl
  +:+ "- " +:+ sev_emoji "error" +:+ " **Errors**: `" +:+ Py.str_of_nat (t_error t) +:+ "`" +:+ Py.nl
  +:+ "- " +:+ sev_emoji "warning" +:+ " **Warnings**: `" +:+ Py.str_of_nat (t_warning t) +:+ "`" +:+ Py.nl
  +:+ "- " +:+ sev_emoji "info" +:+ " **Info**: `" +:+ Py.str_of_nat (t_info t) +:+ "`" +:+ Py.nl
  +:+ "- 📦 **Total**: `" +:+ Py.str_of_nat (t_total t) +:+ "`" +:+ Py.nl +:+ Py.nl
  +:+ "_Legend: ❌ error · ⚠️ warning · ℹ️ info_" +:+ Py.nl +:+ Py.nl
  +:+ "✅ **Lint check succeeded**" +:+ Py.nl.

(** *** build_details_html *)

Definition MAX_ROWS : nat := 500.

(** The entries appended to [parts], by the statement that appends them. *)
Inductive part :=
| PText (s : string)
| PFileOpen (file_path : string) (n : nat)
| PTableOpen
| PRow (file_path : string) (it : issue)
| PFileClose
| PTruncated (workflow_url : string).

Section WithGlobals.

Variable g : globals.

Definition line_cell (file_path : string) (it : issue) : string :=
  if negb (Py.is_empty (GITHUB_SHA g)) then
    let href :=
      "https://github.com/" +:+ REPO_OWNER_FOR_URL g +:+ "/" +:+ REPO_NAME g +:+ "/blob/"
      +:+ GITHUB_SHA g +:+ "/" +:+ file_path +:+ "#L" +:+ Py.str_of_Z (line it) in
    "<a href='" +:+ href +:+ "'>" +:+ Py.str_of_Z (line it) +:+ "</a>"
  else Py.str_of_Z (line it).

Definition row_html (file_path : string) (it : issue) : string :=
  let lvl := level it in
  let emoji := default "ℹ️" (SEV_EMOJI !! lvl) in
  let rule := if negb (Py.is_empty (rule it)) then Py.escape (rule it) else "" in
  let msg := Py.escape (msg it) in
  "<tr>"
  +:+ "<td align='right'>" +:+ line_cell file_path it +:+ "</td>"
  +:+ "<td align='right'>" +:+ Py.str_of_Z (col it) +:+ "</td>"
  +:+ "<td>" +:+ emoji +:+ " <strong>" +:+ Py.escape (Py.title lvl) +:+ "</strong></td>"
  +:+ "<td><code>" +:+ rule +:+ "</code></td>"
  +:+ "<td>" +:+ msg +:+ "</td>"
  +:+ "</tr>".

Definition render_part (p : part) : string :=
  match p with
  | PText s => s
  | PFileOpen file_path n =>
      Py.nl +:+ "<details><summary>📄 <code>" +:+ Py.escape file_path
      +:+ "</code> — <strong>" +:+ Py.str_of_nat n +:+ "</strong> issue(s)</summary>" +:+ Py.nl
  | PTableOpen =>
      "<table>"
      +:+ "<thead><tr>"
      +:+ "<th align='right'>Line</th>"
      +:+ "<th align='right'>Col</th>"
      +:+ "<th align='left'>Level</th>"
      +:+ "<th align='left'>Rule</th>"
      +:+ "<th align='left'>Message</th>"
      +:+ "</tr></thead><tbody>"
  | PRow file_path it => row_html file_path it
  | PFileClose => "</tbody></table>" +:+ Py.nl +:+ "</details>" +:+ Py.nl
  | PTruncated workflow_url =>
      "<p>⏳ Output truncated to " +:+ Py.str_of_nat MAX_ROWS
      +:+ " rows for readability. See full details in the Actions tab: " +:+ workflow_url +:+ "</p>"
  end.

End WithGlobals.

(** The inner loop [for it in issues]: the rows appended, the new
    [row_count], and whether the loop left through the truncating [break]. *)
Fixpoint rows_loop (file_path : string) (issues : list issue) (row_count : nat)
    : list part * nat * bool :=
  match issues with
  | [] => ([], row_count, false)
  | it :: rest =>
      if MAX_ROWS <=? row_count then ([], row_count, true)
      else
        let '(ps, rc, tr) := rows_loop file_path rest (row_count + 1) in
        (PRow file_path it :: ps, rc, tr)
  end.

(** The outer loop [for file_path, issues in files.items()]. *)
Fixpoint files_loop (fs : files) (row_count : nat) : list part * bool :=
  match fs with
  | [] => ([], false)
  | (file_path, issues) :: rest =>
      let '(rows, rc, tr) := rows_loop file_path issues row_count in
      let block := [PFileOpen file_path (length issues); PTableOpen] ++ rows ++ [PFileClose] in
      if tr then (block, true)
      else
        let '(ps, tr') := files_loop rest rc in
        (block ++ ps, tr')
  end.

Definition details_parts (fs : files) (workflow_url : string) : list part :=
  let parts := [PText "<details>"; PText "<summary>📖 Details (Click me)</summary>"; PText ""] in
  match fs with
  | [] => parts ++ [PText "_No issues to display._"; PText ""; PText "</details>"; PText ""]
  | _ :: _ =>
      let '(ps, truncated) := files_loop fs 0 in
      let parts := parts ++ ps in
      let parts := if truncated then parts ++ [PTruncated workflow_url] else parts in
      parts ++ [PText ""; PText "</details>"; PText ""]
  end.

Definition build_details_html (g : globals) (fs : files) (workflow_url : string) : string :=
  Py.join Py.nl (map (render_part g) (details_parts fs workflow_url)).

(** *** get_pr_number, the locator and main *)

Definition get_pr_number (g : globals) (w : world) : result (option Z) :=
  if Py.is_empty (EVENT_PATH g) || negb (event_is_file w) then Ok None
  else
    payload ← event_load w;
    b1 ← py_in "pull_request" payload;
    b2 ← (if b1 : bool then py_in "number" payload else Ok false);
    if b2 : bool then
      v ← py_getitem payload "number";
      n ← py_int v;
      Ok (Some n)
    else Ok None.

Definition hidden_token (marker : string) : string := "<!-- tflint:" +:+ marker +:+ " -->".

(** The test [hidden in body or marker in body] of the locator. *)
Definition locator_match (marker : string) (c : comment) : bool :=
  let hidden := hidden_token marker in
  let body := body_of c in
  Py.contains hidden body || Py.contains marker body.

Definition find_existing_comment_id (st : forge) (pr_number : Z) (marker : string)
    : result (option Z) :=
  comments ← list_all_comments st pr_number;
  Ok (c_id <$> List.find (locator_match marker) comments).

Section WithGlobals.

Variable g : globals.

Definition footer_md (repo run_id : string) : string :=
  Py.nl +:+ "---" +:+ Py.nl
  +:+ "🧑‍💻 **Actor**: @" +:+ GITHUB_ACTOR g +:+ Py.nl
  +:+ "⚙️ **Event**: " +:+ EVENT_NAME g +:+ Py.nl
  +:+ "📂 **Working Dir**: `" +:+ TF_ACTIONS_WORKING_DIR g +:+ "`" +:+ Py.nl
  +:+ "🏗️ **Workflow**: " +:+ GITHUB_WORKFLOW g +:+ Py.nl
  +:+ "🔗 **Run Logs**: [View here](https://github.com/" +:+ repo +:+ "/actions/runs/"
  +:+ run_id +:+ ")" +:+ Py.nl.

Definition is_pr_event (name : string) : bool :=
  (name =? "pull_request")%string || (name =? "pull_request_target")%string.

(** [TF_ACTIONS_WORKING_DIR or os.environ.get("GITHUB_WORKSPACE", ".")] *)
Definition wd_visible : string := or_else (TF_ACTIONS_WORKING_DIR g) (GITHUB_WORKSPACE g).

Definition hidden_marker : string := hidden_token wd_visible.

Definition workflow_url : string :=
  "https://github.com/" +:+ REPO_OWNER_FOR_URL g +:+ "/" +:+ REPO_NAME g
  +:+ "/actions/runs/" +:+ RUN_ID g.

Definition plural (n : nat) : string := if n =? 1 then "" else "s".

(** The short status of the header. *)
Definition status_of (t : totals) : string :=
  let err := t_error t in
  let warn := t_warning t in
  let info := t_info t in
  let parts := [] in
  let parts :=
    if negb (err =? 0) then parts ++ [Py.str_of_nat err +:+ " ❌ error" +:+ plural err]
    else parts in
  let parts :=
    if negb (warn =? 0) then parts ++ [Py.str_of_nat warn +:+ " ⚠️ warning" +:+ plural warn]
    else parts in
  let parts :=
    match parts with
    | [] => if negb (info =? 0) then parts ++ [Py.str_of_nat info +:+ " ℹ️ info"] else parts
    | _ :: _ => parts
    end in
  match parts with
  | [] => "no issues"
  | _ :: _ => Py.join ", " parts
  end.

Definition header_md (t : totals) : string :=
  "## 🧹 TFLint for `" +:+ wd_visible +:+ "` — " +:+ status_of t.

Definition helper_md : string :=
  "_How to read_: **Errors** block merges, **Warnings** need attention, **Info** is advisory." +:+ Py.nl
  +:+ "_Fix locally_: run `tflint --init && tflint` in this folder." +:+ Py.nl +:+ Py.nl
  +:+ "---" +:+ Py.nl.

Definition comment_body (fs : files) : string :=
  let t := totals_from_files fs in
  let summary_md := build_summary_md t in
  let details_html := build_details_html g fs workflow_url in
  let footer := footer_md (REPO g) (RUN_ID g) in
  header_md t +:+ Py.nl +:+ Py.nl
  +:+ summary_md +:+ Py.nl +:+ helper_md
  +:+ details_html +:+ Py.nl
  +:+ "🔗 [View run logs & artifacts](" +:+ workflow_url +:+ ")" +:+ Py.nl
  +:+ footer +:+ Py.nl
  +:+ hidden_marker +:+ Py.nl.

(** The upsert coordinator: the tail of [main] from
    [find_existing_comment_id] on. *)
Definition upsert (st : forge) (pr_number : Z) (marker : string) (body : string)
    : result (forge * list string) :=
  existing_id ← find_existing_comment_id st pr_number marker;
  if truthy existing_id then
    let id := default 0%Z existing_id in
    match update_comment st id body with
    | Ok st' => Ok (st', ["::notice::Updated TFLint PR comment (id=" +:+ Py.str_of_Z id +:+ ")."])
    | Raise e => Ok (st, ["::error::Failed to upsert TFLint PR comment: " +:+ exn_msg e])
    end
  else
    match create_comment st pr_number body with
    | Ok st' => Ok (st', ["::notice::Created TFLint PR comment."])
    | Raise e => Ok (st, ["::error::Failed to upsert TFLint PR comment: " +:+ exn_msg e])
    end.

(** The [if PR_DELETE_COMMENT:] branch of [main]. *)
Definition delete_existing (st : forge) (pr_number : Z) (marker : string)
    : result (forge * list string) :=
  existing_id ← find_existing_comment_id st pr_number marker;
  if truthy existing_id then
    match delete_comment st (default 0%Z existing_id) with
    | Ok st' => Ok (st', ["::notice::Deleted existing TFLint comment."])
    | Raise e => Ok (st, ["::warning::Failed deleting TFLint comment: " +:+ exn_msg e])
    end
  else Ok (st, []).

Definition main (w : world) (st : forge) : result (forge * list string) :=
  if negb (is_pr_event (EVENT_NAME g)) then
    Ok (st, ["::notice::Creation of PR comment was skipped."])
  else
    pr_number ← get_pr_number g w;
    if negb (truthy pr_number) then
      Ok (st, ["::notice::No PR number detected; skipping comment."])
    else
      let pr := default 0%Z pr_number in
      fs ← parse_tflint_output (TFLINT_OUTPUT g);
      if PR_DELETE_COMMENT g then delete_existing st pr wd_visible
      else upsert st pr wd_visible (comment_body fs).

End WithGlobals.

(** Running the script: the module-level block, then [main()]. *)
Definition run (environ : gmap string string) (w : world) (st : forge)
    : result (forge * list string) :=
  g ← load_globals environ;
  main g w st.

End Lint.

(* ===================================================================== *)
(** ** Vocabulary of the properties *)
(* ===================================================================== *)

(** The forge hands out distinct, positive comment ids. *)
Definition forge_wf (st : forge) : Prop :=
  List.NoDup (map c_id st) /\ Forall (fun c => (0 < c_id c)%Z) st.

(** A comment of pull request [pr] whose body satisfies [mb]. *)
Definition pr_match (mb : string -> bool) (pr : Z) (c : comment) : bool :=
  (c_pr c =? pr)%Z && mb (body_of c).

(** The comments of pull request [pr] whose body satisfies [mb]. *)
Definition marked_on (mb : string -> bool) (pr : Z) (st : forge) : list comment :=
  List.filter (pr_match mb pr) st.

(** The plan pipeline looks for the marker token itself. *)
Definition plan_match (marker : string) (body : string) : bool := Py.contains marker body.

(** The lint pipeline looks for the hidden token or the bare key. *)
Definition lint_match (marker : string) (body : string) : bool :=
  Py.contains (Lint.hidden_token marker) body || Py.contains marker body.

(** The locator of either pipeline, by the test [mb] it applies to a body. *)
Definition locate (mb : string -> bool) (st : forge) (pr : Z) : option Z :=
  c_id <$> List.find (fun c => mb (body_of c)) (comments_on pr st).

(** The forge after an upsert whose API calls succeed. *)
Definition upsert_state (mb : string -> bool) (st : forge) (pr : Z) (body : string) : forge :=
  if truthy (locate mb st pr)
  then map (set_body (default 0%Z (locate mb st pr)) body) st
  else st ++ [Comment (next_id st) pr (Some body)].

(** [s] holds no line feed. *)
Definition one_line (s : string) : bool :=
  Py.forall_str (fun c => negb (c =? "010")%char) s.

(** The only line boundary in [s] is the line feed. *)
Definition lf_only (s : string) : bool :=
  Py.forall_str (fun c => negb (Py.is_linebreak c) || (c =? "010")%char) s.

(** No line holds the phrase that opens the execution plan. *)
Definition no_plan_line (lines : list string) : Prop :=
  Forall (fun l => Py.contains Plan.plan_marker_phrase l = false) lines.

(** [body] begins with a one-line header that contains [marker]. *)
Definition header_carries (marker body : string) : Prop :=
  exists header rest,
    body = header +:+ Py.nl +:+ rest /\
    one_line header = true /\
    Py.contains marker header = true.

(** [n] copies of a line, each ended by a line feed. *)
Fixpoint repeat_line (n : nat) (l : string) : string :=
  match n with
  | O => EmptyString
  | S n' => l +:+ Py.nl +:+ repeat_line n' l
  end.

Module Html.

(** The tags of a piece of HTML, in order.  Attribute values may be quoted;
    a [>] inside quotes does not end the tag. *)
Inductive tag :=
| TOpen (name : string)
| TClose (name : string).

Inductive lex_state :=
| InText
| AfterLt
| InOpenName (acc : string)
| InCloseName (acc : string)
| InAttrs
| InQuote (q : ascii).

Definition is_name_char (c : ascii) : bool := Py.isalpha c || Py.isdigit c.

Definition is_quote (c : ascii) : bool := (c =? "'")%char || (c =? "034")%char.

Fixpoint lex (st : lex_state) (s : string) : list tag :=
  match s with
  | EmptyString =>
      match st with
      | InOpenName acc => [TOpen acc]
      | InCloseName acc => [TClose acc]
      | _ => []
      end
  | String c r =>
      match st with
      | InText => if (c =? "<")%char then lex AfterLt r else lex InText r
      | AfterLt =>
          if (c =? "/")%char then lex (InCloseName EmptyString) r
          else if Py.isalpha c then lex (InOpenName (String c EmptyString)) r
          else if (c =? "<")%char then lex AfterLt r
          else lex InText r
      | InOpenName acc =>
          if is_name_char c then lex (InOpenName (acc +:+ String c EmptyString)) r
          else if (c =? ">")%char then TOpen acc :: lex InText r
          else if is_quote c then TOpen acc :: lex (InQuote c) r
          else TOpen acc :: lex InAttrs r
      | InCloseName acc =>
          if is_name_char c then lex (InCloseName (acc +:+ String c EmptyString)) r
          else if (c =? ">")%char then TClose acc :: lex InText r
          else TClose acc :: lex InAttrs r
      | InAttrs =>
          if (c =? ">")%char then lex InText r
          else if is_quote c then lex (InQuote c) r
          else lex InAttrs r
      | InQuote q => if (c =? q)%char then lex InAttrs r else lex (InQuote q) r
      end
  end.

Definition tags (s : string) : list tag := lex InText s.

Definition tag_name (t : tag) : string :=
  match t with
  | TOpen n => n
  | TClose n => n
  end.

Definition block_names : list string := ["details"; "table"; "thead"; "tbody"; "tr"].

Definition is_block (t : tag) : bool :=
  existsb (String.eqb (tag_name t)) block_names.

(** Every closing tag closes the innermost open one, and nothing stays
    open. *)
Fixpoint nested (stack : list string) (ts : list tag) : bool :=
  match ts with
  | [] => match stack with [] => true | _ :: _ => false end
  | TOpen n :: r => nested (n :: stack) r
  | TClose n :: r =>
      match stack with
      | m :: stack' => (m =? n)%string && nested stack' r
      | [] => false
      end
  end.

(** The block tags (details, table, thead, tbody, tr) of [s] are balanced. *)
Definition balanced (s : string) : bool :=
  nested [] (List.filter is_block (tags s)).

End Html.

Module LintSpec.

Import Lint.

Definition all_issues (fs : files) : list issue := flat_map snd fs.

(** The issues of a parse result, each with its file. *)
Definition entries (fs : files) : list (string * issue) :=
  flat_map (fun kv => map (pair (fst kv)) (snd kv)) fs.

(** What a single line of lint output contributes to a parse that returns
    (nothing when the conversion of its numbers raises). *)
Definition line_entry (raw : string) : option (string * issue) :=
  if Py.is_empty (Py.strip raw) || is_summary_line raw then None
  else
    match LINE_RE_match raw with
    | Some d =>
        match issue_of_groups d with
        | Ok p => Some p
        | Raise _ => None
        end
    | None => None
    end.

(** A line the loop passes over before it tries the pattern: a blank
    line, or one that holds a summary phrase in any letter case. *)
Definition passed_over (raw : string) : bool :=
  Py.is_empty (Py.strip raw)
  || Py.contains "issue(s) found" (Py.lower raw)
  || Py.contains "no issues" (Py.lower raw).

(** A run of digits that [int()] converts under the default digit limit. *)
Definition within_limit (digits : string) : bool :=
  String.length digits <=? Py.int_max_str_digits.

(** A line that is not passed over and matches the pattern with a line or
    column number past the digit limit. *)
Definition overlong (raw : string) : bool :=
  negb (passed_over raw)
  && match LINE_RE_match raw with
     | Some d => negb (within_limit (g_line d)) || negb (within_limit (g_col d))
     | None => false
     end.

(** The entries the lines of a lint output contribute, in order. *)
Definition kept_entries (lines : list string) : list (string * issue) :=
  flat_map (fun raw => match line_entry raw with Some p => [p] | None => [] end) lines.









Definition has_level (k : string) (it : issue) : bool := (level it =? k)%string.

Definition count_level (k : string) (fs : files) : nat :=
  length (List.filter (has_level k) (all_issues fs)).

(** The four severities of the data model. *)
Definition known_level (it : issue) : bool :=
  has_level "error" it || has_level "warning" it || has_level "notice" it || has_level "info" it.

Definition is_row (p : part) : bool :=
  match p with
  | PRow _ _ => true
  | _ => false
  end.

Definition is_notice (p : part) : bool :=
  match p with
  | PTruncated _ => true
  | _ => false
  end.

Definition is_file_open (p : part) : bool :=
  match p with
  | PFileOpen _ _ => true
  | _ => false
  end.

(** Data rows and truncation notices among the parts. *)
Definition rows (ps : list part) : nat := length (List.filter is_row ps).
Definition notices (ps : list part) : nat := length (List.filter is_notice ps).

Definition total_issues (fs : files) : nat := length (all_issues fs).

(** A lint run up to the parsed issues: what [k] observes of the globals
    and the parse result. *)
Definition with_parsed {A : Type} (environ : gmap string string)
    (k : globals -> files -> A) : result A :=
  g ← load_globals environ;
  fs ← parse_tflint_output (TFLINT_OUTPUT g);
  Ok (k g fs).

(** The number of issues parsed, the data rows and truncation notices
    rendered, and whether the block tags of the rendered HTML balance. *)
Definition details_report (environ : gmap string string) : result (nat * nat * nat * bool) :=
  with_parsed environ (fun g fs =>
    let parts := details_parts fs (workflow_url g) in
    (total_issues fs, rows parts, notices parts,
     Html.balanced (build_details_html g fs (workflow_url g)))).

End LintSpec.

(** The details HTML read piece by piece. *)
Module HtmlFlow.

Import Html.

(** One step of the lexer: the next state and the tags completed by [c]. *)
Definition lex_step (st : lex_state) (c : ascii) : lex_state * list tag :=
  match st with
  | InText => if (c =? "<")%char then (AfterLt, []) else (InText, [])
  | AfterLt =>
      if (c =? "/")%char then (InCloseName EmptyString, [])
      else if Py.isalpha c then (InOpenName (String c EmptyString), [])
      else if (c =? "<")%char then (AfterLt, [])
      else (InText, [])
  | InOpenName acc =>
      if is_name_char c then (InOpenName (acc +:+ String c EmptyString), [])
      else if (c =? ">")%char then (InText, [TOpen acc])
      else if is_quote c then (InQuote c, [TOpen acc])
      else (InAttrs, [TOpen acc])
  | InCloseName acc =>
      if is_name_char c then (InCloseName (acc +:+ String c EmptyString), [])
      else if (c =? ">")%char then (InText, [TClose acc])
      else (InAttrs, [TClose acc])
  | InAttrs =>
      if (c =? ">")%char then (InText, [])
      else if is_quote c then (InQuote c, [])
      else (InAttrs, [])
  | InQuote q => if (c =? q)%char then (InAttrs, []) else (InQuote q, [])
  end.

(** The lexer run over a piece of a document: the state it ends in and the
    tags completed on the way. *)
Fixpoint lex_run (st : lex_state) (s : string) : lex_state * list tag :=
  match s with
  | EmptyString => (st, [])
  | String c r =>
      let (st1, t1) := lex_step st c in
      let (st2, t2) := lex_run st1 r in
      (st2, t1 ++ t2)
  end.

(** Read from state [st], the piece [s] ends in state [st'] and holds the
    block tags [bs]. *)
Definition reads (st : lex_state) (s : string) (st' : lex_state) (bs : list tag) : Prop :=
  fst (lex_run st s) = st' /\ List.filter is_block (snd (lex_run st s)) = bs.

(** A piece that starts and ends outside any tag and holds no block tag. *)
Definition inert (s : string) : Prop := reads InText s InText [].

(** No [<] in [s]. *)
Definition tag_free (s : string) : bool :=
  Py.forall_str (fun c => negb (c =? "<")%char) s.

(** No apostrophe in [s]. *)
Definition quote_free (s : string) : bool :=
  Py.forall_str (fun c => negb (c =? "'")%char) s.

(** The line links of file [file_path] stay inside their quotes: no commit
    is known (no link is made), or no part of the link holds an
    apostrophe. *)
Definition href_safe (g : Lint.globals) (file_path : string) : bool :=
  Py.is_empty (Lint.GITHUB_SHA g)
  || (quote_free (Lint.REPO_OWNER_FOR_URL g) && quote_free (Lint.REPO_NAME g)
      && quote_free (Lint.GITHUB_SHA g) && quote_free file_path).

(** The block tags each entry of [parts] contributes. *)
Definition part_blocks (p : Lint.part) : list tag :=
  match p with
  | Lint.PText s => List.filter is_block (snd (lex_run InText s))
  | Lint.PFileOpen _ _ => [TOpen "details"]
  | Lint.PTableOpen =>
      [TOpen "table"; TOpen "thead"; TOpen "tr"; TClose "tr"; TClose "thead"; TOpen "tbody"]
  | Lint.PRow _ _ => [TOpen "tr"; TClose "tr"]
  | Lint.PFileClose => [TClose "tbody"; TClose "table"; TClose "details"]
  | Lint.PTruncated _ => []
  end.

End HtmlFlow.

(** The maximal runs of three or more backticks in [s], the marks that open
    or close a fenced code block; [run] is the length of the run that [s]
    continues. *)
Fixpoint fence_runs (run : nat) (s : string) : nat :=
  match s with
  | EmptyString => if 3 <=? run then 1 else 0
  | String c r =>
      if (c =? "`")%char then fence_runs (S run) r
      else (if 3 <=? run then 1 else 0) + fence_runs 0 r
  end.

(* ===================================================================== *)
(** ** Sample runs *)
(* ===================================================================== *)

Module Sample.

(** A pull-request event for pull request 5. *)
Definition pr_payload : json :=
  JDict [("action", JStr "opened"); ("number", JInt 5); ("pull_request", JDict [])].

(** The lint job's environment; no working directory is configured. *)
Definition lint_environ : gmap string string :=
  list_to_map
    [("GITHUB_REPOSITORY", "acme/infra");
     ("GITHUB_TOKEN", "t0ken");
     ("GITHUB_EVENT_NAME", "pull_request");
     ("GITHUB_EVENT_PATH", "/github/workflow/event.json");
     ("GITHUB_RUN_ID", "42");
     ("TFLINT_OUTPUT",
      "main.tf:10:5: Warning - unused variable (terraform_unused_declarations)")].

Definition lint_world : Lint.world := Lint.World true (Ok pr_payload).

(** What the sample lint output parses to. *)
Definition lint_files : Lint.files :=
  [("main.tf", [Lint.Issue 10 5 "warning" "terraform_unused_declarations" "unused variable"])].

(** The globals the lint script derives from [lint_environ]. *)
Definition lint_globals : Lint.globals :=
  {| Lint.GITHUB_API := "https://api.github.com";
     Lint.REPO := "acme/infra";
     Lint.OWNER := "acme";
     Lint.REPO_NAME := "infra";
     Lint.TOKEN := "t0ken";
     Lint.EVENT_NAME := "pull_request";
     Lint.EVENT_PATH := "/github/workflow/event.json";
     Lint.RUN_ID := "42";
     Lint.REPO_OWNER_FOR_URL := "acme";
     Lint.GITHUB_SHA := "";
     Lint.PR_COMMENT_MARKER := ".";
     Lint.TF_ACTIONS_WORKING_DIR := ".";
     Lint.GITHUB_ACTOR := "";
     Lint.GITHUB_WORKFLOW := "";
     Lint.TFLINT_OUTPUT :=
       "main.tf:10:5: Warning - unused variable (terraform_unused_declarations)";
     Lint.PR_DELETE_COMMENT := false;
     Lint.GITHUB_WORKSPACE := "." |}.

(** A pull request whose only comment was posted by a coverage bot. *)
Definition foreign_forge : forge := [Comment 7 5 (Some "Coverage: 93.5% of lines")].

(** A pull request with one review comment. *)
Definition review_forge : forge := [Comment 7 5 (Some "LGTM")].

Definition plan_marker : string := "<!-- tf-plan:. -->".

(** An event file that is not valid JSON: [json.load] raises. *)
Definition malformed : result json :=
  Raise (Exn "JSONDecodeError" "Expecting value: line 1 column 1 (char 0)").

Definition lint_world_malformed : Lint.world := Lint.World true malformed.

(** The plan job's environment, for the same event and commit. *)
Definition plan_environ : gmap string string :=
  list_to_map
    [("GITHUB_REPOSITORY", "acme/infra");
     ("GITHUB_TOKEN", "t0ken");
     ("GITHUB_EVENT_NAME", "pull_request");
     ("GITHUB_EVENT_PATH", "/github/workflow/event.json");
     ("GITHUB_RUN_ID", "42");
     ("GITHUB_SHA", "abc123")].

(** The globals the plan script derives from [plan_environ]. *)
Definition plan_globals : Plan.globals :=
  {| Plan.GITHUB_API := "https://api.github.com";
     Plan.REPO := "acme/infra";
     Plan.OWNER := "acme";
     Plan.REPO_NAME := "infra";
     Plan.TOKEN := "t0ken";
     Plan.EVENT_NAME := "pull_request";
     Plan.EVENT_PATH := "/github/workflow/event.json";
     Plan.RUN_ID := "42";
     Plan.REPO_OWNER_FOR_URL := "acme";
     Plan.GITHUB_ACTOR := "";
     Plan.GITHUB_WORKFLOW := "";
     Plan.TF_ACTIONS_WORKING_DIR := ".";
     Plan.PR_COMMENT_MARKER := "";
     Plan.CREATE_COMMENT := false;
     Plan.GITHUB_SHA := "abc123";
     Plan.TF_ADD_COUNT := "0";
     Plan.TF_CHANGE_COUNT := "0";
     Plan.TF_DESTROY_COUNT := "0";
     Plan.GITHUB_SERVER_URL := "https://github.com" |}.

(** The plan text is on disk and the event file is readable. *)
Definition plan_world : Plan.world :=
  Plan.World true (Ok pr_payload) (Ok (JList []))
    (Plan.file_with ("Initializing the backend..." +:+ Py.nl +:+ "No changes." +:+ Py.nl))
    Plan.no_file.

(** The commit-pulls endpoint answers with pull request 5. *)
Definition plan_world_malformed : Plan.world :=
  Plan.World true malformed (Ok (JList [JDict [("number", JInt 5)]]))
    Plan.no_file Plan.no_file.

(** A commit is known, and the linted file has an apostrophe in its name. *)
Definition quote_environ : gmap string string :=
  <["GITHUB_SHA" := "abc123"]>
    (<["TFLINT_OUTPUT" := "a'b.tf:1:2: Error - x"]> lint_environ).

(** 501 issues in a file whose name closes the quoted link and opens a
    block. *)
Definition hostile_environ : gmap string string :=
  <["GITHUB_SHA" := "abc123"]>
    (<["TFLINT_OUTPUT" := repeat_line 501 "'><details>.tf:1:1: Error - x"]> lint_environ).

(** 501 issues in an ordinary file. *)
Definition benign_environ : gmap string string :=
  <["GITHUB_SHA" := "abc123"]>
    (<["TFLINT_OUTPUT" := repeat_line 501 "main.tf:1:1: Error - x"]> lint_environ).

End Sample.

Module Cases.

(** The lint globals of [Sample.lint_globals] for a run that knows its
    commit. *)
Definition lint_globals_at_commit : Lint.globals :=
  {| Lint.GITHUB_API := "https://api.github.com";
     Lint.REPO := "acme/infra";
     Lint.OWNER := "acme";
     Lint.REPO_NAME := "infra";
     Lint.TOKEN := "t0ken";
     Lint.EVENT_NAME := "pull_request";
     Lint.EVENT_PATH := "/github/workflow/event.json";
     Lint.RUN_ID := "42";
     Lint.REPO_OWNER_FOR_URL := "acme";
     Lint.GITHUB_SHA := "abc123";
     Lint.PR_COMMENT_MARKER := ".";
     Lint.TF_ACTIONS_WORKING_DIR := ".";
     Lint.GITHUB_ACTOR := "";
     Lint.GITHUB_WORKFLOW := "";
     Lint.TFLINT_OUTPUT :=
       "main.tf:10:5: Warning - unused variable (terraform_unused_declarations)";
     Lint.PR_DELETE_COMMENT := false;
     Lint.GITHUB_WORKSPACE := "." |}.

(** The plan job's environment with a configured marker that spans two
    lines. *)
Definition plan_environ_two_line_marker : gmap string string :=
  <["PR_COMMENT_MARKER" := "<!--" +:+ Py.nl +:+ "plan-marker -->"]> Sample.plan_environ.

Definition plan_globals_two_line_marker : Plan.globals :=
  {| Plan.GITHUB_API := "https://api.github.com";
     Plan.REPO := "acme/infra";
     Plan.OWNER := "acme";
     Plan.REPO_NAME := "infra";
     Plan.TOKEN := "t0ken";
     Plan.EVENT_NAME := "pull_request";
     Plan.EVENT_PATH := "/github/workflow/event.json";
     Plan.RUN_ID := "42";
     Plan.REPO_OWNER_FOR_URL := "acme";
     Plan.GITHUB_ACTOR := "";
     Plan.GITHUB_WORKFLOW := "";
     Plan.TF_ACTIONS_WORKING_DIR := ".";
     Plan.PR_COMMENT_MARKER := "<!--" +:+ Py.nl +:+ "plan-marker -->";
     Plan.CREATE_COMMENT := false;
     Plan.GITHUB_SHA := "abc123";
     Plan.TF_ADD_COUNT := "0";
     Plan.TF_CHANGE_COUNT := "0";
     Plan.TF_DESTROY_COUNT := "0";
     Plan.GITHUB_SERVER_URL := "https://github.com" |}.

(** A pull request with a review comment that holds a dot and, after it, the
    comment the lint script posted earlier. *)
Definition stale_lint_forge : forge :=
  [Comment 1 5 (Some "LGTM."); Comment 2 5 (Some "old lint <!-- tflint:. -->")].

(** A pull request with two comments that carry the plan marker. *)
Definition doubled_plan_forge : forge :=
  [Comment 1 5 (Some "old plan <!-- tf-plan:. -->");
   Comment 2 5 (Some "older plan <!-- tf-plan:. -->")].

(** The lint job configured for the working directory [infra]. *)
Definition infra_environ : gmap string string :=
  <["TF_ACTIONS_WORKING_DIR" := "infra"]> Sample.lint_environ.

Definition infra_globals : Lint.globals :=
  {| Lint.GITHUB_API := "https://api.github.com";
     Lint.REPO := "acme/infra";
     Lint.OWNER := "acme";
     Lint.REPO_NAME := "infra";
     Lint.TOKEN := "t0ken";
     Lint.EVENT_NAME := "pull_request";
     Lint.EVENT_PATH := "/github/workflow/event.json";
     Lint.RUN_ID := "42";
     Lint.REPO_OWNER_FOR_URL := "acme";
     Lint.GITHUB_SHA := "";
     Lint.PR_COMMENT_MARKER := ".";
     Lint.TF_ACTIONS_WORKING_DIR := "infra";
     Lint.GITHUB_ACTOR := "";
     Lint.GITHUB_WORKFLOW := "";
     Lint.TFLINT_OUTPUT :=
       "main.tf:10:5: Warning - unused variable (terraform_unused_declarations)";
     Lint.PR_DELETE_COMMENT := false;
     Lint.GITHUB_WORKSPACE := "." |}.

(** A review comment, then a comment that mentions the working directory. *)
Definition infra_forge : forge :=
  [Comment 7 5 (Some "LGTM."); Comment 8 5 (Some "Please split the infra change")].

(** [n] copies of the digit 1. *)
Fixpoint ones (n : nat) : string :=
  match n with
  | O => EmptyString
  | S k => String "1" (ones k)
  end.


End Cases.

(* ===================================================================== *)
(** * Properties *)
(* ===================================================================== *)

(** ** The model on small inputs *)

Example splitlines_ex :
  Py.splitlines ("a" +:+ String "013" (String "010" "b") +:+ Py.nl +:+ Py.nl +:+ "c" +:+ Py.nl)
  = ["a"; "b"; ""; "c"].
Proof. reflexivity. Qed.

Example escape_ex : Py.escape ("a'b" +:+ String "034" "<>&") = "a&#x27;b&quot;&lt;&gt;&amp;".
Proof. reflexivity. Qed.

Example title_ex : Py.title "hello wOrld-foo" = "Hello World-Foo".
Proof. reflexivity. Qed.

Example int_of_str_ex :
  map Py.int_of_str [" 12 "; "+12"; "1_2"; "-0"; "007"]
  = [Ok 12%Z; Ok 12%Z; Ok 12%Z; Ok 0%Z; Ok 7%Z].
Proof. reflexivity. Qed.

(** [int()] skips TAB to CR and SPACE only, and shows the [repr] of what it
    rejects. *)
Example int_of_str_rejects_ex :
  map Py.int_of_str [String "031" "8"; "1__2"; "12 x"; ""; "'"]
  = [Raise (Exn "ValueError" "invalid literal for int() with base 10: '\x1f8'");
     Raise (Exn "ValueError" "invalid literal for int() with base 10: '1__2'");
     Raise (Exn "ValueError" "invalid literal for int() with base 10: '12 x'");
     Raise (Exn "ValueError" "invalid literal for int() with base 10: ''");
     Raise (Exn "ValueError"
              ("invalid literal for int() with base 10: "
               +:+ String "034" ("'" +:+ String "034" "")))].
Proof. reflexivity. Qed.

(** The digit limit counts digits, not underscores, and is checked before
    the text after the digits is looked at. *)
Example int_of_str_limit_ex :
  map (fun s => match Py.int_of_str s with
                | Ok _ => "ok"
                | Raise e => exn_msg e
                end)
    [Cases.ones 4300; Cases.ones 4301; Cases.ones 4300 +:+ "_1"; Cases.ones 4301 +:+ " x";
     Cases.ones 4301 +:+ "_"]
  = ["ok";
     exn_msg (Py.int_too_long 4301);
     exn_msg (Py.int_too_long 4301);
     exn_msg (Py.int_too_long 4301);
     "invalid literal for int() with base 10: '" +:+ Cases.ones 199].
Proof. vm_compute. reflexivity. Qed.

Example str_of_Z_ex : map Py.str_of_Z [0%Z; 10%Z; (-5)%Z] = ["0"; "10"; "-5"].
Proof. reflexivity. Qed.

Example strip_ex : Py.strip (String "031" " a b " +:+ Py.nl) = "a b".
Proof. reflexivity. Qed.

(** The lazy message and the optional rule: the last parenthesised group
    that ends the line is the rule. *)
Example LINE_RE_match_ex :
  map Lint.LINE_RE_match
    ["a.tf:2:3: error - foo (bar) baz (r1)  ";
     "a.tf:1:3: notice - call foo()";
     "a:1:1:e-(r)";
     "a:1:1: e - (r))";
     "C:\p:1:1: e - x";
     "a:1:1: e x"]
  = [Some (Lint.Groups "a.tf" "2" "3" "error" "foo (bar) baz" (Some "r1"));
     Some (Lint.Groups "a.tf" "1" "3" "notice" "call foo()" None);
     Some (Lint.Groups "a" "1" "1" "e" "" (Some "r"));
     Some (Lint.Groups "a" "1" "1" "e" "(r))" None);
     None;
     None].
Proof. reflexivity. Qed.

(** Issues are ordered by weight, line and column; files without regard to
    letter case; blank, summary and unmatched lines are dropped. *)
Example parse_tflint_output_ex :
  Lint.parse_tflint_output
    ("b.tf:1:1: Warning - w" +:+ Py.nl +:+ "A.tf:9:1: notice - n" +:+ Py.nl
     +:+ "  " +:+ Py.nl +:+ "garbage" +:+ Py.nl +:+ "Found 3 issue(s) found" +:+ Py.nl
     +:+ "A.tf:2:7: Error - e (r)" +:+ Py.nl)
  = Ok [("A.tf", [Lint.Issue 2 7 "error" "r" "e"; Lint.Issue 9 1 "notice" "" "n"]);
        ("b.tf", [Lint.Issue 1 1 "warning" "" "w"])].
Proof. vm_compute. reflexivity. Qed.

(** A notice outweighs a level the weight table does not know. *)
Example parse_tflint_output_weights_ex :
  Lint.parse_tflint_output
    ("a.tf:1:1: Fatal - f" +:+ Py.nl +:+ "a.tf:2:1: Notice - n" +:+ Py.nl
     +:+ "a.tf:3:1: Info - i" +:+ Py.nl +:+ "a.tf:4:1: Warning - w")
  = Ok [("a.tf", [Lint.Issue 4 1 "warning" "" "w"; Lint.Issue 2 1 "notice" "" "n";
                  Lint.Issue 3 1 "info" "" "i"; Lint.Issue 1 1 "fatal" "" "f"])].
Proof. vm_compute. reflexivity. Qed.

(** A comment without a body is searched as the empty text. *)
Example body_of_ex :
  body_of (Comment 1 5 None) = ""
  /\ Plan.find_existing_comment_id [Comment 1 5 None] 5 "None" = Ok None
  /\ Lint.find_existing_comment_id [Comment 1 5 None] 5 "None" = Ok None.
Proof. repeat split. Qed.

(** ** Strings *)

#[local] Arguments String.append !s1 s2 : simpl nomatch.

Section StringFacts.

Import Py.

Lemma str_app_nil_r (s : string) : s +:+ "" = s.
Proof. induction s as [|c s IH]; simpl; [reflexivity | now rewrite IH]. Qed.

Lemma str_app_assoc (a b c : string) : (a +:+ b) +:+ c = a +:+ (b +:+ c).
Proof. induction a as [|x a IH]; simpl; [reflexivity | now rewrite IH]. Qed.

Lemma startswith_app (p s : string) : startswith p (p +:+ s) = true.
Proof.
  induction p as [|c p IH]; simpl; [reflexivity |].
  now rewrite Ascii.eqb_refl, IH.
Qed.

Lemma startswith_split (p s : string) :
  startswith p s = true -> exists r, s = p +:+ r.
Proof.
  revert s; induction p as [|c p IH]; intros s H.
  - exists s; reflexivity.
  - destruct s as [|d s]; simpl in H; [discriminate |].
    apply andb_true_iff in H as [Hc Hs].
    apply Ascii.eqb_eq in Hc; subst d.
    destruct (IH _ Hs) as [r ->].
    exists r; reflexivity.
Qed.

Lemma startswith_app_l (p s b : string) :
  startswith p s = true -> startswith p (s +:+ b) = true.
Proof.
  intros H. destruct (startswith_split _ _ H) as [r ->].
  rewrite str_app_assoc. apply startswith_app.
Qed.

Lemma contains_here (m s : string) : startswith m s = true -> contains m s = true.
Proof. intros H. destruct s; simpl in *; rewrite H; reflexivity. Qed.

Lemma contains_app_r (m a s : string) :
  contains m s = true -> contains m (a +:+ s) = true.
Proof.
  intros H. induction a as [|c a IH]; simpl; [exact H |].
  rewrite IH. apply orb_true_r.
Qed.

Lemma contains_app_l (m s b : string) :
  contains m s = true -> contains m (s +:+ b) = true.
Proof.
  induction s as [|c s IH]; simpl; intros H.
  - rewrite orb_false_r in H. apply contains_here.
    now apply (startswith_app_l m "" b).
  - apply orb_true_iff in H as [H | H].
    + change (String c (s +:+ b)) with (String c s +:+ b).
      now rewrite (startswith_app_l _ _ b H).
    + rewrite (IH H). apply orb_true_r.
Qed.

Lemma contains_mid (m a b : string) : contains m (a +:+ m +:+ b) = true.
Proof. apply contains_app_r, contains_here, startswith_app. Qed.

Lemma contains_split (m s : string) :
  contains m s = true -> exists a b, s = a +:+ m +:+ b.
Proof.
  induction s as [|c s IH]; simpl; intros H.
  - rewrite orb_false_r in H. destruct (startswith_split _ _ H) as [r Hr].
    exists "", r. exact Hr.
  - apply orb_true_iff in H as [H | H].
    + destruct (startswith_split _ _ H) as [r Hr]. exists "", r. exact Hr.
    + destruct (IH H) as (a & b & ->). exists (String c a), b. reflexivity.
Qed.

(** [needle in hay] holds exactly when [hay] has [needle] as a substring. *)
Lemma contains_iff (m s : string) :
  contains m s = true <-> exists a b, s = a +:+ m +:+ b.
Proof.
  split; [apply contains_split |].
  intros (a & b & ->). apply contains_mid.
Qed.

Lemma contains_trans (m k s : string) :
  contains m k = true -> contains k s = true -> contains m s = true.
Proof.
  intros Hm Hk.
  destruct (contains_split _ _ Hk) as (a & b & ->).
  apply contains_app_r, contains_app_l, Hm.
Qed.

Lemma endswith_app (p a : string) : endswith p (a +:+ p) = true.
Proof.
  induction a as [|c a IH]; simpl.
  - destruct p; cbn [endswith]; rewrite String.eqb_refl; reflexivity.
  - rewrite IH. apply orb_true_r.
Qed.

End StringFacts.

(** ** The forge: pagination and the locators *)

Section ForgeFacts.

Lemma firstn_short {A : Type} (n : nat) (l : list A) :
  length (firstn n l) < n -> firstn n l = l.
Proof.
  intros H. rewrite length_firstn in H.
  apply firstn_all2. lia.
Qed.

Lemma firstn_nil_inv {A : Type} (n : nat) (l : list A) :
  0 < n -> firstn n l = [] -> l = [].
Proof. destruct n, l; simpl; intros; try reflexivity; try lia; discriminate. Qed.

(** With enough fuel the page loop returns every comment from the current
    page on, appended to what it has collected. *)
Lemma list_pages_spec (st : forge) (pr : Z) :
  forall fuel page acc,
    1 <= page ->
    length (skipn (100 * (page - 1)) (comments_on pr st)) < fuel ->
    list_pages fuel st pr page acc
    = Ok (acc ++ skipn (100 * (page - 1)) (comments_on pr st)).
Proof.
  induction fuel as [|fuel IH]; intros page acc Hpage Hfuel; [lia |].
  cbn [list_pages]. unfold api_get_comments.
  set (rem := skipn (100 * (page - 1)) (comments_on pr st)) in *.
  remember 100 as n eqn:Hn.
  destruct (firstn n rem) as [|c batch] eqn:Hbatch.
  - rewrite (firstn_nil_inv n rem) by (assumption || lia).
    now rewrite app_nil_r.
  - rewrite <- Hbatch.
    destruct (Nat.ltb_spec (length (firstn n rem)) n) as [Hlt | Hge].
    + now rewrite (firstn_short _ _ Hlt).
    + rewrite IH.
      * replace (n * (page + 1 - 1)) with (n + n * (page - 1)) by lia.
        rewrite <- skipn_skipn. fold rem.
        now rewrite <- app_assoc, firstn_skipn.
      * lia.
      * replace (n * (page + 1 - 1)) with (n + n * (page - 1)) by lia.
        rewrite <- skipn_skipn. fold rem.
        rewrite length_firstn in Hge. rewrite length_skipn. lia.
Qed.

(** [list_all_comments] terminates and returns all comments of the pull
    request, in the order of the forge. *)
Lemma list_all_comments_ok (st : forge) (pr : Z) :
  list_all_comments st pr = Ok (comments_on pr st).
Proof.
  unfold list_all_comments.
  rewrite list_pages_spec; [reflexivity | lia |].
  change (100 * (1 - 1)) with 0. rewrite skipn_O. unfold comments_on.
  pose proof (List.filter_length_le (fun c => (c_pr c =? pr)%Z) st). lia.
Qed.

Lemma plan_find_existing (st : forge) (pr : Z) (marker : string) :
  Plan.find_existing_comment_id st pr marker
  = Ok (c_id <$> List.find (fun c => plan_match marker (body_of c)) (comments_on pr st)).
Proof.
  unfold Plan.find_existing_comment_id. now rewrite list_all_comments_ok.
Qed.

Lemma lint_find_existing (st : forge) (pr : Z) (marker : string) :
  Lint.find_existing_comment_id st pr marker
  = Ok (c_id <$> List.find (fun c => lint_match marker (body_of c)) (comments_on pr st)).
Proof.
  unfold Lint.find_existing_comment_id. now rewrite list_all_comments_ok.
Qed.

(** [find] returns the first element that passes the test. *)
Lemma find_first {A : Type} (f : A -> bool) (l : list A) :
  match List.find f l with
  | Some x =>
      exists l1 l2, l = l1 ++ x :: l2 /\ Forall (fun y => f y = false) l1 /\ f x = true
  | None => Forall (fun y => f y = false) l
  end.
Proof.
  induction l as [|a l IH]; simpl; [constructor |].
  destruct (f a) eqn:Ha.
  - exists [], l. repeat split; [constructor | exact Ha].
  - destruct (List.find f l) as [x|].
    + destruct IH as (l1 & l2 & -> & Hl1 & Hx).
      exists (a :: l1), l2. repeat split; [constructor; assumption | exact Hx].
    + constructor; assumption.
Qed.

Lemma find_filter {A : Type} (q f : A -> bool) (l : list A) :
  List.find f (List.filter q l) = List.find (fun x => q x && f x) l.
Proof.
  induction l as [|a l IH]; simpl; [reflexivity |].
  destruct (q a); simpl; [destruct (f a); [reflexivity | exact IH] | exact IH].
Qed.

Lemma filter_filter {A : Type} (q f : A -> bool) (l : list A) :
  List.filter f (List.filter q l) = List.filter (fun x => q x && f x) l.
Proof.
  induction l as [|a l IH]; simpl; [reflexivity |].
  destruct (q a); simpl; [destruct (f a); [now rewrite IH | exact IH] | exact IH].
Qed.

End ForgeFacts.

(** ** The upsert coordinator *)

Section Upsert.

Variable mb : string -> bool.
Variable pr : Z.

Abbreviation P := (pr_match mb pr).

Lemma locate_find (st : forge) : locate mb st pr = c_id <$> List.find P st.
Proof. unfold locate, comments_on, pr_match. now rewrite find_filter. Qed.

Lemma find_app_first (l1 l2 : forge) (c : comment) :
  Forall (fun y => P y = false) l1 -> P c = true -> List.find P (l1 ++ c :: l2) = Some c.
Proof.
  intros Hl1 Hc. induction Hl1 as [|a l1 Ha _ IH]; simpl.
  - now rewrite Hc.
  - now rewrite Ha.
Qed.

Lemma filter_none (l : forge) :
  Forall (fun y => P y = false) l -> List.filter P l = [].
Proof.
  induction 1 as [|a l Ha _ IH]; simpl; [reflexivity |].
  now rewrite Ha.
Qed.

Lemma filter_nil_none (l : forge) :
  List.filter P l = [] -> Forall (fun y => P y = false) l.
Proof.
  induction l as [|a l IH]; simpl; intros H; [constructor |].
  destruct (P a) eqn:Ha; [discriminate |].
  constructor; auto.
Qed.

Lemma set_body_other (id : Z) (b : string) (l : forge) :
  ~ In id (map c_id l) -> map (set_body id b) l = l.
Proof.
  induction l as [|a l IH]; simpl; intros H; [reflexivity |].
  unfold set_body at 1.
  destruct (Z.eqb_spec (c_id a) id) as [Heq | _]; [exfalso; apply H; now left |].
  rewrite IH; [reflexivity | tauto].
Qed.

(** Ids are distinct, so an update changes exactly the comment found. *)
Lemma update_one (l1 l2 : forge) (c : comment) (b : string) :
  List.NoDup (map c_id (l1 ++ c :: l2)) ->
  map (set_body (c_id c) b) (l1 ++ c :: l2)
  = l1 ++ Comment (c_id c) (c_pr c) (Some b) :: l2.
Proof.
  intros Hnd. rewrite map_app in Hnd. simpl in Hnd.
  pose proof (NoDup_remove_2 _ _ _ Hnd) as Hnotin.
  rewrite in_app_iff in Hnotin.
  rewrite map_app. simpl.
  rewrite !set_body_other by tauto.
  unfold set_body. now rewrite Z.eqb_refl.
Qed.

Lemma ids_below_next (st : forge) :
  Forall (fun c => (c_id c < next_id st)%Z) st.
Proof.
  unfold next_id. induction st as [|a st IH]; simpl; [constructor |].
  constructor; [lia |].
  eapply List.Forall_impl; [| exact IH]. simpl. intros c Hc. lia.
Qed.

Lemma next_id_positive (st : forge) : (0 < next_id st)%Z.
Proof.
  unfold next_id. induction st as [|a st IH]; simpl; lia.
Qed.

Lemma next_id_fresh (st : forge) : ~ In (next_id st) (map c_id st).
Proof.
  intros Hin. apply in_map_iff in Hin as (c & Hc & Hin).
  pose proof (ids_below_next st) as Hall.
  rewrite List.Forall_forall in Hall. specialize (Hall c Hin). lia.
Qed.

Lemma forge_wf_create (st : forge) (b : string) :
  forge_wf st -> forge_wf (st ++ [Comment (next_id st) pr (Some b)]).
Proof.
  intros [Hnd Hpos]. split.
  - rewrite map_app. simpl.
    apply List.NoDup_app.
    + exact Hnd.
    + repeat constructor. simpl. tauto.
    + intros x Hx Hin. simpl in Hin. destruct Hin as [<- | []].
      now apply (next_id_fresh st).
  - apply List.Forall_app. split; [exact Hpos |].
    repeat constructor. simpl. apply next_id_positive.
Qed.

(** An upsert that finds [c] first rewrites the body of [c] and nothing else. *)
Lemma upsert_found (l1 l2 : forge) (c : comment) (b : string) :
  List.NoDup (map c_id (l1 ++ c :: l2)) ->
  Forall (fun y => P y = false) l1 ->
  P c = true ->
  (0 < c_id c)%Z ->
  upsert_state mb (l1 ++ c :: l2) pr b = l1 ++ Comment (c_id c) pr (Some b) :: l2.
Proof.
  intros Hnd Hl1 Hc Hpos.
  unfold upsert_state. rewrite locate_find, (find_app_first _ _ _ Hl1 Hc). simpl.
  destruct (Z.eqb_spec (c_id c) 0) as [H0 | _]; [lia |]. simpl.
  rewrite update_one by exact Hnd.
  unfold pr_match in Hc. apply andb_true_iff in Hc as [Hpr _].
  apply Z.eqb_eq in Hpr. now rewrite Hpr.
Qed.

(** An upsert that finds nothing appends a new comment. *)
Lemma upsert_fresh (st : forge) (b : string) :
  Forall (fun y => P y = false) st ->
  upsert_state mb st pr b = st ++ [Comment (next_id st) pr (Some b)].
Proof.
  intros Hnone. unfold upsert_state. rewrite locate_find.
  pose proof (find_first P st) as Hf.
  destruct (List.find P st) as [x|]; [| reflexivity].
  destruct Hf as (l1 & l2 & -> & _ & Hx).
  rewrite List.Forall_forall in Hnone.
  rewrite Hnone in Hx; [discriminate |].
  apply in_app_iff. right. left. reflexivity.
Qed.

(** Two upserts in a row, both bodies passing the locator's test: the
    second run rewrites the very comment the first run wrote, and adds
    none.  When at most one comment passed the test before, none of the
    comments after it does. *)
Lemma upsert_twice_shape (st : forge) (b1 b2 : string) :
  forge_wf st ->
  mb b1 = true ->
  mb b2 = true ->
  exists before after id,
    marked_on mb pr before = [] /\
    upsert_state mb st pr b1 = before ++ Comment id pr (Some b1) :: after /\
    upsert_state mb (upsert_state mb st pr b1) pr b2
    = before ++ Comment id pr (Some b2) :: after /\
    (length (marked_on mb pr st) <= 1 -> marked_on mb pr after = []).
Proof.
  intros [Hnd Hpos] Hb1 Hb2.
  unfold marked_on.
  assert (HP : forall i b, mb b = true -> P (Comment i pr (Some b)) = true).
  { intros i b Hb. unfold pr_match, body_of. cbn. now rewrite Z.eqb_refl, Hb. }
  pose proof (find_first P st) as Hf.
  destruct (List.find P st) as [c|].
  - destruct Hf as (l1 & l2 & -> & Hl1 & Hc).
    assert (Hcpos : (0 < c_id c)%Z).
    { rewrite List.Forall_forall in Hpos. apply Hpos, in_app_iff. right. left. reflexivity. }
    assert (Hnd1 : List.NoDup (map c_id (l1 ++ Comment (c_id c) pr (Some b1) :: l2))).
    { rewrite map_app in Hnd |- *. exact Hnd. }
    exists l1, l2, (c_id c). repeat apply conj.
    + exact (filter_none _ Hl1).
    + exact (upsert_found l1 l2 c b1 Hnd Hl1 Hc Hcpos).
    + rewrite (upsert_found l1 l2 c b1 Hnd Hl1 Hc Hcpos).
      exact (upsert_found l1 l2 (Comment (c_id c) pr (Some b1)) b2 Hnd1 Hl1 (HP _ _ Hb1) Hcpos).
    + intros Hcount. rewrite List.filter_app in Hcount. cbn [List.filter] in Hcount.
      rewrite (filter_none _ Hl1), Hc in Hcount. simpl in Hcount.
      destruct (List.filter P l2); [reflexivity | simpl in Hcount; lia].
  - destruct (forge_wf_create st b1 (conj Hnd Hpos)) as [Hnd1 _].
    exists st, [], (next_id st). repeat apply conj.
    + exact (filter_none _ Hf).
    + exact (upsert_fresh st b1 Hf).
    + rewrite (upsert_fresh st b1 Hf).
      exact (upsert_found st [] (Comment (next_id st) pr (Some b1)) b2 Hnd1 Hf (HP _ _ Hb1)
               (next_id_positive st)).
    + reflexivity.
Qed.

Lemma marked_on_one (before after : forge) (id : Z) (b : string) :
  marked_on mb pr before = [] ->
  marked_on mb pr after = [] ->
  mb b = true ->
  marked_on mb pr (before ++ Comment id pr (Some b) :: after) = [Comment id pr (Some b)].
Proof.
  unfold marked_on. intros Hb Ha Hm.
  rewrite List.filter_app. cbn [List.filter]. rewrite Hb, Ha.
  unfold pr_match at 1, body_of. cbn. now rewrite Z.eqb_refl, Hm.
Qed.

Lemma locate_has_id (st : forge) (id : Z) :
  locate mb st pr = Some id -> has_id id st = true.
Proof.
  rewrite locate_find. intros H.
  destruct (List.find P st) as [c|] eqn:Hfind; [| discriminate].
  injection H as <-.
  apply find_some in Hfind as [Hin _].
  unfold has_id. apply existsb_exists. exists c. split; [exact Hin | apply Z.eqb_refl].
Qed.

End Upsert.

(** Against a forge that answers every call, the plan pipeline's coordinator
    ends in the state [upsert_state] describes. *)
Lemma plan_upsert_state (st : forge) (pr : Z) (marker body : string) :
  exists out,
    Plan.upsert st pr marker body
    = Ok (upsert_state (plan_match marker) st pr body, out).
Proof.
  unfold Plan.upsert, upsert_state. rewrite plan_find_existing. simpl.
  fold (locate (plan_match marker) st pr).
  destruct (locate (plan_match marker) st pr) as [id|] eqn:Hloc; simpl.
  - destruct (id =? 0)%Z; simpl; [eexists; reflexivity |].
    unfold update_comment. rewrite (locate_has_id _ _ _ _ Hloc).
    eexists; reflexivity.
  - eexists; reflexivity.
Qed.

(** The same for the lint pipeline's coordinator. *)
Lemma lint_upsert_state (st : forge) (pr : Z) (marker body : string) :
  exists out,
    Lint.upsert st pr marker body
    = Ok (upsert_state (lint_match marker) st pr body, out).
Proof.
  unfold Lint.upsert, upsert_state. rewrite lint_find_existing. simpl.
  fold (locate (lint_match marker) st pr).
  destruct (locate (lint_match marker) st pr) as [id|] eqn:Hloc; simpl.
  - destruct (id =? 0)%Z; simpl; [eexists; reflexivity |].
    unfold update_comment. rewrite (locate_has_id _ _ _ _ Hloc).
    eexists; reflexivity.
  - eexists; reflexivity.
Qed.

Lemma filter_sub {A : Type} (q p : A -> bool) (l : list A) :
  (forall x, q x = true -> p x = true) ->
  List.filter q l = List.filter q (List.filter p l).
Proof.
  intros Hqp. induction l as [|a l IH]; simpl; [reflexivity |].
  destruct (q a) eqn:Hq.
  - rewrite (Hqp a Hq). simpl. now rewrite Hq, IH.
  - destruct (p a); simpl; [now rewrite Hq |]; exact IH.
Qed.

Lemma filter_single {A : Type} (q : A -> bool) (x : A) :
  q x = true -> List.filter q [x] = [x].
Proof. intros H. simpl. now rewrite H. Qed.

(** C1 (amended).  Upsert idempotence, for both pipelines.  On a forge
    with distinct positive ids, two runs of the upsert coordinator for the
    same marker and pull request, each with a body that carries the marker,
    both succeed;
    the second run rewrites the comment the first run wrote and adds none.
    When at most one comment of the pull request matched the locator before
    the first run, exactly one comment carries the marker afterwards, and
    its body is the second run's body. *)
Theorem upsert_twice_leaves_one_comment
    (st : forge) (pr : Z) (marker key b1 b2 l1 l2 : string) :
  forge_wf st ->
  (Py.contains marker b1 = true ->
   Py.contains marker b2 = true ->
   exists st1 out1 st2 out2 id before after,
     Plan.upsert st pr marker b1 = Ok (st1, out1) /\
     Plan.upsert st1 pr marker b2 = Ok (st2, out2) /\
     st1 = before ++ Comment id pr (Some b1) :: after /\
     st2 = before ++ Comment id pr (Some b2) :: after /\
     marked_on (plan_match marker) pr before = [] /\
     (length (marked_on (plan_match marker) pr st) <= 1 ->
      marked_on (plan_match marker) pr st2 = [Comment id pr (Some b2)]))
  /\
  (Py.contains (Lint.hidden_token key) l1 = true ->
   Py.contains (Lint.hidden_token key) l2 = true ->
   exists st1 out1 st2 out2 id before after,
     Lint.upsert st pr key l1 = Ok (st1, out1) /\
     Lint.upsert st1 pr key l2 = Ok (st2, out2) /\
     st1 = before ++ Comment id pr (Some l1) :: after /\
     st2 = before ++ Comment id pr (Some l2) :: after /\
     marked_on (lint_match key) pr before = [] /\
     (length (marked_on (lint_match key) pr st) <= 1 ->
      marked_on (lint_match key) pr st2 = [Comment id pr (Some l2)] /\
      marked_on (plan_match (Lint.hidden_token key)) pr st2 = [Comment id pr (Some l2)])).
Proof.
  intros Hwf. split.
  - intros H1 H2.
    destruct (plan_upsert_state st pr marker b1) as [out1 E1].
    destruct (plan_upsert_state (upsert_state (plan_match marker) st pr b1) pr marker b2)
      as [out2 E2].
    destruct (upsert_twice_shape (plan_match marker) pr st b1 b2 Hwf H1 H2)
      as (before & after & id & Hb & S1 & S2 & Ha).
    exists (upsert_state (plan_match marker) st pr b1), out1,
      (upsert_state (plan_match marker) (upsert_state (plan_match marker) st pr b1) pr b2),
      out2, id, before, after.
    repeat apply conj; try assumption.
    intros Hcount. rewrite S2. apply marked_on_one; auto.
  - intros H1 H2.
    assert (M1 : lint_match key l1 = true) by (unfold lint_match; now rewrite H1).
    assert (M2 : lint_match key l2 = true) by (unfold lint_match; now rewrite H2).
    destruct (lint_upsert_state st pr key l1) as [out1 E1].
    destruct (lint_upsert_state (upsert_state (lint_match key) st pr l1) pr key l2)
      as [out2 E2].
    destruct (upsert_twice_shape (lint_match key) pr st l1 l2 Hwf M1 M2)
      as (before & after & id & Hb & S1 & S2 & Ha).
    exists (upsert_state (lint_match key) st pr l1), out1,
      (upsert_state (lint_match key) (upsert_state (lint_match key) st pr l1) pr l2),
      out2, id, before, after.
    repeat apply conj; try assumption.
    intros Hcount. split.
    + rewrite S2. apply marked_on_one; auto.
    + unfold marked_on.
      rewrite (filter_sub _ (pr_match (lint_match key) pr)).
      * fold (marked_on (lint_match key) pr
                (upsert_state (lint_match key) (upsert_state (lint_match key) st pr l1) pr l2)).
        rewrite S2, (marked_on_one (lint_match key) pr before after id l2 Hb (Ha Hcount) M2).
        apply filter_single. unfold pr_match, plan_match.
        change (body_of (Comment id pr (Some l2))) with l2.
        change (c_pr (Comment id pr (Some l2))) with pr.
        now rewrite Z.eqb_refl, H2.
      * intros c Hc. unfold pr_match in *. apply andb_true_iff in Hc as [Hp Hh].
        unfold lint_match, plan_match in *. now rewrite Hp, Hh.
Qed.

Lemma upsert_twice_leaves_one_comment_witness :
  forge_wf Sample.review_forge /\
  (exists st1 out1 st2 out2 id before after,
     Plan.upsert Sample.review_forge 5 Sample.plan_marker "plan A <!-- tf-plan:. -->"
     = Ok (st1, out1) /\
     Plan.upsert st1 5 Sample.plan_marker "plan B <!-- tf-plan:. -->" = Ok (st2, out2) /\
     st1 = before ++ Comment id 5 (Some "plan A <!-- tf-plan:. -->") :: after /\
     st2 = before ++ Comment id 5 (Some "plan B <!-- tf-plan:. -->") :: after /\
     marked_on (plan_match Sample.plan_marker) 5 before = [] /\
     (length (marked_on (plan_match Sample.plan_marker) 5 Sample.review_forge) <= 1 ->
      marked_on (plan_match Sample.plan_marker) 5 st2
      = [Comment id 5 (Some "plan B <!-- tf-plan:. -->")])) /\
  length (marked_on (plan_match Sample.plan_marker) 5 Sample.review_forge) <= 1 /\
  (exists st1 out1 st2 out2 id before after,
     Lint.upsert Sample.review_forge 5 "infra" "lint A <!-- tflint:infra -->" = Ok (st1, out1) /\
     Lint.upsert st1 5 "infra" "lint B <!-- tflint:infra -->" = Ok (st2, out2) /\
     st1 = before ++ Comment id 5 (Some "lint A <!-- tflint:infra -->") :: after /\
     st2 = before ++ Comment id 5 (Some "lint B <!-- tflint:infra -->") :: after /\
     marked_on (lint_match "infra") 5 before = [] /\
     (length (marked_on (lint_match "infra") 5 Sample.review_forge) <= 1 ->
      marked_on (lint_match "infra") 5 st2
      = [Comment id 5 (Some "lint B <!-- tflint:infra -->")] /\
      marked_on (plan_match (Lint.hidden_token "infra")) 5 st2
      = [Comment id 5 (Some "lint B <!-- tflint:infra -->")])) /\
  length (marked_on (lint_match "infra") 5 Sample.review_forge) <= 1.
Proof.
  assert (Hwf : forge_wf Sample.review_forge).
  { split; repeat constructor; simpl; tauto. }
  pose proof (upsert_twice_leaves_one_comment Sample.review_forge 5 Sample.plan_marker "infra"
                "plan A <!-- tf-plan:. -->" "plan B <!-- tf-plan:. -->"
                "lint A <!-- tflint:infra -->" "lint B <!-- tflint:infra -->" Hwf)
    as [Hplan Hlint].
  split; [exact Hwf |].
  split; [apply Hplan; reflexivity |].
  split; [vm_compute; lia |].
  split; [apply Hlint; reflexivity |].
  vm_compute; lia.
Defined.

(** C1 (as stated, refuted).  The lint coordinator finds its comment by
    the bare key as well: with the default key "." and a pull request that
    holds a review comment with a dot and, after it, the one comment that
    carries the lint marker, two runs rewrite the review comment and leave
    two comments carrying the marker.  The plan coordinator rewrites the
    oldest of two comments that carry its marker and leaves both. *)
Lemma lint_upsert_twice_leaves_two_marked_comments :
  forge_wf Cases.stale_lint_forge /\
  marked_on (plan_match (Lint.hidden_token ".")) 5 Cases.stale_lint_forge
  = [Comment 2 5 (Some "old lint <!-- tflint:. -->")] /\
  Lint.upsert Cases.stale_lint_forge 5 "." "lint A <!-- tflint:. -->"
  = Ok ([Comment 1 5 (Some "lint A <!-- tflint:. -->");
         Comment 2 5 (Some "old lint <!-- tflint:. -->")],
        ["::notice::Updated TFLint PR comment (id=1)."]) /\
  Lint.upsert [Comment 1 5 (Some "lint A <!-- tflint:. -->");
               Comment 2 5 (Some "old lint <!-- tflint:. -->")] 5 "." "lint B <!-- tflint:. -->"
  = Ok ([Comment 1 5 (Some "lint B <!-- tflint:. -->");
         Comment 2 5 (Some "old lint <!-- tflint:. -->")],
        ["::notice::Updated TFLint PR comment (id=1)."]) /\
  marked_on (plan_match (Lint.hidden_token ".")) 5
    [Comment 1 5 (Some "lint B <!-- tflint:. -->");
     Comment 2 5 (Some "old lint <!-- tflint:. -->")]
  = [Comment 1 5 (Some "lint B <!-- tflint:. -->");
     Comment 2 5 (Some "old lint <!-- tflint:. -->")] /\
  Lint.run Sample.lint_environ Sample.lint_world Cases.stale_lint_forge
  = Ok ([Comment 1 5 (Some (Lint.comment_body Sample.lint_globals Sample.lint_files));
         Comment 2 5 (Some "old lint <!-- tflint:. -->")],
        ["::notice::Updated TFLint PR comment (id=1)."]) /\
  Lint.run Sample.lint_environ Sample.lint_world
    [Comment 1 5 (Some (Lint.comment_body Sample.lint_globals Sample.lint_files));
     Comment 2 5 (Some "old lint <!-- tflint:. -->")]
  = Ok ([Comment 1 5 (Some (Lint.comment_body Sample.lint_globals Sample.lint_files));
         Comment 2 5 (Some "old lint <!-- tflint:. -->")],
        ["::notice::Updated TFLint PR comment (id=1)."]) /\
  length (marked_on (plan_match (Lint.hidden_marker Sample.lint_globals)) 5
            [Comment 1 5 (Some (Lint.comment_body Sample.lint_globals Sample.lint_files));
             Comment 2 5 (Some "old lint <!-- tflint:. -->")]) = 2 /\
  Plan.upsert Cases.doubled_plan_forge 5 Sample.plan_marker "plan A <!-- tf-plan:. -->"
  = Ok ([Comment 1 5 (Some "plan A <!-- tf-plan:. -->");
         Comment 2 5 (Some "older plan <!-- tf-plan:. -->")],
        ["::notice::Updated Terraform plan PR comment (id=1)."]) /\
  Plan.upsert [Comment 1 5 (Some "plan A <!-- tf-plan:. -->");
               Comment 2 5 (Some "older plan <!-- tf-plan:. -->")] 5 Sample.plan_marker
    "plan B <!-- tf-plan:. -->"
  = Ok ([Comment 1 5 (Some "plan B <!-- tf-plan:. -->");
         Comment 2 5 (Some "older plan <!-- tf-plan:. -->")],
        ["::notice::Updated Terraform plan PR comment (id=1)."]) /\
  length (marked_on (plan_match Sample.plan_marker) 5
            [Comment 1 5 (Some "plan B <!-- tf-plan:. -->");
             Comment 2 5 (Some "older plan <!-- tf-plan:. -->")]) = 2.
Proof.
  split; [split; repeat constructor; simpl; intuition discriminate |].
  repeat apply conj; vm_compute; reflexivity.
Qed.

(** ** What a run does to the forge *)

Section Effect.

Variable mb : string -> bool.
Variable pr : Z.

(** The coordinator rewrites the oldest matching comment of the pull
    request, or appends a comment when none matches. *)
Lemma upsert_state_effect (st : forge) (b : string) :
  forge_wf st ->
  (exists l1 c l2,
     st = l1 ++ c :: l2 /\ c_pr c = pr /\ mb (body_of c) = true /\
     Forall (fun y => pr_match mb pr y = false) l1 /\
     upsert_state mb st pr b = l1 ++ Comment (c_id c) pr (Some b) :: l2)
  \/ (Forall (fun y => pr_match mb pr y = false) st /\
      upsert_state mb st pr b = st ++ [Comment (next_id st) pr (Some b)]).
Proof.
  intros [Hnd Hpos].
  pose proof (find_first (pr_match mb pr) st) as H.
  destruct (List.find (pr_match mb pr) st) as [c|].
  - destruct H as (l1 & l2 & E & Hb & Hc). left. exists l1, c, l2.
    pose proof Hc as Hc'. unfold pr_match in Hc'.
    apply andb_true_iff in Hc' as [Hp Hm]. apply Z.eqb_eq in Hp.
    repeat split; auto. subst st. apply upsert_found; auto.
    apply List.Forall_app in Hpos as [_ Hpos]. now inversion Hpos.
  - right. split; [exact H | now apply upsert_fresh].
Qed.

Lemma locate_none (st : forge) :
  Forall (fun y => pr_match mb pr y = false) st -> locate mb st pr = None.
Proof.
  intros H. rewrite locate_find.
  destruct (List.find (pr_match mb pr) st) as [c|] eqn:E; [| reflexivity].
  apply find_some in E as [Hin Hc].
  rewrite List.Forall_forall in H. rewrite (H c Hin) in Hc. discriminate.
Qed.

Lemma locate_first (l1 l2 : forge) (c : comment) :
  Forall (fun y => pr_match mb pr y = false) l1 ->
  pr_match mb pr c = true ->
  locate mb (l1 ++ c :: l2) pr = Some (c_id c).
Proof.
  intros H1 Hc. rewrite locate_find, (find_app_first mb pr l1 l2 c H1 Hc). reflexivity.
Qed.

End Effect.

Lemma forge_wf_update (l1 l2 : forge) (c : comment) (pr : Z) (b : string) :
  forge_wf (l1 ++ c :: l2) -> forge_wf (l1 ++ Comment (c_id c) pr (Some b) :: l2).
Proof.
  intros [Hnd Hpos]. split.
  - rewrite map_app in *. exact Hnd.
  - apply List.Forall_app in Hpos as [H1 H2]. apply List.Forall_app. split; [exact H1 |].
    inversion H2; subst. constructor; assumption.
Qed.

Lemma filter_other_ids (id : Z) (l : forge) :
  ~ In id (map c_id l) -> List.filter (fun x => negb (c_id x =? id)%Z) l = l.
Proof.
  induction l as [|x l IH]; simpl; intros H; [reflexivity |].
  destruct (Z.eqb_spec (c_id x) id) as [E | _]; simpl.
  - exfalso. apply H. now left.
  - rewrite IH; [reflexivity |]. intros Hin. apply H. now right.
Qed.

(** Deleting by id removes the one comment with that id. *)
Lemma delete_one (l1 l2 : forge) (c : comment) :
  List.NoDup (map c_id (l1 ++ c :: l2)) ->
  List.filter (fun x => negb (c_id x =? c_id c)%Z) (l1 ++ c :: l2) = l1 ++ l2.
Proof.
  intros Hnd. rewrite map_app in Hnd. simpl in Hnd.
  pose proof (NoDup_remove_2 _ _ _ Hnd) as Hnot.
  rewrite List.filter_app. simpl. rewrite Z.eqb_refl. simpl.
  rewrite !filter_other_ids; [reflexivity | |];
    intros Hin; apply Hnot, in_or_app; [now right | now left].
Qed.

Lemma forge_wf_remove (l1 l2 : forge) (c : comment) :
  forge_wf (l1 ++ c :: l2) -> forge_wf (l1 ++ l2).
Proof.
  intros [Hnd Hpos]. split.
  - rewrite map_app in *. simpl in Hnd. now apply NoDup_remove_1 in Hnd.
  - apply List.Forall_app in Hpos as [H1 H2]. apply List.Forall_app. split; [exact H1 |].
    now inversion H2.
Qed.

(** The delete branch against a forge that answers every call. *)
Lemma lint_delete_state (st : forge) (pr : Z) (marker : string) :
  Lint.delete_existing st pr marker
  = Ok (if truthy (locate (lint_match marker) st pr)
        then (List.filter
                (fun c => negb (c_id c =? default 0%Z (locate (lint_match marker) st pr))%Z) st,
              ["::notice::Deleted existing TFLint comment."])
        else (st, [])).
Proof.
  unfold Lint.delete_existing. rewrite lint_find_existing. simpl.
  fold (locate (lint_match marker) st pr).
  now destruct (truthy (locate (lint_match marker) st pr)).
Qed.

(** In delete mode the oldest matching comment of the pull request is
    removed, and nothing else changes. *)
Lemma lint_delete_effect (st : forge) (pr : Z) (marker : string) :
  forge_wf st ->
  (exists l1 c l2,
     st = l1 ++ c :: l2 /\ c_pr c = pr /\ lint_match marker (body_of c) = true /\
     Forall (fun y => pr_match (lint_match marker) pr y = false) l1 /\
     Lint.delete_existing st pr marker
     = Ok (l1 ++ l2, ["::notice::Deleted existing TFLint comment."]))
  \/ (Forall (fun y => pr_match (lint_match marker) pr y = false) st /\
      Lint.delete_existing st pr marker = Ok (st, [])).
Proof.
  intros [Hnd Hpos]. rewrite lint_delete_state.
  pose proof (find_first (pr_match (lint_match marker) pr) st) as H.
  destruct (List.find (pr_match (lint_match marker) pr) st) as [c|].
  - destruct H as (l1 & l2 & E & Hb & Hc). left. exists l1, c, l2.
    pose proof Hc as Hc'. unfold pr_match in Hc'.
    apply andb_true_iff in Hc' as [Hp Hm]. apply Z.eqb_eq in Hp.
    repeat split; auto. subst st.
    rewrite (locate_first _ _ l1 l2 c Hb Hc). simpl.
    apply List.Forall_app in Hpos as [_ Hpos]. inversion Hpos as [|? ? Hc0 _]; subst.
    destruct (Z.eqb_spec (c_id c) 0) as [E0 | _]; [lia |]. simpl.
    now rewrite delete_one.
  - right. split; [exact H |]. now rewrite (locate_none _ _ st H).
Qed.

(** ** The lint pipeline's locator *)

Lemma hidden_token_has_marker (marker : string) :
  Py.contains marker (Lint.hidden_token marker) = true.
Proof. unfold Lint.hidden_token. apply contains_mid. Qed.

(** The hidden token contains the bare key, so the locator's test is the
    test for the bare key alone. *)
Lemma lint_match_bare (marker body : string) :
  lint_match marker body = Py.contains marker body.
Proof.
  unfold lint_match.
  destruct (Py.contains (Lint.hidden_token marker) body) eqn:Hh; [| reflexivity].
  symmetry. simpl.
  exact (contains_trans _ _ _ (hidden_token_has_marker marker) Hh).
Qed.

(** C10.  The lint pipeline's locator returns the id of the first comment of
    the pull request whose body contains the hidden token or the bare
    working-directory string as a substring, which amounts to containing
    the bare string.  The string is the one configured in
    [TF_ACTIONS_WORKING_DIR] (the workspace when that is set to the empty
    string), [main] hands it to the locator, and the comment the locator
    returns is the one that the run rewrites, or removes in delete mode.
    With no working directory configured the key is ".", so the first
    comment with a dot in its body is selected: a coverage bot's comment is
    overwritten by the upsert and removed in delete mode. *)
Theorem lint_locator_matches_bare_working_dir :
  (forall st pr marker,
     exists r,
       Lint.find_existing_comment_id st pr marker = Ok r /\
       ((r = None /\
         Forall (fun c => Lint.locator_match marker c = false) (comments_on pr st)) \/
        (exists before c after,
           comments_on pr st = before ++ c :: after /\
           Forall (fun c' => Lint.locator_match marker c' = false) before /\
           Lint.locator_match marker c = true /\
           r = Some (c_id c))))
  /\ (forall marker c,
        Lint.locator_match marker c = true <->
        (exists a b, body_of c = a +:+ Lint.hidden_token marker +:+ b) \/
        (exists a b, body_of c = a +:+ marker +:+ b))
  /\ (forall marker c,
        Lint.locator_match marker c = true <-> exists a b, body_of c = a +:+ marker +:+ b)
  /\ (forall environ,
        match Lint.load_globals (delete "TF_ACTIONS_WORKING_DIR" environ) with
        | Ok g => Lint.wd_visible g = "."
        | Raise _ => True
        end)
  /\ (forall environ wd,
        match Lint.load_globals (<["TF_ACTIONS_WORKING_DIR" := wd]> environ) with
        | Ok g =>
            Lint.TF_ACTIONS_WORKING_DIR g = wd /\
            Lint.wd_visible g
            = if Py.is_empty wd then default "." (environ !! "GITHUB_WORKSPACE") else wd
        | Raise _ => True
        end)
  /\ (forall g w st pr fs,
        Lint.is_pr_event (Lint.EVENT_NAME g) = true ->
        Lint.get_pr_number g w = Ok (Some pr) ->
        pr <> 0%Z ->
        Lint.parse_tflint_output (Lint.TFLINT_OUTPUT g) = Ok fs ->
        Lint.main g w st
        = if Lint.PR_DELETE_COMMENT g
          then Lint.delete_existing st pr (Lint.wd_visible g)
          else Lint.upsert st pr (Lint.wd_visible g) (Lint.comment_body g fs))
  /\ (forall pr marker body l1 c l2,
        forge_wf (l1 ++ c :: l2) ->
        c_pr c = pr ->
        Lint.locator_match marker c = true ->
        Forall (fun y => (c_pr y =? pr)%Z && Lint.locator_match marker y = false) l1 ->
        Lint.find_existing_comment_id (l1 ++ c :: l2) pr marker = Ok (Some (c_id c)) /\
        (exists out,
           Lint.upsert (l1 ++ c :: l2) pr marker body
           = Ok (l1 ++ Comment (c_id c) pr (Some body) :: l2, out)) /\
        Lint.delete_existing (l1 ++ c :: l2) pr marker
        = Ok (l1 ++ l2, ["::notice::Deleted existing TFLint comment."]))
  /\ (exists body,
        Lint.run Sample.lint_environ Sample.lint_world Sample.foreign_forge
        = Ok ([Comment 7 5 (Some body)], ["::notice::Updated TFLint PR comment (id=7)."])
        /\ Py.contains "Coverage" body = false)
  /\ Lint.run (<["PR_DELETE_COMMENT" := "true"]> Sample.lint_environ)
       Sample.lint_world Sample.foreign_forge
     = Ok ([], ["::notice::Deleted existing TFLint comment."]).
Proof.
  repeat apply conj.
  - intros st pr marker. rewrite lint_find_existing.
    eexists. split; [reflexivity |].
    pose proof (find_first (fun c => lint_match marker (body_of c)) (comments_on pr st)) as Hf.
    destruct (List.find _ (comments_on pr st)) as [c|].
    + right. destruct Hf as (l1 & l2 & E & Hl1 & Hc).
      exists l1, c, l2. auto.
    + left. auto.
  - intros marker c. unfold Lint.locator_match.
    rewrite orb_true_iff, !contains_iff. reflexivity.
  - intros marker c.
    change (Lint.locator_match marker c) with (lint_match marker (body_of c)).
    rewrite lint_match_bare. apply contains_iff.
  - intros environ. unfold Lint.load_globals.
    destruct (delete "TF_ACTIONS_WORKING_DIR" environ !! "GITHUB_REPOSITORY"); [| exact I].
    destruct (Py.span _ _) as [owner [|c repo_name]]; [exact I |].
    destruct (delete "TF_ACTIONS_WORKING_DIR" environ !! "GITHUB_TOKEN"); [| exact I].
    unfold Lint.wd_visible, Lint.getenv. simpl.
    rewrite lookup_delete_eq. reflexivity.
  - intros environ wd. unfold Lint.load_globals.
    destruct (<["TF_ACTIONS_WORKING_DIR" := wd]> environ !! "GITHUB_REPOSITORY"); [| exact I].
    destruct (Py.span _ _) as [owner [|c repo_name]]; [exact I |].
    destruct (<["TF_ACTIONS_WORKING_DIR" := wd]> environ !! "GITHUB_TOKEN"); [| exact I].
    unfold Lint.wd_visible, Lint.getenv, Lint.or_else. simpl.
    rewrite lookup_insert_eq, lookup_insert_ne by discriminate. simpl.
    split; [reflexivity |]. now destruct wd.
  - intros g w st pr fs Hev Hpr Hnz E.
    unfold Lint.main. rewrite Hev, Hpr. simpl.
    destruct (Z.eqb_spec pr 0) as [-> | _]; [congruence |]. simpl.
    rewrite E. reflexivity.
  - intros pr marker body l1 c l2 Hwf Hpr Hc Hl1.
    assert (Hc' : pr_match (lint_match marker) pr c = true).
    { unfold pr_match. rewrite Hpr, Z.eqb_refl. exact Hc. }
    assert (Hpos : (0 < c_id c)%Z).
    { destruct Hwf as [_ Hpos]. apply List.Forall_app in Hpos as [_ Hpos].
      now inversion Hpos. }
    split; [| split].
    + rewrite lint_find_existing.
      fold (locate (lint_match marker) (l1 ++ c :: l2) pr).
      now rewrite (locate_first _ _ l1 l2 c Hl1 Hc').
    + destruct (lint_upsert_state (l1 ++ c :: l2) pr marker body) as [out E].
      exists out. rewrite E. f_equal. f_equal.
      apply upsert_found; [exact (proj1 Hwf) | exact Hl1 | exact Hc' | exact Hpos].
    + rewrite lint_delete_state, (locate_first _ _ l1 l2 c Hl1 Hc'). simpl.
      destruct (Z.eqb_spec (c_id c) 0) as [E0 | _]; [lia |]. simpl.
      now rewrite (delete_one l1 l2 c (proj1 Hwf)).
  - eexists. split; vm_compute; reflexivity.
  - vm_compute. reflexivity.
Qed.

Lemma lint_locator_matches_bare_working_dir_witness :
  Lint.load_globals Cases.infra_environ = Ok Cases.infra_globals /\
  Lint.wd_visible Cases.infra_globals = "infra" /\
  forge_wf Cases.infra_forge /\
  Lint.find_existing_comment_id Cases.infra_forge 5 "infra" = Ok (Some 8%Z) /\
  exists out,
    Lint.main Cases.infra_globals Sample.lint_world Cases.infra_forge
    = Ok ([Comment 7 5 (Some "LGTM.");
           Comment 8 5 (Some (Lint.comment_body Cases.infra_globals Sample.lint_files))],
          out).
Proof.
  destruct lint_locator_matches_bare_working_dir
    as (_ & _ & _ & _ & Hset & Hmain & Hact & _).
  assert (Hload : Lint.load_globals Cases.infra_environ = Ok Cases.infra_globals)
    by (vm_compute; reflexivity).
  assert (Hwf : forge_wf Cases.infra_forge).
  { split; repeat constructor; simpl; intuition discriminate. }
  split; [exact Hload |].
  split.
  { pose proof (Hset Sample.lint_environ "infra") as H.
    change (<["TF_ACTIONS_WORKING_DIR" := "infra"]> Sample.lint_environ)
      with Cases.infra_environ in H.
    rewrite Hload in H. exact (proj2 H). }
  split; [exact Hwf |].
  destruct (Hact 5%Z "infra" (Lint.comment_body Cases.infra_globals Sample.lint_files)
              [Comment 7 5 (Some "LGTM.")]
              (Comment 8 5 (Some "Please split the infra change")) []
              Hwf eq_refl eq_refl ltac:(repeat constructor))
    as (Hfind & [out Hup] & _).
  split; [exact Hfind |].
  exists out.
  rewrite (Hmain Cases.infra_globals Sample.lint_world Cases.infra_forge 5%Z Sample.lint_files
             eq_refl eq_refl ltac:(discriminate) ltac:(vm_compute; reflexivity)).
  exact Hup.
Defined.

(** ** Malformed event payloads *)

(** The plan pipeline catches a failing read of the event file: it prints a
    warning and goes on to the commit-association fallback. *)
Lemma plan_get_pr_number_catches (g : Plan.globals) (w : Plan.world) (e : exn) :
  Py.is_empty (Plan.EVENT_PATH g) = false ->
  Plan.event_is_file w = true ->
  Plan.event_load w = Raise e ->
  Plan.get_pr_number g w
  = (fst (Plan.get_pr_number_fallback g w),
     ("::warning::Failed reading event payload for PR number: " +:+ exn_msg e)
       :: snd (Plan.get_pr_number_fallback g w)).
Proof.
  intros Hp Hf He. unfold Plan.get_pr_number. rewrite Hp, Hf, He. simpl.
  now destruct (Plan.get_pr_number_fallback g w).
Qed.

(** The lint pipeline has no handler: the exception leaves
    [get_pr_number]. *)
Lemma lint_get_pr_number_propagates (g : Lint.globals) (w : Lint.world) (e : exn) :
  Py.is_empty (Lint.EVENT_PATH g) = false ->
  Lint.event_is_file w = true ->
  Lint.event_load w = Raise e ->
  Lint.get_pr_number g w = Raise e.
Proof.
  intros Hp Hf He. unfold Lint.get_pr_number. now rewrite Hp, Hf, He.
Qed.

(** C6.  On a pull-request event whose event file is not valid JSON, the
    lint script's [get_pr_number] raises the decoding error and the run ends
    with that exception; the plan script's [get_pr_number], on the same
    file, prints a warning and resolves pull request 5 through the commit. *)
Theorem lint_run_raises_on_malformed_event_payload :
  (exists g,
     Lint.load_globals Sample.lint_environ = Ok g /\
     Lint.get_pr_number g Sample.lint_world_malformed
     = Raise (Exn "JSONDecodeError" "Expecting value: line 1 column 1 (char 0)"))
  /\ Lint.run Sample.lint_environ Sample.lint_world_malformed Sample.review_forge
     = Raise (Exn "JSONDecodeError" "Expecting value: line 1 column 1 (char 0)")
  /\ (exists g,
        Plan.load_globals Sample.plan_environ = Ok g /\
        Plan.get_pr_number g Sample.plan_world_malformed
        = (Some 5%Z,
           ["::warning::Failed reading event payload for PR number: Expecting value: line 1 column 1 (char 0)"])).
Proof.
  repeat apply conj.
  - eexists. split; vm_compute; reflexivity.
  - vm_compute. reflexivity.
  - eexists. split; vm_compute; reflexivity.
Qed.

(** ** Escaping in the details table *)

(** With a commit known, the line link embeds the file path as it is. *)
Lemma line_cell_embeds_raw_path (g : Lint.globals) (file_path : string) (it : Lint.issue) :
  Py.is_empty (Lint.GITHUB_SHA g) = false ->
  exists a b, Lint.line_cell g file_path it = a +:+ file_path +:+ b.
Proof.
  intros Hsha. unfold Lint.line_cell. rewrite Hsha. simpl negb. cbv iota.
  exists ("<a href='" +:+ "https://github.com/" +:+ Lint.REPO_OWNER_FOR_URL g +:+ "/"
          +:+ Lint.REPO_NAME g +:+ "/blob/" +:+ Lint.GITHUB_SHA g +:+ "/"),
    ("#L" +:+ Py.str_of_Z (Lint.line it) +:+ "'>" +:+ Py.str_of_Z (Lint.line it) +:+ "</a>").
  now rewrite !str_app_assoc.
Qed.

(** C8.  For the lint line [a'b.tf:1:2: Error - x] and a known commit, the
    per-file summary shows the path escaped, but the row's link carries the
    raw path inside the single-quoted [href]: the apostrophe is not
    escaped. *)
Theorem line_link_embeds_unescaped_file_path :
  Py.escape "a'b.tf" = "a&#x27;b.tf"
  /\ LintSpec.with_parsed Sample.quote_environ (fun g fs =>
       (fs,
        Lint.render_part g (Lint.PFileOpen "a'b.tf" 1),
        Lint.line_cell g "a'b.tf" (Lint.Issue 1 2 "error" "" "x"),
        Py.contains "<a href='https://github.com/acme/infra/blob/abc123/a'b.tf#L1'>"
          (Lint.build_details_html g fs (Lint.workflow_url g)),
        Py.contains "blob/abc123/a&#x27;b.tf"
          (Lint.build_details_html g fs (Lint.workflow_url g))))
     = Ok ([("a'b.tf", [Lint.Issue 1 2 "error" "" "x"])],
           Py.nl +:+ "<details><summary>📄 <code>a&#x27;b.tf</code> — <strong>1</strong> issue(s)</summary>"
             +:+ Py.nl,
           "<a href='https://github.com/acme/infra/blob/abc123/a'b.tf#L1'>1</a>",
           true,
           false).
Proof.
  split; vm_compute; reflexivity.
Qed.

(** ** Truncation of the details table *)

Section Truncation.

Import Lint LintSpec.

Lemma rows_app (a b : list part) : rows (a ++ b) = rows a + rows b.
Proof. unfold rows. now rewrite List.filter_app, length_app. Qed.

Lemma notices_app (a b : list part) : notices (a ++ b) = notices a + notices b.
Proof. unfold notices. now rewrite List.filter_app, length_app. Qed.

(** The inner loop emits rows up to the cap and reports whether it met it. *)
Lemma rows_loop_spec (file_path : string) :
  forall issues rc ps rc' tr,
    rows_loop file_path issues rc = (ps, rc', tr) ->
    rc <= MAX_ROWS ->
    rows ps = rc' - rc /\ notices ps = 0 /\
    rc' = Nat.min (rc + length issues) MAX_ROWS /\
    tr = (MAX_ROWS <? rc + length issues).
Proof.
  unfold MAX_ROWS.
  induction issues as [|it rest IH]; intros rc ps rc' tr E Hrc; cbn [rows_loop] in E.
  - injection E as <- <- <-. simpl length. rewrite Nat.add_0_r.
    repeat split; try (unfold rows, notices; simpl; lia).
    symmetry. apply Nat.ltb_ge. lia.
  - unfold MAX_ROWS in E.
    destruct (Nat.leb_spec 500 rc) as [Hcap | Hroom].
    + injection E as <- <- <-. simpl length.
      repeat split; try (unfold rows, notices; simpl; lia).
      symmetry. apply Nat.ltb_lt. lia.
    + destruct (rows_loop file_path rest (rc + 1)) as [[ps1 rc1] tr1] eqn:E1.
      injection E as <- <- <-.
      destruct (IH _ _ _ _ E1 ltac:(lia)) as (Hr & Hn & Hrc1 & Htr).
      simpl length.
      repeat split.
      * change (PRow file_path it :: ps1) with ([PRow file_path it] ++ ps1).
        rewrite rows_app, Hr. unfold rows. simpl. lia.
      * change (PRow file_path it :: ps1) with ([PRow file_path it] ++ ps1).
        rewrite notices_app, Hn. reflexivity.
      * lia.
      * rewrite Htr. f_equal. lia.
Qed.

Lemma total_issues_cons (kv : string * list issue) (fs : files) :
  total_issues (kv :: fs) = length (snd kv) + total_issues fs.
Proof. unfold total_issues, all_issues. simpl. now rewrite length_app. Qed.

(** The outer loop: rows are capped across files, and no notice is added
    inside the loop. *)
Lemma files_loop_spec :
  forall fs rc ps tr,
    files_loop fs rc = (ps, tr) ->
    rc <= MAX_ROWS ->
    rows ps = Nat.min (rc + total_issues fs) MAX_ROWS - rc /\ notices ps = 0 /\
    tr = (MAX_ROWS <? rc + total_issues fs).
Proof.
  unfold MAX_ROWS.
  induction fs as [|[file_path issues] rest IH]; intros rc ps tr E Hrc; cbn [files_loop] in E.
  - injection E as <- <-. unfold total_issues. simpl.
    repeat split; try (unfold rows, notices; simpl; lia).
    symmetry. apply Nat.ltb_ge. lia.
  - rewrite total_issues_cons. simpl snd.
    destruct (rows_loop file_path issues rc) as [[rws rc1] tr1] eqn:E1.
    destruct (rows_loop_spec _ _ _ _ _ _ E1 Hrc) as (Hr & Hn & Hrc1 & Htr1).
    unfold MAX_ROWS in *.
    set (block := [PFileOpen file_path (length issues); PTableOpen] ++ rws ++ [PFileClose]) in *.
    assert (Hb1 : rows block = rows rws).
    { unfold block. rewrite !rows_app. unfold rows at 1 3. simpl. lia. }
    assert (Hb2 : notices block = 0).
    { unfold block. rewrite !notices_app, Hn. reflexivity. }
    destruct tr1.
    + injection E as <- <-.
      symmetry in Htr1. apply Nat.ltb_lt in Htr1.
      rewrite Hb1, Hb2, Hr.
      repeat split; try lia.
      symmetry. apply Nat.ltb_lt. lia.
    + symmetry in Htr1. apply Nat.ltb_ge in Htr1.
      destruct (files_loop rest rc1) as [ps1 tr2] eqn:E2.
      injection E as <- <-.
      destruct (IH _ _ _ E2 ltac:(lia)) as (Hr2 & Hn2 & Htr2).
      change (PFileOpen file_path (length issues) :: PTableOpen :: (rws ++ [PFileClose]) ++ ps1)
        with (block ++ ps1).
      rewrite rows_app, notices_app, Hb1, Hb2, Hr, Hr2, Hn2.
      repeat split; [lia |].
      rewrite Htr2. f_equal. lia.
Qed.

(** Truncation boundary, on the list of parts: with more than 500 issues
    the details hold exactly 500 rows and one truncation notice. *)
Lemma details_rows_capped (fs : files) (workflow_url : string) :
  MAX_ROWS < total_issues fs ->
  rows (details_parts fs workflow_url) = MAX_ROWS /\
  notices (details_parts fs workflow_url) = 1.
Proof.
  intros Hbig. unfold details_parts.
  destruct fs as [|kv fs']; [unfold total_issues in Hbig; simpl in Hbig; lia |].
  destruct (files_loop (kv :: fs') 0) as [ps tr] eqn:E.
  destruct (files_loop_spec _ _ _ _ E ltac:(lia)) as (Hr & Hn & Htr).
  simpl Nat.add in *.
  assert (tr = true) as -> by (rewrite Htr; apply Nat.ltb_lt; exact Hbig).
  rewrite !rows_app, !notices_app, Hr, Hn.
  unfold rows, notices, MAX_ROWS in *. simpl. lia.
Qed.

(** Up to the cap nothing is cut: every issue gets its row and there is no
    notice. *)
Lemma details_rows_complete (fs : files) (workflow_url : string) :
  total_issues fs <= MAX_ROWS ->
  rows (details_parts fs workflow_url) = total_issues fs /\
  notices (details_parts fs workflow_url) = 0.
Proof.
  intros Hsmall. unfold details_parts.
  destruct fs as [|kv fs']; [split; reflexivity |].
  destruct (files_loop (kv :: fs') 0) as [ps tr] eqn:E.
  destruct (files_loop_spec _ _ _ _ E ltac:(lia)) as (Hr & Hn & Htr).
  simpl Nat.add in *.
  assert (tr = false) as -> by (rewrite Htr; apply Nat.ltb_ge; exact Hsmall).
  rewrite !rows_app, !notices_app, Hr, Hn.
  unfold rows, notices, MAX_ROWS in *. simpl. lia.
Qed.

(** Once a file's issues pass the cap, the files after it leave no trace. *)
Lemma files_loop_stops (fs1 fs2 : files) (kv : string * list issue) :
  forall rc,
    rc + total_issues fs1 <= MAX_ROWS ->
    MAX_ROWS < rc + total_issues fs1 + length (snd kv) ->
    files_loop (fs1 ++ kv :: fs2) rc = files_loop (fs1 ++ [kv]) rc.
Proof.
  induction fs1 as [|[f1 is1] fs1 IH]; intros rc Hfit Hover.
  - destruct kv as [f issues]. simpl app. cbn [files_loop].
    destruct (rows_loop f issues rc) as [[rws rc1] tr1] eqn:E1.
    unfold total_issues in *. simpl in Hfit, Hover.
    destruct (rows_loop_spec _ _ _ _ _ _ E1 ltac:(lia)) as (_ & _ & _ & Htr1).
    assert (tr1 = true) as -> by (rewrite Htr1; apply Nat.ltb_lt; lia).
    reflexivity.
  - rewrite total_issues_cons in Hfit, Hover. simpl snd in *.
    simpl app. cbn [files_loop].
    destruct (rows_loop f1 is1 rc) as [[rws rc1] tr1] eqn:E1.
    destruct (rows_loop_spec _ _ _ _ _ _ E1 ltac:(lia)) as (_ & _ & Hrc1 & Htr1).
    destruct tr1; [reflexivity |].
    rewrite (IH rc1); [reflexivity | lia | lia].
Qed.

End Truncation.

(** C2.  With 501 issues the details table holds exactly 500 rows and one
    truncation notice.  Its block tags balance for an ordinary file name;
    for the file name ['><details>.tf] and a known commit they do not: the raw
    path in each row's link closes the quoted [href] and opens a [details]
    block that nothing closes. *)
Theorem truncated_details_unbalanced_for_hostile_path :
  LintSpec.details_report Sample.hostile_environ = Ok (501, 500, 1, false)
  /\ LintSpec.details_report Sample.benign_environ = Ok (501, 500, 1, true).
Proof.
  split; vm_compute; reflexivity.
Qed.

(** ** Header and trailing marker of the comment body *)

Section BodyFacts.

Import Py.

Lemma contains_refl (m : string) : contains m m = true.
Proof.
  apply contains_here. rewrite <- (str_app_nil_r m) at 2. apply startswith_app.
Qed.

Lemma endswith_refl (p : string) : endswith p p = true.
Proof. destruct p; cbn [endswith]; rewrite String.eqb_refl; reflexivity. Qed.

Lemma endswith_app_r (p a s : string) :
  endswith p s = true -> endswith p (a +:+ s) = true.
Proof.
  intros H. induction a as [|c a IH]; simpl; [exact H |].
  rewrite IH. apply orb_true_r.
Qed.

Lemma forall_str_app (p : ascii -> bool) (a b : string) :
  forall_str p (a +:+ b) = forall_str p a && forall_str p b.
Proof.
  induction a as [|c a IH]; simpl; [reflexivity |].
  now rewrite IH, andb_assoc.
Qed.

Lemma forall_str_uint (p : ascii -> bool) (d : Decimal.uint) :
  (forall c, isdigit c = true -> p c = true) ->
  forall_str p (NilEmpty.string_of_uint d) = true.
Proof.
  intros Hp. induction d; simpl; rewrite ?IHd, ?andb_true_r; try reflexivity;
    apply Hp; reflexivity.
Qed.

(** [str(n)] holds digits and, at most, a minus sign. *)
Lemma forall_str_str_of_Z (p : ascii -> bool) (z : Z) :
  (forall c, isdigit c = true -> p c = true) -> p "-"%char = true ->
  forall_str p (str_of_Z z) = true.
Proof.
  intros Hp Hm.
  unfold str_of_Z, NilZero.string_of_int, NilZero.string_of_uint.
  destruct (Z.to_int z) as [d | d]; destruct d;
    cbn [forall_str]; rewrite ?Hm, ?andb_true_l, ?andb_true_r;
    try apply (forall_str_uint p (_ _) Hp); try (apply Hp; reflexivity).
Qed.

Lemma one_line_app (a b : string) : one_line (a +:+ b) = one_line a && one_line b.
Proof. apply forall_str_app. Qed.

Lemma one_line_uint (d : Decimal.uint) : one_line (NilEmpty.string_of_uint d) = true.
Proof. induction d; simpl; auto. Qed.

Lemma one_line_str_of_Z (z : Z) : one_line (str_of_Z z) = true.
Proof.
  unfold str_of_Z, NilZero.string_of_int, NilZero.string_of_uint.
  destruct (Z.to_int z) as [d | d]; destruct d; try reflexivity;
    try apply (one_line_uint (_ _)).
  all: change (one_line (String "-" (NilEmpty.string_of_uint ?d)))
         with (one_line (NilEmpty.string_of_uint d)); apply (one_line_uint (_ _)).
Qed.

Lemma one_line_str_of_nat (n : nat) : one_line (str_of_nat n) = true.
Proof. apply one_line_str_of_Z. Qed.

(** The text before the first line feed is determined by the body. *)
Lemma span_stop (p : ascii -> bool) (a : string) (c : ascii) (r : string) :
  forall_str p a = true -> p c = false -> span p (a +:+ String c r) = (a, String c r).
Proof.
  intros Ha Hc. induction a as [|x a IH]; simpl.
  - now rewrite Hc.
  - simpl in Ha. apply andb_true_iff in Ha as [Hx Ha].
    now rewrite Hx, (IH Ha).
Qed.

Lemma first_line_unique (body header rest : string) :
  body = header +:+ nl +:+ rest ->
  one_line header = true ->
  header = fst (span (fun c => negb (c =? "010")%char) body).
Proof.
  intros -> H. unfold nl. simpl.
  change (header +:+ String "010" rest) with (header +:+ String "010"%char rest).
  now rewrite (span_stop _ header "010"%char rest H eq_refl).
Qed.

Lemma one_line_plan_marker (g : Plan.globals) :
  one_line (Plan.TF_ACTIONS_WORKING_DIR g) = true ->
  one_line (Plan.PR_COMMENT_MARKER g) = true ->
  one_line (Plan.marker_html g) = true.
Proof.
  intros Hwd Hm. unfold Plan.marker_html.
  destruct (_ && _); [exact Hm |].
  now rewrite !one_line_app, Hwd.
Qed.

Lemma one_line_status (t : Lint.totals) :
  one_line (Lint.status_of t) = true.
Proof.
  unfold Lint.status_of, Lint.plural.
  destruct (Lint.t_error t =? 0), (Lint.t_warning t =? 0), (Lint.t_info t =? 0);
    cbn [negb app join String.concat];
    try reflexivity;
    repeat match goal with
           | |- context [if ?b then _ else _] => destruct b
           end;
    rewrite ?one_line_app, ?one_line_str_of_nat; reflexivity.
Qed.

Lemma status_has_no_gt (t : Lint.totals) :
  forall_str (fun c => negb (c =? ">")%char) (Lint.status_of t) = true.
Proof.
  assert (Hn : forall n, forall_str (fun c => negb (c =? ">")%char) (str_of_nat n) = true).
  { intros n. apply forall_str_str_of_Z; [| reflexivity].
    intros c Hc. apply negb_true_iff, Ascii.eqb_neq. intros ->. discriminate. }
  unfold Lint.status_of, Lint.plural.
  destruct (Lint.t_error t =? 0), (Lint.t_warning t =? 0), (Lint.t_info t =? 0);
    cbn [negb app join String.concat];
    try reflexivity;
    repeat match goal with
           | |- context [if ?b then _ else _] => destruct b
           end;
    rewrite ?forall_str_app, ?Hn; reflexivity.
Qed.

Lemma str_app_eq_app (x y u v : string) :
  x +:+ y = u +:+ v ->
  (exists k, x = u +:+ k /\ v = k +:+ y) \/ (exists k, u = x +:+ k /\ y = k +:+ v).
Proof.
  revert u. induction x as [|c x IH]; intros u H.
  - right. exists u. split; [reflexivity | exact H].
  - destruct u as [|d u].
    + left. exists (String c x). split; [reflexivity | symmetry; exact H].
    + simpl in H. injection H as -> H.
      destruct (IH u H) as [(k & -> & ->) | (k & -> & ->)].
      * left. exists k. split; reflexivity.
      * right. exists k. split; reflexivity.
Qed.

Lemma str_length_append (a b : string) :
  String.length (a +:+ b) = String.length a + String.length b.
Proof. induction a as [|c a IH]; simpl; [reflexivity | now rewrite IH]. Qed.

(** A needle that starts with [c] is not found earlier than the end of a
    prefix without [c]. *)
Lemma contains_past_prefix (c : ascii) (m a s : string) :
  forall_str (fun x => negb (x =? c)%char) a = true ->
  contains (String c m) (a +:+ s) = contains (String c m) s.
Proof.
  intros Ha. induction a as [|x a IH]; [reflexivity |].
  simpl in Ha. apply andb_true_iff in Ha as [Hx Ha].
  change (String x a +:+ s) with (String x (a +:+ s)).
  cbn [contains startswith]. rewrite (IH Ha).
  apply negb_true_iff in Hx. rewrite Ascii.eqb_sym in Hx. now rewrite Hx.
Qed.

(** A needle that is longer than [w], starts with a character absent from
    [a] and ends with a character absent from [b], is not in [a w b]. *)
Lemma bracketed_not_contained (o c : ascii) (m a w b : string) :
  forall_str (fun x => negb (x =? o)%char) a = true ->
  forall_str (fun x => negb (x =? c)%char) b = true ->
  String.length w <= String.length m ->
  contains (String o (m +:+ String c "")) (a +:+ w +:+ b) = false.
Proof.
  intros Ha Hb Hlen. rewrite (contains_past_prefix o _ a _ Ha).
  destruct (contains _ _) eqn:E; [| reflexivity]. exfalso.
  apply contains_split in E as (l & r & E).
  change (String o (m +:+ String c "") +:+ r)
    with ((String o m +:+ String c "") +:+ r) in E.
  rewrite str_app_assoc, <- (str_app_assoc l) in E.
  apply str_app_eq_app in E as [(k & Hw & Hk) | (k & _ & Hk)].
  - destruct k as [|x k].
    + simpl in Hk. rewrite <- Hk in Hb. simpl in Hb.
      rewrite Ascii.eqb_refl in Hb. discriminate.
    + apply (f_equal String.length) in Hw.
      rewrite !str_length_append in Hw. simpl in Hw. lia.
  - rewrite Hk, forall_str_app in Hb. simpl in Hb.
    rewrite Ascii.eqb_refl in Hb. simpl in Hb.
    rewrite andb_false_r in Hb. discriminate.
Qed.

(** The lint header never holds the hidden token: the token is longer than
    the working directory, and nothing around the working directory opens
    or closes an HTML comment. *)
Lemma lint_header_without_hidden_marker (g : Lint.globals) (t : Lint.totals) :
  contains (Lint.hidden_marker g) (Lint.header_md g t) = false.
Proof.
  unfold Lint.header_md, Lint.hidden_marker, Lint.hidden_token.
  set (wd := Lint.wd_visible g).
  change ("<!-- tflint:" +:+ wd +:+ " -->")
    with (String "<" ("!-- tflint:" +:+ wd +:+ " -->")).
  replace ("!-- tflint:" +:+ wd +:+ " -->")
    with (("!-- tflint:" +:+ wd +:+ " --") +:+ String ">" "")
    by (rewrite !str_app_assoc; reflexivity).
  apply bracketed_not_contained.
  - reflexivity.
  - rewrite forall_str_app, status_has_no_gt. reflexivity.
  - rewrite !str_length_append. simpl. lia.
Qed.

End BodyFacts.

(** C7 (as stated, refuted).  The lint header of the sample run is the
    first line of the body, and the hidden token is not in it; and with a
    configured plan marker that spans two lines the first line of the plan
    body holds only the first half of the marker. *)
Lemma lint_header_lacks_hidden_token :
  Lint.load_globals Sample.lint_environ = Ok Sample.lint_globals /\
  Lint.parse_tflint_output (Lint.TFLINT_OUTPUT Sample.lint_globals) = Ok Sample.lint_files /\
  ~ header_carries (Lint.hidden_marker Sample.lint_globals)
      (Lint.comment_body Sample.lint_globals Sample.lint_files) /\
  Plan.load_globals Cases.plan_environ_two_line_marker = Ok Cases.plan_globals_two_line_marker /\
  Plan.marker_html Cases.plan_globals_two_line_marker
  = "<!--" +:+ Py.nl +:+ "plan-marker -->" /\
  ~ header_carries (Plan.marker_html Cases.plan_globals_two_line_marker)
      (Plan.body Cases.plan_globals_two_line_marker (Plan.not_available_block "")).
Proof.
  repeat apply conj; try (vm_compute; reflexivity).
  - intros (header & rest & E & Hone & Hc).
    apply first_line_unique in E; [| exact Hone].
    vm_compute in E. subst header.
    vm_compute in Hc. discriminate.
  - intros (header & rest & E & Hone & Hc).
    apply first_line_unique in E; [| exact Hone].
    vm_compute in E. subst header.
    vm_compute in Hc. discriminate.
Qed.

(** C7 (amended).  In the plan pipeline the body that [main] posts begins
    with the header, which contains the marker token, and the header is one
    line when neither the working directory nor the configured marker holds
    a line feed.  In the lint pipeline the body begins with the header,
    which contains the working-directory key and never the hidden token,
    and the header is one line when the working directory holds no line
    feed.  In both the body ends with the marker token and a line feed. *)
Theorem comment_body_header_and_trailing_marker :
  (forall (g : Plan.globals) (details : string),
     (exists rest, Plan.body g details = Plan.header g +:+ Py.nl +:+ rest) /\
     Py.contains (Plan.marker_html g) (Plan.header g) = true /\
     Py.endswith (Plan.marker_html g +:+ Py.nl) (Plan.body g details) = true /\
     (one_line (Plan.TF_ACTIONS_WORKING_DIR g) = true ->
      one_line (Plan.PR_COMMENT_MARKER g) = true ->
      header_carries (Plan.marker_html g) (Plan.body g details)))
  /\
  (forall (g : Plan.globals) (w : Plan.world) (b : string),
     Plan.comment_body g w = Ok b ->
     exists details,
       Plan.read_plan_details w (Plan.footer_md g) = Ok details /\ b = Plan.body g details)
  /\
  (forall (g : Lint.globals) (fs : Lint.files),
     (exists rest,
        Lint.comment_body g fs
        = Lint.header_md g (Lint.totals_from_files fs) +:+ Py.nl +:+ rest) /\
     Py.contains (Lint.wd_visible g) (Lint.header_md g (Lint.totals_from_files fs)) = true /\
     Py.contains (Lint.hidden_marker g) (Lint.header_md g (Lint.totals_from_files fs)) = false /\
     Py.endswith (Lint.hidden_marker g +:+ Py.nl) (Lint.comment_body g fs) = true /\
     (one_line (Lint.wd_visible g) = true ->
      header_carries (Lint.wd_visible g) (Lint.comment_body g fs))).
Proof.
  split; [| split].
  - intros g details.
    assert (Hbegin : exists rest, Plan.body g details = Plan.header g +:+ Py.nl +:+ rest)
      by (eexists; reflexivity).
    assert (Hhas : Py.contains (Plan.marker_html g) (Plan.header g) = true).
    { unfold Plan.header. do 3 apply contains_app_r. apply contains_refl. }
    repeat apply conj; [exact Hbegin | exact Hhas | |].
    + unfold Plan.body. do 7 apply endswith_app_r. apply endswith_refl.
    + intros Hwd Hm. destruct Hbegin as [rest E].
      exists (Plan.header g), rest. repeat apply conj; [exact E | | exact Hhas].
      unfold Plan.header. rewrite !one_line_app, Hwd, (one_line_plan_marker g Hwd Hm).
      reflexivity.
  - intros g w b. unfold Plan.comment_body.
    destruct (Plan.read_plan_details w (Plan.footer_md g)) as [details|e]; simpl;
      [| discriminate].
    intros H. injection H as <-. exists details. split; reflexivity.
  - intros g fs.
    assert (Hbegin : exists rest,
               Lint.comment_body g fs
               = Lint.header_md g (Lint.totals_from_files fs) +:+ Py.nl +:+ rest)
      by (eexists; reflexivity).
    assert (Hhas : Py.contains (Lint.wd_visible g)
                     (Lint.header_md g (Lint.totals_from_files fs)) = true).
    { unfold Lint.header_md. apply contains_app_r, contains_app_l, contains_refl. }
    repeat apply conj; [exact Hbegin | exact Hhas | | |].
    + apply lint_header_without_hidden_marker.
    + unfold Lint.comment_body. do 14 apply endswith_app_r. apply endswith_refl.
    + intros Hwd. destruct Hbegin as [rest E].
      exists (Lint.header_md g (Lint.totals_from_files fs)), rest.
      repeat apply conj; [exact E | | exact Hhas].
      unfold Lint.header_md. rewrite !one_line_app, Hwd, one_line_status. reflexivity.
Qed.

Lemma comment_body_header_and_trailing_marker_witness :
  one_line (Plan.TF_ACTIONS_WORKING_DIR Sample.plan_globals) = true /\
  one_line (Plan.PR_COMMENT_MARKER Sample.plan_globals) = true /\
  (exists b,
     Plan.comment_body Sample.plan_globals Sample.plan_world = Ok b /\
     header_carries (Plan.marker_html Sample.plan_globals) b) /\
  one_line (Lint.wd_visible Sample.lint_globals) = true /\
  header_carries (Lint.wd_visible Sample.lint_globals)
    (Lint.comment_body Sample.lint_globals Sample.lint_files).
Proof.
  destruct comment_body_header_and_trailing_marker as (Hplan & Hread & Hlint).
  do 2 (split; [reflexivity |]).
  split.
  - destruct (Plan.comment_body Sample.plan_globals Sample.plan_world) as [b|e] eqn:E;
      [| vm_compute in E; discriminate].
    exists b. split; [reflexivity |].
    destruct (Hread _ _ _ E) as (details & _ & ->).
    apply (Hplan Sample.plan_globals details); reflexivity.
  - split; [reflexivity |].
    apply (Hlint Sample.lint_globals Sample.lint_files). reflexivity.
Defined.

(** ** The plan-output extractor *)

Section ExtractFacts.

Import Py.

Lemma splitlines_nil_inv (s : string) : splitlines s = [] -> s = "".
Proof.
  destruct s as [|c r]; [reflexivity |]. cbn [splitlines].
  destruct (is_linebreak c).
  - destruct ((c =? "013")%char && starts_with_lf r) eqn:Hcr; [| discriminate].
    apply andb_true_iff in Hcr as [_ Hlf].
    destruct r as [|d r]; [discriminate |]. cbn [splitlines].
    simpl in Hlf. apply Ascii.eqb_eq in Hlf. subst d.
    change (is_linebreak "010") with true. cbv iota.
    change (("010" =? "013")%char) with false. cbv iota beta. simpl andb. cbv iota.
    discriminate.
  - destruct (splitlines r); discriminate.
Qed.

Lemma join_cons_char (sep : string) (c : ascii) (l : string) (ls : list string) :
  join sep (String c l :: ls) = String c (join sep (l :: ls)).
Proof. unfold join. destruct ls; reflexivity. Qed.

Lemma join_cons_empty (sep : string) (l : string) (ls : list string) :
  join sep ("" :: l :: ls) = sep +:+ join sep (l :: ls).
Proof. reflexivity. Qed.

(** For text whose lines end in line feeds, joining the lines gives the
    text back, up to one final line feed. *)
Lemma join_splitlines_lf (text : string) :
  lf_only text = true ->
  join nl (splitlines text) = text \/ join nl (splitlines text) +:+ nl = text.
Proof.
  induction text as [|c r IH]; intros Hlf; [left; reflexivity |].
  cbn [lf_only forall_str] in Hlf. apply andb_true_iff in Hlf as [Hc Hr].
  specialize (IH Hr). cbn [splitlines].
  destruct (is_linebreak c) eqn:Hlb.
  - simpl in Hc. apply Ascii.eqb_eq in Hc. subst c.
    change (("010" =? "013")%char) with false. cbv iota beta. simpl andb. cbv iota.
    destruct (splitlines r) as [|l ls] eqn:Hs.
    + apply splitlines_nil_inv in Hs. subst r. right. reflexivity.
    + rewrite join_cons_empty.
      destruct IH as [IH | IH]; [left | right].
      * change (String "010"%char (join nl (l :: ls)) = String "010"%char r). now f_equal.
      * change (String "010"%char (join nl (l :: ls) +:+ nl) = String "010"%char r).
        now f_equal.
  - destruct (splitlines r) as [|l ls] eqn:Hs.
    + apply splitlines_nil_inv in Hs. subst r. left. reflexivity.
    + rewrite join_cons_char.
      destruct IH as [IH | IH]; [left | right].
      * now f_equal.
      * change (String c (join nl (l :: ls) +:+ nl) = String c r). now f_equal.
Qed.

Lemma lstrip_all_space (s : string) : forall_str isspace s = true -> lstrip s = "".
Proof.
  induction s as [|c s IH]; simpl; [reflexivity |].
  intros H. apply andb_true_iff in H as [Hc Hs]. now rewrite Hc, IH.
Qed.

Lemma lstrip_app (s t : string) :
  lstrip (s +:+ t) = if forall_str isspace s then lstrip t else lstrip s +:+ t.
Proof.
  induction s as [|c s IH]; simpl; [reflexivity |].
  destruct (isspace c); simpl; [exact IH | reflexivity].
Qed.

Lemma rstrip_app_space (u : string) (c : ascii) :
  isspace c = true -> rstrip (u +:+ String c "") = rstrip u.
Proof.
  intros Hc. induction u as [|x u IH]; simpl.
  - now rewrite Hc.
  - now rewrite IH.
Qed.

Lemma strip_app_nl (s : string) : strip (s +:+ nl) = strip s.
Proof.
  unfold strip. rewrite lstrip_app.
  destruct (forall_str isspace s) eqn:Hs.
  - now rewrite (lstrip_all_space s Hs).
  - apply rstrip_app_space. reflexivity.
Qed.

Lemma first_plan_line_spec (lines : list string) :
  forall i,
    match Plan.first_plan_line i lines with
    | Some k =>
        exists before l after,
          lines = before ++ l :: after /\
          no_plan_line before /\
          contains Plan.plan_marker_phrase l = true /\
          k = i + length before
    | None => no_plan_line lines
    end.
Proof.
  induction lines as [|l rest IH]; intros i; cbn [Plan.first_plan_line].
  - constructor.
  - destruct (contains Plan.plan_marker_phrase l) eqn:Hl.
    + exists [], l, rest. repeat split; [constructor | exact Hl | simpl; lia].
    + specialize (IH (S i)).
      destruct (Plan.first_plan_line (S i) rest) as [k|].
      * destruct IH as (before & l' & after & -> & Hb & Hl' & ->).
        exists (l :: before), l', after.
        repeat split; [constructor; assumption | exact Hl' | simpl; lia].
      * constructor; assumption.
Qed.

End ExtractFacts.

(** A plan text without the marker phrase does not come back unchanged:
    its final line feed is gone. *)
Lemma extract_plan_only_drops_final_newline :
  no_plan_line (Py.splitlines ("No changes." +:+ Py.nl)) /\
  Plan._extract_plan_only ("No changes." +:+ Py.nl) = "No changes." /\
  Plan._extract_plan_only ("No changes." +:+ Py.nl) <> "No changes." +:+ Py.nl.
Proof.
  repeat apply conj.
  - repeat constructor.
  - reflexivity.
  - discriminate.
Qed.

(** C9 (amended).  The extractor returns the lines from the first one that
    contains the marker phrase onward, joined by line feeds and trimmed;
    when no line contains the phrase it returns all lines, joined by line
    feeds and trimmed.  For a text whose only line boundary is the line feed
    and which has no such line, that is the trimmed text. *)
Theorem extract_plan_only_from_first_marker_line (text : string) :
  ((no_plan_line (Py.splitlines text) /\
    Plan._extract_plan_only text = Py.strip (Py.join Py.nl (Py.splitlines text)))
   \/
   (exists before l after,
      Py.splitlines text = before ++ l :: after /\
      no_plan_line before /\
      Py.contains Plan.plan_marker_phrase l = true /\
      Plan._extract_plan_only text = Py.strip (Py.join Py.nl (l :: after))))
  /\
  (lf_only text = true ->
   no_plan_line (Py.splitlines text) ->
   Plan._extract_plan_only text = Py.strip text).
Proof.
  unfold Plan._extract_plan_only, Py.slice_from.
  pose proof (first_plan_line_spec (Py.splitlines text) 0) as Hspec.
  split.
  - destruct (Plan.first_plan_line 0 (Py.splitlines text)) as [k|].
    + right. destruct Hspec as (before & l & after & E & Hb & Hl & ->).
      exists before, l, after. repeat split; try assumption.
      rewrite E. change (default 0 (Some (0 + length before))) with (length before).
      now rewrite skipn_app, skipn_all, Nat.sub_diag.
    + left. split; [exact Hspec | reflexivity].
  - intros Hlf Hnone.
    destruct (Plan.first_plan_line 0 (Py.splitlines text)) as [k|].
    + destruct Hspec as (before & l & after & E & _ & Hl & _).
      rewrite E in Hnone. apply List.Forall_app in Hnone as [_ Hnone].
      inversion Hnone as [|? ? Hl' _]. congruence.
    + change (Py.strip (Py.join Py.nl (Py.splitlines text)) = Py.strip text).
      destruct (join_splitlines_lf text Hlf) as [E | E].
      * now rewrite E.
      * rewrite <- E at 2. now rewrite strip_app_nl.
Qed.

Lemma extract_plan_only_from_first_marker_line_witness :
  lf_only ("  No changes." +:+ Py.nl +:+ "Done." +:+ Py.nl) = true /\
  no_plan_line (Py.splitlines ("  No changes." +:+ Py.nl +:+ "Done." +:+ Py.nl)) /\
  Plan._extract_plan_only ("  No changes." +:+ Py.nl +:+ "Done." +:+ Py.nl)
  = Py.strip ("  No changes." +:+ Py.nl +:+ "Done." +:+ Py.nl).
Proof.
  assert (H : no_plan_line (Py.splitlines ("  No changes." +:+ Py.nl +:+ "Done." +:+ Py.nl)))
    by (repeat constructor).
  repeat apply conj; [reflexivity | exact H |].
  apply (proj2 (extract_plan_only_from_first_marker_line _)); [reflexivity | exact H].
Defined.

(** ** When the lint-output parser returns *)

Section ParserTotal.

Import Py.

Lemma span_spec (p : ascii -> bool) (s : string) :
  forall a b, span p s = (a, b) -> s = a +:+ b /\ forall_str p a = true.
Proof.
  induction s as [|c s IH]; intros a b E; simpl in E.
  - injection E as <- <-. split; reflexivity.
  - destruct (p c) eqn:Hc.
    + destruct (span p s) as [a' b'] eqn:Es. injection E as <- <-.
      destruct (IH _ _ eq_refl) as [-> Ha]. split; [reflexivity |].
      simpl. now rewrite Hc, Ha.
    + injection E as <- <-. split; reflexivity.
Qed.

Lemma digit_not_space (c : ascii) : isdigit c = true -> isspace c = false.
Proof.
  unfold isdigit, isspace, in_range. intros H.
  apply andb_true_iff in H as [H1 H2].
  apply N.leb_le in H1. apply N.leb_le in H2.
  repeat rewrite orb_false_iff. repeat split.
  - apply andb_false_iff. right. apply N.leb_gt. lia.
  - apply andb_false_iff. right. apply N.leb_gt. lia.
  - apply N.eqb_neq. lia.
Qed.

Lemma digit_not_sign (c : ascii) :
  isdigit c = true -> (c =? "-")%char = false /\ (c =? "+")%char = false.
Proof.
  intros H. split; apply Ascii.eqb_neq; intros ->; discriminate H.
Qed.

Lemma rstrip_no_space (s : string) :
  forall_str (fun c => negb (isspace c)) s = true -> rstrip s = s.
Proof.
  induction s as [|c s IH]; simpl; [reflexivity |].
  intros H. apply andb_true_iff in H as [Hc Hs].
  rewrite (IH Hs). apply negb_true_iff in Hc. rewrite Hc.
  destruct s; reflexivity.
Qed.

Lemma forall_str_impl (p q : ascii -> bool) (s : string) :
  (forall c, p c = true -> q c = true) -> forall_str p s = true -> forall_str q s = true.
Proof.
  intros Hpq. induction s as [|c s IH]; simpl; [reflexivity |].
  intros H. apply andb_true_iff in H as [Hc Hs].
  now rewrite (Hpq _ Hc), (IH Hs).
Qed.

Lemma strip_digits (s : string) : forall_str isdigit s = true -> strip s = s.
Proof.
  intros H. unfold strip.
  assert (Hl : lstrip s = s).
  { destruct s as [|c s]; [reflexivity |]. simpl in *.
    apply andb_true_iff in H as [Hc _]. now rewrite (digit_not_space c Hc). }
  rewrite Hl. apply rstrip_no_space.
  eapply forall_str_impl; [| exact H].
  intros c Hc. now rewrite (digit_not_space c Hc).
Qed.

Lemma digit_not_int_space (c : ascii) : isdigit c = true -> is_int_space c = false.
Proof.
  intros H. pose proof (digit_not_space c H) as Hs. unfold isspace in Hs.
  unfold is_int_space.
  apply orb_false_iff in Hs as [Hs H32]. apply orb_false_iff in Hs as [H9 _].
  now rewrite H9, H32.
Qed.

Lemma span_all (p : ascii -> bool) (s : string) :
  forall_str p s = true -> span p s = (s, "").
Proof.
  induction s as [|c s IH]; simpl; [reflexivity |].
  intros H. apply andb_true_iff in H as [Hc Hs]. now rewrite Hc, (IH Hs).
Qed.

Lemma underscores_ok_digits (s : string) :
  forall prev,
    forall_str isdigit s = true ->
    s <> "" \/ prev = true ->
    underscores_ok prev s = true.
Proof.
  induction s as [|c s IH]; intros prev Hd Hne; simpl.
  - destruct Hne as [Hne | ->]; [congruence | reflexivity].
  - simpl in Hd. apply andb_true_iff in Hd as [Hc Hs]. rewrite Hc.
    apply IH; auto.
Qed.

Lemma count_digits_all (s : string) :
  forall_str isdigit s = true -> count_digits s = String.length s.
Proof.
  induction s as [|c s IH]; simpl; [reflexivity |].
  intros H. apply andb_true_iff in H as [Hc Hs]. now rewrite Hc, (IH Hs).
Qed.

(** What the pattern captured as [\d+] converts without error when it has
    at most 4300 digits, and raises [ValueError] when it has more. *)
Lemma int_of_str_digits (s : string) :
  forall_str isdigit s = true -> is_empty s = false ->
  int_of_str s
  = if int_max_str_digits <? String.length s
    then Raise (int_too_long (String.length s))
    else Ok (run_value 0 s).
Proof.
  intros Hd Hne. unfold int_of_str.
  destruct s as [|c s]; [discriminate |].
  pose proof Hd as Hd'. cbn [forall_str] in Hd'. apply andb_true_iff in Hd' as [Hc _].
  cbn [span]. rewrite (digit_not_int_space c Hc). cbn [snd].
  destruct (digit_not_sign c Hc) as [-> ->].
  rewrite (span_all is_int_char (String c s)).
  - rewrite (underscores_ok_digits (String c s) false Hd) by (left; discriminate).
    rewrite (count_digits_all _ Hd). cbn [negb forall_str]. reflexivity.
  - eapply forall_str_impl; [| exact Hd].
    intros x Hx. unfold is_int_char. now rewrite Hx.
Qed.

Lemma bind_some_inv {A B : Type} (m : option A) (k : A -> option B) (b : B) :
  m ≫= k = Some b -> exists a, m = Some a /\ k a = Some b.
Proof. destruct m as [a|]; simpl; [eauto | discriminate]. Qed.

(** A match captures non-empty runs of digits for the line and column. *)
Lemma LINE_RE_match_digits (raw : string) (d : Lint.groups) :
  Lint.LINE_RE_match raw = Some d ->
  forall_str isdigit (Lint.g_line d) = true /\ is_empty (Lint.g_line d) = false /\
  forall_str isdigit (Lint.g_col d) = true /\ is_empty (Lint.g_col d) = false /\
  forall_str isalpha (Lint.g_level d) = true /\ is_empty (Lint.g_level d) = false.
Proof.
  unfold Lint.LINE_RE_match. intros H.
  destruct (span _ raw) as [file r1].
  destruct (is_empty file); [discriminate |].
  apply bind_some_inv in H as (r2 & _ & H).
  destruct (span isdigit r2) as [ln r3] eqn:E2.
  destruct (is_empty ln) eqn:Hln; [discriminate |].
  apply bind_some_inv in H as (r4 & _ & H).
  destruct (span isdigit r4) as [cl r5] eqn:E4.
  destruct (is_empty cl) eqn:Hcl; [discriminate |].
  apply bind_some_inv in H as (r6 & _ & H).
  destruct (span isalpha (lstrip r6)) as [lvl r7] eqn:E6.
  destruct (is_empty lvl) eqn:Hlvl; [discriminate |].
  apply bind_some_inv in H as (r8 & _ & H).
  apply bind_some_inv in H as ([m ru] & _ & H).
  injection H as <-. simpl.
  apply span_spec in E2 as [_ E2]. apply span_spec in E4 as [_ E4].
  apply span_spec in E6 as [_ E6]. auto 10.
Qed.

(** A matching line converts when both numbers are within the digit
    limit. *)
Lemma issue_of_groups_total (raw : string) (d : Lint.groups) :
  Lint.LINE_RE_match raw = Some d ->
  LintSpec.within_limit (Lint.g_line d) = true ->
  LintSpec.within_limit (Lint.g_col d) = true ->
  exists p, Lint.issue_of_groups d = Ok p.
Proof.
  intros H Wl Wc. destruct (LINE_RE_match_digits raw d H) as (Hl & Hl' & Hc & Hc' & _).
  unfold Lint.issue_of_groups.
  rewrite (int_of_str_digits _ Hl Hl'), (int_of_str_digits _ Hc Hc').
  unfold LintSpec.within_limit in Wl, Wc.
  apply Nat.leb_le in Wl. apply Nat.leb_le in Wc.
  destruct (Nat.ltb_spec int_max_str_digits (String.length (Lint.g_line d))); [lia |].
  destruct (Nat.ltb_spec int_max_str_digits (String.length (Lint.g_col d))); [lia |].
  eexists. reflexivity.
Qed.

(** A matching line with a number past the digit limit raises. *)
Lemma issue_of_groups_overlong (raw : string) (d : Lint.groups) :
  Lint.LINE_RE_match raw = Some d ->
  negb (LintSpec.within_limit (Lint.g_line d))
  || negb (LintSpec.within_limit (Lint.g_col d)) = true ->
  exists n, Lint.issue_of_groups d = Raise (int_too_long n) /\ int_max_str_digits < n.
Proof.
  intros H W. destruct (LINE_RE_match_digits raw d H) as (Hl & Hl' & Hc & Hc' & _).
  unfold Lint.issue_of_groups.
  rewrite (int_of_str_digits _ Hl Hl'), (int_of_str_digits _ Hc Hc').
  unfold LintSpec.within_limit in W.
  destruct (Nat.ltb_spec int_max_str_digits (String.length (Lint.g_line d))) as [Hn | Hn].
  - eexists. split; [reflexivity | exact Hn].
  - destruct (Nat.ltb_spec int_max_str_digits (String.length (Lint.g_col d))) as [Hm | Hm].
    + eexists. split; [reflexivity | exact Hm].
    + exfalso. apply orb_true_iff in W as [W | W];
        apply negb_true_iff, Nat.leb_gt in W; lia.
Qed.

Lemma passed_over_spec (raw : string) :
  LintSpec.passed_over raw = is_empty (strip raw) || Lint.is_summary_line raw.
Proof. unfold LintSpec.passed_over, Lint.is_summary_line. now rewrite orb_assoc. Qed.

(** One loop iteration adds the line's entry, if it has one. *)
Lemma parse_line_spec (raw : string) (fs : Lint.files) :
  LintSpec.overlong raw = false ->
  Lint.parse_line raw fs
  = Ok match LintSpec.line_entry raw with
       | Some (file, it) => Lint.setdefault_append file it fs
       | None => fs
       end.
Proof.
  unfold LintSpec.overlong. rewrite passed_over_spec.
  unfold Lint.parse_line, LintSpec.line_entry.
  destruct (is_empty (strip raw)); [reflexivity |].
  destruct (Lint.is_summary_line raw); [reflexivity |]. cbn [orb negb andb].
  destruct (Lint.LINE_RE_match raw) as [d|] eqn:Hm; [| reflexivity].
  intros W. apply orb_false_iff in W as [Wl Wc].
  apply negb_false_iff in Wl. apply negb_false_iff in Wc.
  destruct (issue_of_groups_total raw d Hm Wl Wc) as [[file it] ->]. reflexivity.
Qed.

(** One loop iteration on a line with a number past the digit limit leaves
    the loop with the [ValueError] of [int()]. *)
Lemma parse_line_overlong (raw : string) (fs : Lint.files) :
  LintSpec.overlong raw = true ->
  exists n, Lint.parse_line raw fs = Raise (int_too_long n) /\ int_max_str_digits < n.
Proof.
  unfold LintSpec.overlong. rewrite passed_over_spec.
  unfold Lint.parse_line.
  destruct (is_empty (strip raw)); [discriminate |].
  destruct (Lint.is_summary_line raw); [discriminate |]. cbn [orb negb andb].
  destruct (Lint.LINE_RE_match raw) as [d|] eqn:Hm; [| discriminate].
  intros W. destruct (issue_of_groups_overlong raw d Hm W) as (n & -> & Hn).
  exists n. split; [reflexivity | exact Hn].
Qed.

Lemma parse_line_inv (raw : string) (fs fs' : Lint.files) :
  Lint.parse_line raw fs = Ok fs' ->
  LintSpec.overlong raw = false /\
  fs' = match LintSpec.line_entry raw with
        | Some (file, it) => Lint.setdefault_append file it fs
        | None => fs
        end.
Proof.
  intros E. destruct (LintSpec.overlong raw) eqn:W.
  - destruct (parse_line_overlong raw fs W) as (n & E' & _). congruence.
  - rewrite (parse_line_spec raw fs W) in E. injection E as <-. now split.
Qed.




End ParserTotal.

(** ** What the parser collects *)

Section ParserCollects.

Import Lint LintSpec.

Lemma insert_by_perm {A : Type} (le : A -> A -> bool) (x : A) (l : list A) :
  Permutation (insert_by le x l) (x :: l).
Proof.
  induction l as [|y l IH]; simpl; [reflexivity |].
  destruct (le x y); [reflexivity |].
  rewrite IH. apply perm_swap.
Qed.

(** Sorting rearranges and loses nothing. *)
Lemma sort_by_perm {A : Type} (le : A -> A -> bool) (l : list A) :
  Permutation (sort_by le l) l.
Proof.
  unfold sort_by. induction l as [|x l IH]; simpl; [reflexivity |].
  rewrite insert_by_perm. now constructor.
Qed.

Lemma entries_cons (kv : string * list issue) (fs : files) :
  entries (kv :: fs) = map (pair (fst kv)) (snd kv) ++ entries fs.
Proof. reflexivity. Qed.

Lemma entries_setdefault (file : string) (it : issue) (fs : files) :
  Permutation (entries (setdefault_append file it fs)) (entries fs ++ [(file, it)]).
Proof.
  induction fs as [|[k v] fs IH]; cbn [setdefault_append]; [reflexivity |].
  destruct (String.eqb_spec k file) as [-> | _].
  - rewrite !entries_cons. simpl fst. simpl snd.
    rewrite map_app, <- !app_assoc. simpl map.
    apply Permutation_app_head. apply Permutation_app_comm.
  - rewrite !entries_cons, IH. now rewrite app_assoc.
Qed.

Lemma entries_sort_issues (fs : files) :
  Permutation (entries (sort_issues fs)) (entries fs).
Proof.
  induction fs as [|[k v] fs IH]; [reflexivity |].
  change (sort_issues ((k, v) :: fs)) with ((k, sort_by issue_le v) :: sort_issues fs).
  rewrite !entries_cons, IH. simpl fst. simpl snd.
  apply Permutation_app_tail, Permutation_map, sort_by_perm.
Qed.

Lemma entries_perm (fs fs' : files) :
  Permutation fs fs' -> Permutation (entries fs) (entries fs').
Proof. intros H. unfold entries. now apply Permutation_flat_map. Qed.

Lemma parse_lines_entries (lines : list string) :
  forall fs fs',
    parse_lines lines fs = Ok fs' ->
    Permutation (entries fs') (entries fs ++ kept_entries lines).
Proof.
  induction lines as [|raw rest IH]; intros fs fs' E; cbn [parse_lines] in E.
  - injection E as <-. simpl. now rewrite app_nil_r.
  - destruct (parse_line raw fs) as [fs1|e] eqn:E1; [| discriminate].
    apply parse_line_inv in E1 as [_ ->]. cbn [mbind result_bind bind] in E.
    apply IH in E. rewrite E.
    change (kept_entries (raw :: rest))
      with (match line_entry raw with Some p => [p] | None => [] end ++ kept_entries rest).
    destruct (line_entry raw) as [[file it]|].
    + rewrite entries_setdefault. now rewrite <- app_assoc.
    + reflexivity.
Qed.

Lemma parse_tflint_output_inv (text : string) (fs : files) :
  parse_tflint_output text = Ok fs ->
  exists fs0,
    parse_lines (Py.splitlines text) [] = Ok fs0 /\
    fs = sort_by file_le (sort_issues fs0).
Proof.
  unfold parse_tflint_output.
  destruct (parse_lines (Py.splitlines text) []) as [fs0|e]; [| discriminate].
  intros H. injection H as <-. eauto.
Qed.


(** A parse result holds exactly the entries of the lines of the text. *)
Lemma parse_tflint_output_entries (text : string) (fs : files) :
  parse_tflint_output text = Ok fs ->
  Permutation (entries fs) (kept_entries (Py.splitlines text)).
Proof.
  intros E. apply parse_tflint_output_inv in E as (fs0 & E & ->).
  rewrite (entries_perm _ _ (sort_by_perm file_le (sort_issues fs0))).
  rewrite entries_sort_issues.
  now rewrite (parse_lines_entries _ _ _ E).
Qed.


End ParserCollects.




(** ** Severity totals *)

Section Totals.

Import Lint LintSpec.

Lemma get0_insert (t : gmap string nat) (l k : string) (v : nat) :
  get0 (<[l := v]> t) k = if (l =? k)%string then v else get0 t k.
Proof.
  unfold get0. destruct (String.eqb_spec l k) as [-> | Hne].
  - now rewrite lookup_insert_eq.
  - now rewrite lookup_insert_ne.
Qed.

(** Counting the issues of one file adds, under each key, the number of
    issues of that level. *)
Lemma count_issues_spec (k : string) (issues : list issue) :
  forall t,
    get0 (fold_left count_issue issues t) k
    = get0 t k + length (List.filter (has_level k) issues).
Proof.
  induction issues as [|it rest IH]; intros t; cbn [fold_left List.filter]; [simpl; lia |].
  rewrite IH. unfold count_issue. rewrite get0_insert.
  unfold has_level at 2.
  destruct (String.eqb_spec (level it) k) as [-> | _]; cbn [length]; lia.
Qed.

Lemma count_files_spec (k : string) (fs : files) :
  forall t,
    get0 (fold_left count_file fs t) k = get0 t k + count_level k fs.
Proof.
  unfold count_level, all_issues.
  induction fs as [|[f issues] rest IH]; intros t; simpl; [lia |].
  rewrite IH. unfold count_file. simpl snd. rewrite count_issues_spec.
  rewrite List.filter_app, length_app. lia.
Qed.

(** The four counted levels are distinct, so an issue is counted once. *)
Lemma known_level_count (l : list issue) :
  length (List.filter known_level l)
  = length (List.filter (has_level "error") l)
    + length (List.filter (has_level "warning") l)
    + length (List.filter (has_level "info") l)
    + length (List.filter (has_level "notice") l).
Proof.
  induction l as [|it l IH]; [reflexivity |].
  unfold known_level, has_level in *. cbn [List.filter]. cbv beta.
  destruct (String.eqb_spec (level it) "error") as [E | _];
    [rewrite E; simpl; lia |].
  destruct (String.eqb_spec (level it) "warning") as [E | _];
    [rewrite E; simpl; lia |].
  destruct (String.eqb_spec (level it) "notice") as [E | _];
    [rewrite E; simpl; lia |].
  destruct (String.eqb_spec (level it) "info") as [_ | _]; simpl; lia.
Qed.

Lemma filter_all {A : Type} (p : A -> bool) (l : list A) :
  forallb p l = true -> List.filter p l = l.
Proof.
  induction l as [|a l IH]; simpl; [reflexivity |].
  intros H. apply andb_true_iff in H as [Ha Hl]. now rewrite Ha, IH.
Qed.

(** The totals of any parse result, by level. *)
Lemma totals_from_files_spec (fs : files) :
  t_error (totals_from_files fs) = count_level "error" fs /\
  t_warning (totals_from_files fs) = count_level "warning" fs /\
  t_info (totals_from_files fs) = count_level "info" fs + count_level "notice" fs /\
  t_total (totals_from_files fs)
  = t_error (totals_from_files fs) + t_warning (totals_from_files fs)
    + t_info (totals_from_files fs) /\
  t_total (totals_from_files fs) = length (List.filter known_level (all_issues fs)).
Proof.
  unfold totals_from_files.
  set (t0 := list_to_map _ : gmap string nat).
  cbn [t_error t_warning t_info t_total].
  rewrite !get0_insert. simpl String.eqb. cbv iota.
  rewrite !count_files_spec.
  change (get0 t0 "error") with 0. change (get0 t0 "warning") with 0.
  change (get0 t0 "info") with 0. change (get0 t0 "notice") with 0.
  rewrite known_level_count. unfold count_level.
  repeat split; lia.
Qed.

End Totals.

(** A parsed issue whose level word is none of the four is not counted:
    one issue, total zero. *)
Lemma totals_miss_unknown_level :
  Lint.parse_tflint_output "main.tf:1:1: Fatal - boom"
  = Ok [("main.tf", [Lint.Issue 1 1 "fatal" "" "boom"])] /\
  Lint.t_total (Lint.totals_from_files [("main.tf", [Lint.Issue 1 1 "fatal" "" "boom"])]) = 0 /\
  Lint.t_total (Lint.totals_from_files [("main.tf", [Lint.Issue 1 1 "fatal" "" "boom"])])
  <> length (LintSpec.all_issues [("main.tf", [Lint.Issue 1 1 "fatal" "" "boom"])]).
Proof.
  repeat apply conj; [vm_compute; reflexivity | vm_compute; reflexivity |].
  vm_compute. discriminate.
Qed.

(** C3 (amended).  For every lint output text, the totals of the issues
    parsed from it fold notice into info, satisfy
    total = error + warning + info, and the total is the number of parsed
    issues whose level is error, warning, notice or info; it is the number
    of all parsed issues when every issue has one of these levels.  (The
    identities hold for any files of issues, lemma
    [totals_from_files_spec].) *)
Theorem totals_count_known_levels (text : string) (fs : Lint.files) :
  Lint.parse_tflint_output text = Ok fs ->
  Lint.t_error (Lint.totals_from_files fs) = LintSpec.count_level "error" fs /\
  Lint.t_warning (Lint.totals_from_files fs) = LintSpec.count_level "warning" fs /\
  Lint.t_info (Lint.totals_from_files fs)
  = LintSpec.count_level "info" fs + LintSpec.count_level "notice" fs /\
  Lint.t_total (Lint.totals_from_files fs)
  = Lint.t_error (Lint.totals_from_files fs) + Lint.t_warning (Lint.totals_from_files fs)
    + Lint.t_info (Lint.totals_from_files fs) /\
  Lint.t_total (Lint.totals_from_files fs)
  = length (List.filter LintSpec.known_level (LintSpec.all_issues fs)) /\
  (forallb LintSpec.known_level (LintSpec.all_issues fs) = true ->
   Lint.t_total (Lint.totals_from_files fs) = length (LintSpec.all_issues fs)).
Proof.
  intros _.
  destruct (totals_from_files_spec fs) as (He & Hw & Hi & Ht & Hk).
  repeat apply conj; try assumption.
  intros Hall. rewrite Hk. now rewrite filter_all.
Qed.

Lemma totals_count_known_levels_witness :
  exists fs,
    Lint.parse_tflint_output
      ("a.tf:1:2: Error - x" +:+ Py.nl +:+ "a.tf:3:4: Notice - y (r)") = Ok fs /\
    forallb LintSpec.known_level (LintSpec.all_issues fs) = true /\
    Lint.t_total (Lint.totals_from_files fs) = length (LintSpec.all_issues fs).
Proof.
  assert (E : Lint.parse_tflint_output
                ("a.tf:1:2: Error - x" +:+ Py.nl +:+ "a.tf:3:4: Notice - y (r)")
              = Ok [("a.tf", [Lint.Issue 1 2 "error" "" "x"; Lint.Issue 3 4 "notice" "r" "y"])])
    by (vm_compute; reflexivity).
  exists [("a.tf", [Lint.Issue 1 2 "error" "" "x"; Lint.Issue 3 4 "notice" "r" "y"])].
  split; [exact E |].
  split; [reflexivity |].
  apply (totals_count_known_levels _ _ E). reflexivity.
Defined.

(** ** Lines in the fixed shape *)

Section FixedShape.

Import Py.






Lemma forall_str_lstrip (p : ascii -> bool) (s : string) :
  forall_str p s = true -> forall_str p (lstrip s) = true.
Proof.
  induction s as [|c s IH]; simpl; [reflexivity |].
  intros H. destruct (isspace c); [| exact H].
  apply andb_true_iff in H as [_ Hs]. exact (IH Hs).
Qed.

Lemma rstrip_all_space (s : string) : forall_str isspace s = true -> rstrip s = "".
Proof.
  induction s as [|c s IH]; simpl; [reflexivity |].
  intros H. apply andb_true_iff in H as [Hc Hs]. now rewrite (IH Hs), Hc.
Qed.

Lemma rstrip_empty_inv (s : string) : rstrip s = "" -> forall_str isspace s = true.
Proof.
  induction s as [|c s IH]; simpl; [reflexivity |].
  destruct (rstrip s) eqn:Hr; [| discriminate].
  destruct (isspace c); [intros _; now rewrite IH | discriminate].
Qed.

Lemma rstrip_cons (c : ascii) (s : string) :
  forall_str isspace (String c s) = false -> rstrip (String c s) = String c (rstrip s).
Proof.
  intros H. cbn [rstrip].
  destruct (rstrip s) eqn:Hr; [| reflexivity].
  destruct (isspace c) eqn:Hc; [| reflexivity].
  simpl in H. now rewrite Hc, (rstrip_empty_inv s Hr) in H.
Qed.

Lemma rstrip_idem (s : string) : rstrip (rstrip s) = rstrip s.
Proof.
  induction s as [|c s IH]; [reflexivity |]. cbn [rstrip].
  destruct (rstrip s) as [|x r] eqn:Hr.
  - destruct (isspace c) eqn:Hc; [reflexivity |]. simpl. now rewrite Hc.
  - cbn [rstrip]. cbn [rstrip] in IH. now rewrite IH.
Qed.

Lemma lstrip_idem (s : string) : lstrip (lstrip s) = lstrip s.
Proof.
  induction s as [|c s IH]; [reflexivity |]. simpl.
  destruct (isspace c) eqn:Hc; [exact IH |]. simpl. now rewrite Hc.
Qed.

Lemma lstrip_rstrip (s : string) : lstrip (rstrip (lstrip s)) = rstrip (lstrip s).
Proof.
  pose proof (lstrip_idem s) as Hi.
  destruct (lstrip s) as [|c r] eqn:Hl; [reflexivity |].
  simpl in Hi. destruct (isspace c) eqn:Hc.
  - (* a stripped string does not start with a space *)
    exfalso. clear Hi. revert Hl. induction s as [|x s IH]; simpl; [discriminate |].
    destruct (isspace x) eqn:Hx; [exact IH |].
    intros E. injection E as -> _. congruence.
  - cbn [rstrip]. destruct (rstrip r); rewrite ?Hc; cbn [lstrip]; now rewrite Hc.
Qed.

(** Stripping twice is stripping once. *)
Lemma strip_idem (s : string) : strip (strip s) = strip s.
Proof. unfold strip. now rewrite lstrip_rstrip, rstrip_idem. Qed.


Lemma lstrip_decomp (s : string) :
  exists w, s = w +:+ lstrip s /\ forall_str isspace w = true.
Proof.
  induction s as [|c s IH]; [exists ""; split; reflexivity |]. simpl.
  destruct (isspace c) eqn:Hc.
  - destruct IH as (w & E & Hw). exists (String c w). simpl. rewrite Hc, Hw.
    split; [now rewrite <- E | reflexivity].
  - exists "". split; reflexivity.
Qed.


Lemma splitlines_single (s : string) :
  forall_str (fun c => negb (is_linebreak c)) s = true ->
  is_empty s = false ->
  splitlines s = [s].
Proof.
  induction s as [|c s IH]; [discriminate |].
  intros H _. simpl in H. apply andb_true_iff in H as [Hc Hs].
  apply negb_true_iff in Hc. cbn [splitlines]. rewrite Hc.
  destruct s as [|d s]; [reflexivity |].
  now rewrite (IH Hs eq_refl).
Qed.








End FixedShape.

Section FixedShapeParse.

Import Py Lint LintSpec.





End FixedShapeParse.




(** ** The coordinator inside [main] *)

(** The rendered bodies carry the marker the locator looks for, so the
    hypotheses of the idempotence theorem hold for what [main] posts. *)
Lemma plan_body_carries_marker (g : Plan.globals) (details : string) :
  Py.contains (Plan.marker_html g) (Plan.body g details) = true.
Proof.
  unfold Plan.body. do 7 apply contains_app_r.
  apply contains_app_l, contains_refl.
Qed.

Lemma lint_body_carries_hidden_token (g : Lint.globals) (fs : Lint.files) :
  Py.contains (Lint.hidden_token (Lint.wd_visible g)) (Lint.comment_body g fs) = true.
Proof.
  unfold Lint.comment_body. do 14 apply contains_app_r.
  apply contains_app_l, contains_refl.
Qed.

(** On a pull-request event with a resolved number and a usable token, the
    plan script's [main] reads the details and is the coordinator applied to
    the rendered body. *)
Lemma plan_main_upserts (g : Plan.globals) (w : Plan.world) (st : forge)
    (pr : Z) (out : list string) :
  Plan.is_pr_event (Plan.EVENT_NAME g) = true ->
  Plan.get_pr_number g w = (Some pr, out) ->
  pr <> 0%Z ->
  Plan.CREATE_COMMENT g && Py.is_empty (Plan.TOKEN g) = false ->
  Plan.main g w st
  = match Plan.read_plan_details w (Plan.footer_md g) with
    | Ok details =>
        match Plan.upsert st pr (Plan.marker_html g) (Plan.body g details) with
        | Ok (st', out') =>
            Ok (st',
                (out ++ ["::notice::Upserting Terraform plan PR comment for "
                         +:+ Plan.TF_ACTIONS_WORKING_DIR g +:+ " with marker "
                         +:+ Plan.marker_html g]) ++ out')
        | Raise e => Raise e
        end
    | Raise e => Raise e
    end.
Proof.
  intros Hev Hpr Hnz Htok. unfold Plan.main, Plan.comment_body. rewrite Hev, Hpr, Htok. simpl.
  destruct (Z.eqb_spec pr 0) as [-> | _]; [congruence |]. simpl.
  destruct (Plan.read_plan_details w (Plan.footer_md g)) as [details|e]; [| reflexivity].
  simpl.
  destruct (Plan.upsert st pr (Plan.marker_html g) (Plan.body g details)) as [[st' out']|e];
    reflexivity.
Qed.

(** The same for the lint script outside delete mode, once the lint output
    is parsed. *)
Lemma lint_main_upserts (g : Lint.globals) (w : Lint.world) (st : forge) (pr : Z)
    (fs : Lint.files) :
  Lint.is_pr_event (Lint.EVENT_NAME g) = true ->
  Lint.get_pr_number g w = Ok (Some pr) ->
  pr <> 0%Z ->
  Lint.parse_tflint_output (Lint.TFLINT_OUTPUT g) = Ok fs ->
  Lint.PR_DELETE_COMMENT g = false ->
  Lint.main g w st = Lint.upsert st pr (Lint.wd_visible g) (Lint.comment_body g fs).
Proof.
  intros Hev Hpr Hnz E Hdel.
  unfold Lint.main. rewrite Hev, Hpr. simpl.
  destruct (Z.eqb_spec pr 0) as [-> | _]; [congruence |]. simpl.
  rewrite E. simpl. now rewrite Hdel.
Qed.

(* ===================================================================== *)
(** * Further properties of the two scripts *)
(* ===================================================================== *)

(** ** Pagination and the plan locator *)

(** The page loop needs one request per full page and one more. *)
Lemma list_pages_requests (st : forge) (pr : Z) :
  forall fuel page acc,
    1 <= page ->
    length (skipn (100 * (page - 1)) (comments_on pr st)) / 100 < fuel ->
    list_pages fuel st pr page acc
    = Ok (acc ++ skipn (100 * (page - 1)) (comments_on pr st)).
Proof.
  induction fuel as [|fuel IH]; intros page acc Hpage Hfuel; [lia |].
  cbn [list_pages]. unfold api_get_comments.
  set (rem := skipn (100 * (page - 1)) (comments_on pr st)) in *.
  remember 100 as n eqn:Hn.
  destruct (firstn n rem) as [|c batch] eqn:Hbatch.
  - rewrite (firstn_nil_inv n rem) by (assumption || lia).
    now rewrite app_nil_r.
  - rewrite <- Hbatch.
    destruct (Nat.ltb_spec (length (firstn n rem)) n) as [Hlt | Hge].
    + now rewrite (firstn_short _ _ Hlt).
    + rewrite IH.
      * replace (n * (page + 1 - 1)) with (n + n * (page - 1)) by lia.
        rewrite <- skipn_skipn. fold rem.
        now rewrite <- app_assoc, firstn_skipn.
      * lia.
      * replace (n * (page + 1 - 1)) with (n + n * (page - 1)) by lia.
        rewrite <- skipn_skipn. fold rem.
        rewrite length_firstn in Hge. rewrite length_skipn.
        assert (Hlen : length rem = (length rem - n) + 1 * n) by lia.
        rewrite Hlen in Hfuel. rewrite Nat.div_add in Hfuel by lia. lia.
Qed.

(** X1. [list_all_comments] returns every comment of the pull request, in
    the order of the forge, however many pages they fill; a request per full
    page and one more are enough. *)
Theorem list_all_comments_returns_every_comment (st : forge) (pr : Z) :
  list_all_comments st pr = Ok (comments_on pr st)
  /\ list_pages (S (length (comments_on pr st) / 100)) st pr 1 [] = Ok (comments_on pr st).
Proof.
  split; [apply list_all_comments_ok |].
  rewrite list_pages_requests; [reflexivity | lia |].
  change (100 * (1 - 1)) with 0. rewrite skipn_O. lia.
Qed.

(** X2. The plan locator never fails against a forge that answers; it
    returns the id of the oldest comment of the pull request whose body
    contains the marker, and [None] exactly when no comment of the pull
    request contains it. *)
Theorem plan_locator_returns_oldest_marked_comment (st : forge) (pr : Z) (marker : string) :
  match Plan.find_existing_comment_id st pr marker with
  | Ok (Some id) =>
      exists before c after,
        comments_on pr st = before ++ c :: after /\
        Forall (fun c' => Py.contains marker (body_of c') = false) before /\
        Py.contains marker (body_of c) = true /\
        c_id c = id
  | Ok None => Forall (fun c => Py.contains marker (body_of c) = false) (comments_on pr st)
  | Raise _ => False
  end.
Proof.
  rewrite plan_find_existing. unfold plan_match.
  pose proof (find_first (fun c => Py.contains marker (body_of c)) (comments_on pr st)) as H.
  destruct (List.find _ (comments_on pr st)) as [c|]; simpl.
  - destruct H as (l1 & l2 & E & Hb & Hc). now exists l1, c, l2.
  - exact H.
Qed.

(** X3. Whenever the plan script's [main] returns normally, it has left
    the comments as they are, or rewritten the body of the oldest comment of
    the resolved pull request that contains the marker, or appended one
    comment with a fresh id when no comment of that pull request contains
    the marker; the new body is the one rendered around the details that
    were read, and ids stay distinct. *)
Theorem plan_main_touches_one_comment
    (g : Plan.globals) (w : Plan.world) (st st' : forge) (out : list string) :
  forge_wf st ->
  Plan.main g w st = Ok (st', out) ->
  forge_wf st' /\
  (st' = st
   \/ (exists l1 c l2 details,
         st = l1 ++ c :: l2 /\
         fst (Plan.get_pr_number g w) = Some (c_pr c) /\
         Plan.read_plan_details w (Plan.footer_md g) = Ok details /\
         Py.contains (Plan.marker_html g) (body_of c) = true /\
         marked_on (plan_match (Plan.marker_html g)) (c_pr c) l1 = [] /\
         st' = l1 ++ Comment (c_id c) (c_pr c) (Some (Plan.body g details)) :: l2)
   \/ (exists pr details,
         fst (Plan.get_pr_number g w) = Some pr /\
         Plan.read_plan_details w (Plan.footer_md g) = Ok details /\
         marked_on (plan_match (Plan.marker_html g)) pr st = [] /\
         st' = st ++ [Comment (next_id st) pr (Some (Plan.body g details))])).
Proof.
  intros Hwf. unfold Plan.main.
  destruct (Plan.is_pr_event (Plan.EVENT_NAME g)); simpl;
    [| intros H; injection H as <- <-; split; [exact Hwf | now left]].
  destruct (Plan.get_pr_number g w) as [prn out0]. simpl.
  destruct prn as [pr|]; simpl;
    [| intros H; injection H as <- <-; split; [exact Hwf | now left]].
  destruct (pr =? 0)%Z; simpl;
    [intros H; injection H as <- <-; split; [exact Hwf | now left] |].
  destruct (Plan.CREATE_COMMENT g && Py.is_empty (Plan.TOKEN g)); simpl;
    [intros H; injection H as <- <-; split; [exact Hwf | now left] |].
  unfold Plan.comment_body.
  destruct (Plan.read_plan_details w (Plan.footer_md g)) as [details|e]; simpl;
    [| discriminate].
  destruct (plan_upsert_state st pr (Plan.marker_html g) (Plan.body g details)) as [out' E].
  rewrite E. simpl. intros H. injection H as <- <-.
  destruct (upsert_state_effect (plan_match (Plan.marker_html g)) pr st
              (Plan.body g details) Hwf)
    as [(l1 & c & l2 & Hst & Hpr & Hm & Hb & ->) | [Hnone ->]].
  - subst st pr. split; [now apply forge_wf_update |].
    right. left. exists l1, c, l2, details. repeat split; auto.
    now apply filter_none.
  - split; [now apply (forge_wf_create (plan_match (Plan.marker_html g))) |].
    right. right. exists pr, details. repeat split; auto. now apply filter_none.
Qed.

Lemma plan_main_touches_one_comment_witness :
  forge_wf Sample.review_forge /\
  exists st' out,
    Plan.main Sample.plan_globals Sample.plan_world Sample.review_forge = Ok (st', out) /\
    forge_wf st' /\
    (st' = Sample.review_forge
     \/ (exists l1 c l2 details,
           Sample.review_forge = l1 ++ c :: l2 /\
           fst (Plan.get_pr_number Sample.plan_globals Sample.plan_world) = Some (c_pr c) /\
           Plan.read_plan_details Sample.plan_world (Plan.footer_md Sample.plan_globals)
           = Ok details /\
           Py.contains (Plan.marker_html Sample.plan_globals) (body_of c) = true /\
           marked_on (plan_match (Plan.marker_html Sample.plan_globals)) (c_pr c) l1 = [] /\
           st' = l1 ++ Comment (c_id c) (c_pr c)
                         (Some (Plan.body Sample.plan_globals details)) :: l2)
     \/ (exists pr details,
           fst (Plan.get_pr_number Sample.plan_globals Sample.plan_world) = Some pr /\
           Plan.read_plan_details Sample.plan_world (Plan.footer_md Sample.plan_globals)
           = Ok details /\
           marked_on (plan_match (Plan.marker_html Sample.plan_globals)) pr Sample.review_forge
           = [] /\
           st' = Sample.review_forge
                 ++ [Comment (next_id Sample.review_forge) pr
                       (Some (Plan.body Sample.plan_globals details))])).
Proof.
  assert (Hwf : forge_wf Sample.review_forge).
  { split; repeat constructor; simpl; tauto. }
  split; [exact Hwf |].
  destruct (Plan.main Sample.plan_globals Sample.plan_world Sample.review_forge)
    as [[st' out]|e] eqn:E; [| vm_compute in E; discriminate].
  exists st', out. split; [reflexivity |].
  exact (plan_main_touches_one_comment Sample.plan_globals Sample.plan_world
           Sample.review_forge st' out Hwf E).
Defined.

(** X4. Whenever the lint script's [main] returns normally, it has left
    the comments as they are, or acted on the oldest comment of the resolved
    pull request that the locator matches (removing it in delete mode,
    rewriting its body otherwise), or, outside delete mode and with no
    match, appended one comment with a fresh id; in the last two cases the
    lint output was parsed, and ids stay distinct. *)
Theorem lint_main_touches_one_comment
    (g : Lint.globals) (w : Lint.world) (st st' : forge) (out : list string) :
  forge_wf st ->
  Lint.main g w st = Ok (st', out) ->
  forge_wf st' /\
  (st' = st
   \/ (exists l1 c l2 fs,
         st = l1 ++ c :: l2 /\
         Lint.get_pr_number g w = Ok (Some (c_pr c)) /\
         Lint.parse_tflint_output (Lint.TFLINT_OUTPUT g) = Ok fs /\
         Lint.locator_match (Lint.wd_visible g) c = true /\
         marked_on (lint_match (Lint.wd_visible g)) (c_pr c) l1 = [] /\
         st' = if Lint.PR_DELETE_COMMENT g then l1 ++ l2
               else l1 ++ Comment (c_id c) (c_pr c) (Some (Lint.comment_body g fs)) :: l2)
   \/ (exists pr fs,
         Lint.get_pr_number g w = Ok (Some pr) /\
         Lint.parse_tflint_output (Lint.TFLINT_OUTPUT g) = Ok fs /\
         Lint.PR_DELETE_COMMENT g = false /\
         marked_on (lint_match (Lint.wd_visible g)) pr st = [] /\
         st' = st ++ [Comment (next_id st) pr (Some (Lint.comment_body g fs))])).
Proof.
  intros Hwf. unfold Lint.main.
  destruct (Lint.is_pr_event (Lint.EVENT_NAME g)); simpl;
    [| intros H; injection H as <- <-; split; [exact Hwf | now left]].
  destruct (Lint.get_pr_number g w) as [prn|e] eqn:Hpr; simpl; [| discriminate].
  destruct prn as [pr|]; simpl;
    [| intros H; injection H as <- <-; split; [exact Hwf | now left]].
  destruct (pr =? 0)%Z; simpl;
    [intros H; injection H as <- <-; split; [exact Hwf | now left] |].
  destruct (Lint.parse_tflint_output (Lint.TFLINT_OUTPUT g)) as [fs|e] eqn:Efs; simpl;
    [| discriminate].
  destruct (Lint.PR_DELETE_COMMENT g) eqn:Hdel.
  - destruct (lint_delete_effect st pr (Lint.wd_visible g) Hwf)
      as [(l1 & c & l2 & Hst & Hc & Hm & Hb & ->) | [Hnone ->]];
      intros H; injection H as <- <-.
    + subst st pr. split; [now apply forge_wf_remove in Hwf |].
      right. left. exists l1, c, l2, fs. repeat split; auto. now apply filter_none.
    + split; [exact Hwf | now left].
  - destruct (lint_upsert_state st pr (Lint.wd_visible g) (Lint.comment_body g fs)) as [out' E].
    rewrite E. intros H. injection H as <- <-.
    destruct (upsert_state_effect (lint_match (Lint.wd_visible g)) pr st
                (Lint.comment_body g fs) Hwf)
      as [(l1 & c & l2 & Hst & Hc & Hm & Hb & ->) | [Hnone ->]].
    + subst st pr. split; [now apply forge_wf_update |].
      right. left. exists l1, c, l2, fs. repeat split; auto. now apply filter_none.
    + split; [now apply (forge_wf_create (lint_match (Lint.wd_visible g))) |].
      right. right. exists pr, fs. repeat split; auto. now apply filter_none.
Qed.

Lemma lint_main_touches_one_comment_witness :
  forge_wf Sample.foreign_forge /\
  exists st' out,
    Lint.main Sample.lint_globals Sample.lint_world Sample.foreign_forge = Ok (st', out) /\
    forge_wf st' /\
    (st' = Sample.foreign_forge
     \/ (exists l1 c l2 fs,
           Sample.foreign_forge = l1 ++ c :: l2 /\
           Lint.get_pr_number Sample.lint_globals Sample.lint_world = Ok (Some (c_pr c)) /\
           Lint.parse_tflint_output (Lint.TFLINT_OUTPUT Sample.lint_globals) = Ok fs /\
           Lint.locator_match (Lint.wd_visible Sample.lint_globals) c = true /\
           marked_on (lint_match (Lint.wd_visible Sample.lint_globals)) (c_pr c) l1 = [] /\
           st' = if Lint.PR_DELETE_COMMENT Sample.lint_globals then l1 ++ l2
                 else l1 ++ Comment (c_id c) (c_pr c)
                               (Some (Lint.comment_body Sample.lint_globals fs)) :: l2)
     \/ (exists pr fs,
           Lint.get_pr_number Sample.lint_globals Sample.lint_world = Ok (Some pr) /\
           Lint.parse_tflint_output (Lint.TFLINT_OUTPUT Sample.lint_globals) = Ok fs /\
           Lint.PR_DELETE_COMMENT Sample.lint_globals = false /\
           marked_on (lint_match (Lint.wd_visible Sample.lint_globals)) pr Sample.foreign_forge
           = [] /\
           st' = Sample.foreign_forge
                 ++ [Comment (next_id Sample.foreign_forge) pr
                       (Some (Lint.comment_body Sample.lint_globals fs))])).
Proof.
  assert (Hwf : forge_wf Sample.foreign_forge).
  { split; repeat constructor; simpl; tauto. }
  split; [exact Hwf |].
  destruct (Lint.main Sample.lint_globals Sample.lint_world Sample.foreign_forge)
    as [[st' out]|e] eqn:E; [| vm_compute in E; discriminate].
  exists st', out. split; [reflexivity |].
  exact (lint_main_touches_one_comment Sample.lint_globals Sample.lint_world
           Sample.foreign_forge st' out Hwf E).
Defined.

(** X5. Delete mode undoes a create: when no comment of the pull request
    matched the locator, the comment the lint coordinator creates is the one
    a following delete run removes, and the forge is back where it was. *)
Theorem lint_delete_undoes_create (st : forge) (pr : Z) (key body : string) :
  forge_wf st ->
  marked_on (lint_match key) pr st = [] ->
  Py.contains (Lint.hidden_token key) body = true ->
  exists st1,
    Lint.upsert st pr key body = Ok (st1, ["::notice::Created TFLint PR comment."]) /\
    st1 = st ++ [Comment (next_id st) pr (Some body)] /\
    Lint.delete_existing st1 pr key
    = Ok (st, ["::notice::Deleted existing TFLint comment."]).
Proof.
  intros Hwf Hnone Hbody.
  apply filter_nil_none in Hnone.
  exists (st ++ [Comment (next_id st) pr (Some body)]). split; [| split; [reflexivity |]].
  - unfold Lint.upsert. rewrite lint_find_existing. simpl.
    fold (locate (lint_match key) st pr). now rewrite (locate_none _ _ st Hnone).
  - set (c := Comment (next_id st) pr (Some body)).
    assert (Hc : pr_match (lint_match key) pr c = true).
    { unfold pr_match, lint_match. change (body_of c) with body. change (c_pr c) with pr.
      now rewrite Z.eqb_refl, Hbody. }
    rewrite lint_delete_state, (locate_first _ _ st [] c Hnone Hc).
    change (c_id c) with (next_id st). simpl.
    pose proof (next_id_positive st) as Hpos.
    destruct (Z.eqb_spec (next_id st) 0) as [E0 | _]; [lia |]. simpl.
    change (next_id st) with (c_id c) at 1.
    rewrite delete_one; [now rewrite app_nil_r |].
    now destruct (forge_wf_create (lint_match key) pr st body Hwf).
Qed.

Lemma lint_delete_undoes_create_witness :
  forge_wf Sample.review_forge /\
  marked_on (lint_match "infra") 5 Sample.review_forge = [] /\
  exists st1,
    Lint.upsert Sample.review_forge 5 "infra" "lint <!-- tflint:infra -->"
    = Ok (st1, ["::notice::Created TFLint PR comment."]) /\
    st1 = Sample.review_forge
          ++ [Comment (next_id Sample.review_forge) 5 (Some "lint <!-- tflint:infra -->")] /\
    Lint.delete_existing st1 5 "infra"
    = Ok (Sample.review_forge, ["::notice::Deleted existing TFLint comment."]).
Proof.
  assert (Hwf : forge_wf Sample.review_forge).
  { split; repeat constructor; simpl; tauto. }
  split; [exact Hwf |]. split; [reflexivity |].
  exact (lint_delete_undoes_create Sample.review_forge 5 "infra" "lint <!-- tflint:infra -->"
           Hwf eq_refl eq_refl).
Defined.

(** ** Resolving the pull request number *)

(** X6. The two scripts agree on a pull-request event: whenever the lint
    script reads a number from the event payload, the plan script, given the
    same event file, returns the same number, prints no warning and does not
    consult the commit's pull requests. *)
Theorem plan_resolves_what_lint_resolves
    (gl : Lint.globals) (wl : Lint.world) (gp : Plan.globals) (wp : Plan.world) (n : Z) :
  Plan.EVENT_PATH gp = Lint.EVENT_PATH gl ->
  Plan.event_is_file wp = Lint.event_is_file wl ->
  Plan.event_load wp = Lint.event_load wl ->
  Lint.get_pr_number gl wl = Ok (Some n) ->
  Plan.get_pr_number gp wp = (Some n, []).
Proof.
  intros Hpath Hfile Hload H.
  unfold Lint.get_pr_number in H. unfold Plan.get_pr_number.
  rewrite Hpath, Hfile, Hload.
  destruct (Py.is_empty (Lint.EVENT_PATH gl)); simpl in *; [discriminate |].
  destruct (Lint.event_is_file wl); simpl in *; [| discriminate].
  destruct (Lint.event_load wl) as [payload|e]; simpl in *; [| discriminate].
  unfold Plan.pr_from_payload.
  destruct (py_in "pull_request" payload) as [[|]|e1]; simpl in *; try discriminate.
  destruct (py_in "number" payload) as [[|]|e2]; simpl in *; try discriminate.
  destruct (py_getitem payload "number") as [v|e3]; simpl in *; try discriminate.
  destruct (py_int v) as [z|e4]; simpl in *; try discriminate.
  now injection H as ->.
Qed.

Lemma plan_resolves_what_lint_resolves_witness :
  Plan.EVENT_PATH Sample.plan_globals = Lint.EVENT_PATH Sample.lint_globals /\
  Plan.event_is_file Sample.plan_world = Lint.event_is_file Sample.lint_world /\
  Plan.event_load Sample.plan_world = Lint.event_load Sample.lint_world /\
  Lint.get_pr_number Sample.lint_globals Sample.lint_world = Ok (Some 5%Z) /\
  Plan.get_pr_number Sample.plan_globals Sample.plan_world = (Some 5%Z, []).
Proof.
  do 4 (split; [reflexivity |]).
  exact (plan_resolves_what_lint_resolves Sample.lint_globals Sample.lint_world
           Sample.plan_globals Sample.plan_world 5 eq_refl eq_refl eq_refl eq_refl).
Defined.

(** ** The order of the parse result *)

Section SortFacts.

Import Lint.

Context {A : Type} (le : A -> A -> bool).

Hypothesis le_total : forall a b, le a b = true \/ le b a = true.
Hypothesis le_trans : forall a b c, le a b = true -> le b c = true -> le a c = true.

Lemma insert_by_Forall (P : A -> Prop) (x : A) (l : list A) :
  P x -> Forall P l -> Forall P (insert_by le x l).
Proof.
  intros Hx Hl. induction Hl as [|y r Hy Hr IH]; simpl.
  - now constructor.
  - destruct (le x y); repeat constructor; assumption.
Qed.

Lemma insert_by_sorted (x : A) (l : list A) :
  StronglySorted (fun a b => le a b = true) l ->
  StronglySorted (fun a b => le a b = true) (insert_by le x l).
Proof.
  induction 1 as [|y r Hs IH Hy]; simpl.
  - repeat constructor.
  - destruct (le x y) eqn:E.
    + constructor; [now constructor |].
      constructor; [exact E |].
      eapply List.Forall_impl; [| exact Hy]. intros z Hz. now apply (le_trans x y z).
    + constructor; [exact IH |].
      apply insert_by_Forall; [| exact Hy].
      destruct (le_total x y) as [H | H]; [congruence | exact H].
Qed.

Lemma sort_by_sorted (l : list A) :
  StronglySorted (fun a b => le a b = true) (sort_by le l).
Proof.
  induction l as [|x l IH]; simpl; [constructor | now apply insert_by_sorted].
Qed.

(** A sorted list is a fixed point of the sort. *)
Lemma sort_by_fixed (l : list A) :
  StronglySorted (fun a b => le a b = true) l -> sort_by le l = l.
Proof.
  induction 1 as [|x l Hs IH Hx]; [reflexivity |].
  simpl. fold (sort_by le l). rewrite IH.
  destruct Hx as [|y r Hy _]; simpl; [reflexivity | now rewrite Hy].
Qed.

End SortFacts.

Lemma key_le_total (a b : Z * Z * Z) : Lint.key_le a b = true \/ Lint.key_le b a = true.
Proof.
  destruct a as [[a1 a2] a3], b as [[b1 b2] b3]. unfold Lint.key_le.
  rewrite !orb_true_iff, !andb_true_iff, !orb_true_iff, !andb_true_iff,
    !Z.ltb_lt, !Z.eqb_eq, !Z.leb_le.
  lia.
Qed.

Lemma key_le_trans (a b c : Z * Z * Z) :
  Lint.key_le a b = true -> Lint.key_le b c = true -> Lint.key_le a c = true.
Proof.
  destruct a as [[a1 a2] a3], b as [[b1 b2] b3], c as [[c1 c2] c3]. unfold Lint.key_le.
  rewrite !orb_true_iff, !andb_true_iff, !orb_true_iff, !andb_true_iff,
    !Z.ltb_lt, !Z.eqb_eq, !Z.leb_le.
  lia.
Qed.

Lemma ascii_compare_refl (a : ascii) : Ascii.compare a a = Eq.
Proof. unfold Ascii.compare. apply N.compare_refl. Qed.

Lemma ascii_compare_lt_trans (a b c : ascii) :
  Ascii.compare a b = Lt -> Ascii.compare b c = Lt -> Ascii.compare a c = Lt.
Proof.
  unfold Ascii.compare. rewrite !N.compare_lt_iff. apply N.lt_trans.
Qed.

Lemma string_leb_trans (a b c : string) :
  String.leb a b = true -> String.leb b c = true -> String.leb a c = true.
Proof.
  unfold String.leb. revert b c.
  induction a as [|x a IH]; intros [|y b] [|z c]; simpl; try congruence.
  destruct (Ascii.compare x y) eqn:E1, (Ascii.compare y z) eqn:E2; try congruence.
  - apply Ascii.compare_eq_iff in E1, E2. subst. rewrite ascii_compare_refl. apply IH.
  - apply Ascii.compare_eq_iff in E1. subst. now rewrite E2.
  - apply Ascii.compare_eq_iff in E2. subst. now rewrite E1.
  - now rewrite (ascii_compare_lt_trans x y z E1 E2).
Qed.

Lemma sort_issues_fixed (fs : Lint.files) :
  Forall (fun kv => StronglySorted (fun a b => Lint.issue_le a b = true) (snd kv)) fs ->
  Lint.sort_issues fs = fs.
Proof.
  unfold Lint.sort_issues. induction 1 as [|[k v] fs H _ IH]; simpl; [reflexivity |].
  rewrite IH. simpl in H. rewrite sort_by_fixed; [reflexivity | exact H].
Qed.

(** X7. Every result of the parser is in order: the files by their
    lower-cased names, and the issues of each file by descending severity
    weight, then line, then column.  Sorting the result again leaves it as
    it is. *)
Theorem parse_tflint_output_is_sorted (text : string) (fs : Lint.files) :
  Lint.parse_tflint_output text = Ok fs ->
  StronglySorted
    (fun a b => (Py.lower (fst a) <=? Py.lower (fst b))%string = true) fs /\
  Forall
    (fun kv =>
       StronglySorted
         (fun a b => Lint.key_le (Lint.issue_key a) (Lint.issue_key b) = true) (snd kv))
    fs /\
  Lint.sort_by Lint.file_le (Lint.sort_issues fs) = fs.
Proof.
  intros E. apply parse_tflint_output_inv in E as (fs0 & _ & ->).
  assert (Hfiles : StronglySorted (fun a b => Lint.file_le a b = true)
                     (Lint.sort_by Lint.file_le (Lint.sort_issues fs0))).
  { apply sort_by_sorted.
    - intros a b. apply String.leb_total.
    - intros a b c. apply string_leb_trans. }
  assert (Hissues : Forall (fun kv => StronglySorted (fun a b => Lint.issue_le a b = true)
                                        (snd kv))
                      (Lint.sort_by Lint.file_le (Lint.sort_issues fs0))).
  { eapply Permutation_Forall; [symmetry; apply sort_by_perm |].
    unfold Lint.sort_issues. apply List.Forall_forall. intros kv Hin.
    apply in_map_iff in Hin as (kv0 & <- & _). simpl.
    apply sort_by_sorted.
    - intros a b. apply key_le_total.
    - intros a b c. apply key_le_trans. }
  split; [exact Hfiles |]. split; [exact Hissues |].
  rewrite (sort_issues_fixed _ Hissues).
  apply sort_by_fixed. exact Hfiles.
Qed.

Lemma parse_tflint_output_is_sorted_witness :
  exists fs,
    Lint.parse_tflint_output
      ("b.tf:2:1: Warning - w" +:+ Py.nl +:+ "A.tf:9:1: Notice - n" +:+ Py.nl
       +:+ "A.tf:3:1: Error - e") = Ok fs /\
    fs = [("A.tf", [Lint.Issue 3 1 "error" "" "e"; Lint.Issue 9 1 "notice" "" "n"]);
          ("b.tf", [Lint.Issue 2 1 "warning" "" "w"])] /\
    StronglySorted
      (fun a b => (Py.lower (fst a) <=? Py.lower (fst b))%string = true) fs /\
    Lint.sort_by Lint.file_le (Lint.sort_issues fs) = fs.
Proof.
  eexists. split; [vm_compute; reflexivity |]. split; [reflexivity |].
  pose proof (parse_tflint_output_is_sorted
                ("b.tf:2:1: Warning - w" +:+ Py.nl +:+ "A.tf:9:1: Notice - n" +:+ Py.nl
                 +:+ "A.tf:3:1: Error - e") _ eq_refl) as (H1 & _ & H3).
  split; [exact H1 | exact H3].
Defined.

(** ** The shape of the parse result *)

Section ParseShape.

Import Py Lint LintSpec.

Lemma run_value_nonneg (s : string) :
  forall acc, (0 <= acc)%Z -> (0 <= run_value acc s)%Z.
Proof.
  induction s as [|c s IH]; intros acc Hacc; simpl; [exact Hacc |].
  destruct (isdigit c); apply IH; [unfold digit_val; lia | exact Hacc].
Qed.

(** A run of digits converts to a number that is not negative. *)
Lemma int_of_str_digits_nonneg (s : string) (z : Z) :
  forall_str isdigit s = true -> int_of_str s = Ok z -> (0 <= z)%Z.
Proof.
  intros Hd. destruct (is_empty s) eqn:He.
  - destruct s; [| discriminate]. vm_compute. discriminate.
  - rewrite (int_of_str_digits s Hd He).
    destruct (int_max_str_digits <? String.length s); [discriminate |].
    intros H. injection H as <-. now apply run_value_nonneg.
Qed.

Lemma lower_char_islower (c : ascii) : isalpha c = true -> islower (lower_char c) = true.
Proof.
  destruct c as [[] [] [] [] [] [] [] []]; intros H; vm_compute in H |- *;
    solve [reflexivity | discriminate].
Qed.

Lemma lower_islower (s : string) :
  forall_str isalpha s = true -> forall_str islower (lower s) = true.
Proof.
  unfold lower. induction s as [|c s IH]; simpl; [reflexivity |].
  intros H. apply andb_true_iff in H as [Hc Hs].
  now rewrite (lower_char_islower c Hc), (IH Hs).
Qed.

(** What every parsed issue satisfies. *)
Lemma line_entry_shape (raw file : string) (it : issue) :
  line_entry raw = Some (file, it) ->
  strip file = file /\
  (0 <= line it)%Z /\ (0 <= col it)%Z /\
  is_empty (level it) = false /\ forall_str islower (level it) = true /\
  strip (rule it) = rule it /\ strip (msg it) = msg it.
Proof.
  unfold line_entry.
  destruct (is_empty (strip raw) || is_summary_line raw); [discriminate |].
  destruct (LINE_RE_match raw) as [d|] eqn:Hm; [| discriminate].
  destruct (LINE_RE_match_digits raw d Hm) as (Hl & _ & Hc & _ & Ha & Hne).
  unfold issue_of_groups.
  destruct (int_of_str (g_line d)) as [ln|] eqn:El; simpl; [| discriminate].
  destruct (int_of_str (g_col d)) as [cl|] eqn:Ec; simpl; [| discriminate].
  intros H. injection H as <- <-. simpl.
  repeat split.
  - apply strip_idem.
  - exact (int_of_str_digits_nonneg _ _ Hl El).
  - exact (int_of_str_digits_nonneg _ _ Hc Ec).
  - destruct (g_level d); [discriminate | reflexivity].
  - now apply lower_islower.
  - apply strip_idem.
  - apply strip_idem.
Qed.

Lemma kept_entries_Forall (P : string * issue -> Prop) (lines : list string) :
  (forall raw p, line_entry raw = Some p -> P p) -> Forall P (kept_entries lines).
Proof.
  intros H. unfold kept_entries. induction lines as [|raw rest IH]; simpl; [constructor |].
  apply List.Forall_app. split; [| exact IH].
  destruct (line_entry raw) as [p|] eqn:E; [| constructor].
  constructor; [now apply (H raw) | constructor].
Qed.

Lemma entries_in (fs : files) (kv : string * list issue) (it : issue) :
  In kv fs -> In it (snd kv) -> In (fst kv, it) (entries fs).
Proof.
  intros Hkv Hit. unfold entries. apply in_flat_map. exists kv. split; [exact Hkv |].
  now apply in_map.
Qed.

(** [setdefault] keeps the keys distinct and no list empty. *)
Lemma setdefault_append_keys (file : string) (it : issue) (fs : files) :
  List.NoDup (map fst fs) ->
  List.NoDup (map fst (setdefault_append file it fs)) /\
  (forall k, In k (map fst (setdefault_append file it fs)) -> k = file \/ In k (map fst fs)).
Proof.
  induction fs as [|[k v] fs IH]; simpl; intros Hnd.
  - split; [repeat constructor; simpl; tauto | intros k [<- | []]; now left].
  - destruct (String.eqb_spec k file) as [-> | Hne]; simpl.
    + split; [exact Hnd | intros k' H; now right].
    + inversion Hnd as [|? ? Hk Hnd']; subst.
      destruct (IH Hnd') as [IH1 IH2]. split.
      * constructor; [| exact IH1]. intros Hin.
        destruct (IH2 _ Hin) as [E | Hin']; [congruence | contradiction].
      * intros k' [<- | Hin]; [right; now left |].
        destruct (IH2 _ Hin) as [E | Hin']; [now left | right; now right].
Qed.

Lemma setdefault_append_nonempty (file : string) (it : issue) (fs : files) :
  Forall (fun kv => snd kv <> []) fs ->
  Forall (fun kv => snd kv <> []) (setdefault_append file it fs).
Proof.
  induction 1 as [|[k v] fs Hkv Hfs IH]; simpl.
  - repeat constructor. simpl. discriminate.
  - destruct (k =? file)%string; constructor; auto.
    simpl. destruct v; discriminate.
Qed.

Lemma parse_lines_keys (lines : list string) :
  forall fs fs',
    parse_lines lines fs = Ok fs' ->
    List.NoDup (map fst fs) -> Forall (fun kv => snd kv <> []) fs ->
    List.NoDup (map fst fs') /\ Forall (fun kv => snd kv <> []) fs'.
Proof.
  induction lines as [|raw rest IH]; intros fs fs' H Hnd Hne; cbn [parse_lines] in H.
  - injection H as <-. now split.
  - destruct (parse_line raw fs) as [fs1|e] eqn:E1; [| discriminate].
    apply parse_line_inv in E1 as [_ ->]. cbn [mbind result_bind bind] in H.
    apply IH in H; [exact H | |]; destruct (line_entry raw) as [[file it]|]; auto.
    + now apply setdefault_append_keys.
    + now apply setdefault_append_nonempty.
Qed.

Lemma sort_issues_keys (fs : files) : map fst (sort_issues fs) = map fst fs.
Proof. unfold sort_issues. rewrite map_map. reflexivity. Qed.

Lemma sort_by_nonempty {A : Type} (le : A -> A -> bool) (l : list A) :
  l <> [] -> sort_by le l <> [].
Proof.
  intros Hl E. apply Hl.
  pose proof (Permutation_length (sort_by_perm le l)) as Hlen.
  rewrite E in Hlen. destruct l; [reflexivity | discriminate].
Qed.

End ParseShape.

(** Every entry of a parse result has the shape of a matched line. *)
Lemma parse_entries_shape (text : string) (fs : Lint.files) :
  Lint.parse_tflint_output text = Ok fs ->
  Forall (fun p : string * Lint.issue =>
            Py.strip (fst p) = fst p /\
            (0 <= Lint.line (snd p))%Z /\ (0 <= Lint.col (snd p))%Z /\
            Py.is_empty (Lint.level (snd p)) = false /\
            Py.forall_str Py.islower (Lint.level (snd p)) = true /\
            Py.strip (Lint.rule (snd p)) = Lint.rule (snd p) /\
            Py.strip (Lint.msg (snd p)) = Lint.msg (snd p))
    (LintSpec.entries fs).
Proof.
  intros E. pose proof (parse_tflint_output_entries text fs E) as Hperm.
  eapply Permutation_Forall; [symmetry; exact Hperm |].
  apply kept_entries_Forall. intros raw [file it] Hraw. simpl.
  exact (line_entry_shape raw file it Hraw).
Qed.

(** X8. What every parse result looks like: no two blocks for the same
    file, no file without issues, file names, rules and messages without
    surrounding whitespace, line and column numbers that are not negative,
    and a level made of lower-case letters. *)
Theorem parse_tflint_output_shape (text : string) (fs : Lint.files) :
  Lint.parse_tflint_output text = Ok fs ->
  List.NoDup (map fst fs) /\
  Forall
    (fun kv =>
       Py.strip (fst kv) = fst kv /\
       snd kv <> [] /\
       Forall
         (fun it =>
            (0 <= Lint.line it)%Z /\ (0 <= Lint.col it)%Z /\
            Py.is_empty (Lint.level it) = false /\
            Py.forall_str Py.islower (Lint.level it) = true /\
            Py.strip (Lint.rule it) = Lint.rule it /\
            Py.strip (Lint.msg it) = Lint.msg it)
         (snd kv))
    fs.
Proof.
  intros E. pose proof (parse_entries_shape text fs E) as Hent.
  rewrite List.Forall_forall in Hent.
  unfold Lint.parse_tflint_output in E.
  destruct (Lint.parse_lines (Py.splitlines text) []) as [fs0|e] eqn:E0; simpl in E;
    [| discriminate].
  injection E as <-.
  destruct (parse_lines_keys _ _ _ E0 (List.NoDup_nil _) (List.Forall_nil _)) as [Hnd Hne].
  assert (Hp : Permutation (Lint.sort_by Lint.file_le (Lint.sort_issues fs0))
                 (Lint.sort_issues fs0)) by apply sort_by_perm.
  split.
  - eapply Permutation_NoDup; [symmetry; apply Permutation_map, Hp |].
    now rewrite sort_issues_keys.
  - apply List.Forall_forall. intros kv Hkv.
    assert (Hkv0 : In kv (Lint.sort_issues fs0)) by (eapply Permutation_in; eauto).
    split; [| split].
    + unfold Lint.sort_issues in Hkv0. apply in_map_iff in Hkv0 as (kv0 & <- & Hin0). simpl.
      rewrite List.Forall_forall in Hne. pose proof (Hne kv0 Hin0) as Hne0.
      destruct (snd kv0) as [|it0 r] eqn:Es; [congruence |].
      assert (Hit : In it0 (Lint.sort_by Lint.issue_le (snd kv0))).
      { eapply Permutation_in; [symmetry; apply sort_by_perm |]. rewrite Es. now left. }
      assert (Hin : In (fst kv0, it0) (LintSpec.entries (Lint.sort_by Lint.file_le (Lint.sort_issues fs0)))).
      { apply (entries_in _ (fst kv0, Lint.sort_by Lint.issue_le (snd kv0))); [| exact Hit].
        eapply Permutation_in; [symmetry; exact Hp |].
        unfold Lint.sort_issues. apply in_map_iff. exists kv0. now split. }
      exact (proj1 (Hent _ Hin)).
    + unfold Lint.sort_issues in Hkv0. apply in_map_iff in Hkv0 as (kv0 & <- & Hin0). simpl.
      apply sort_by_nonempty. rewrite List.Forall_forall in Hne. now apply Hne.
    + apply List.Forall_forall. intros it Hit.
      exact (proj2 (Hent _ (entries_in _ kv it Hkv Hit))).
Qed.

Lemma parse_tflint_output_shape_witness :
  exists fs,
    Lint.parse_tflint_output
      (" a.tf :1:2: Error - x  (r1) " +:+ Py.nl +:+ "a.tf:3:4: NOTICE - y") = Ok fs /\
    fs = [("a.tf", [Lint.Issue 1 2 "error" "r1" "x"; Lint.Issue 3 4 "notice" "" "y"])] /\
    List.NoDup (map fst fs).
Proof.
  eexists. split; [vm_compute; reflexivity |]. split; [reflexivity |].
  exact (proj1 (parse_tflint_output_shape
                  (" a.tf :1:2: Error - x  (r1) " +:+ Py.nl +:+ "a.tf:3:4: NOTICE - y")
                  _ eq_refl)).
Defined.

(** ** Which rows the details table shows *)

Section Rows.

Import Lint LintSpec.

Lemma rows_loop_rows (file_path : string) :
  forall issues rc ps rc' tr,
    rows_loop file_path issues rc = (ps, rc', tr) ->
    List.filter is_row ps = map (PRow file_path) (firstn (MAX_ROWS - rc) issues).
Proof.
  induction issues as [|it rest IH]; intros rc ps rc' tr E; cbn [rows_loop] in E.
  - injection E as <- <- <-. now rewrite firstn_nil.
  - destruct (Nat.leb_spec MAX_ROWS rc) as [Hcap | Hroom].
    + injection E as <- <- <-.
      replace (MAX_ROWS - rc) with 0 by lia. reflexivity.
    + destruct (rows_loop file_path rest (rc + 1)) as [[ps1 rc1] tr1] eqn:E1.
      injection E as <- <- <-.
      replace (MAX_ROWS - rc) with (S (MAX_ROWS - (rc + 1))) by lia.
      simpl. f_equal. exact (IH _ _ _ _ E1).
Qed.

Lemma files_loop_rows :
  forall fs rc ps tr,
    files_loop fs rc = (ps, tr) ->
    rc <= MAX_ROWS ->
    List.filter is_row ps
    = firstn (MAX_ROWS - rc) (map (fun p => PRow (fst p) (snd p)) (entries fs)).
Proof.
  induction fs as [|[file_path issues] rest IH]; intros rc ps tr E Hrc; cbn [files_loop] in E.
  - injection E as <- <-. now rewrite firstn_nil.
  - rewrite entries_cons, map_app, map_map. simpl fst. simpl snd.
    change (map (fun x : issue => PRow (file_path, x).1 (file_path, x).2) issues)
      with (map (PRow file_path) issues).
    rewrite firstn_app, length_map.
    destruct (rows_loop file_path issues rc) as [[rws rc1] tr1] eqn:E1.
    pose proof (rows_loop_rows _ _ _ _ _ _ E1) as Hrows. rewrite <- firstn_map in Hrows.
    destruct (rows_loop_spec _ _ _ _ _ _ E1 Hrc) as (_ & _ & Hrc1 & Htr1).
    destruct tr1.
    + injection E as <- <-.
      symmetry in Htr1. apply Nat.ltb_lt in Htr1.
      replace (MAX_ROWS - rc - length issues) with 0 by lia.
      rewrite firstn_0, app_nil_r.
      cbn [app List.filter is_row]. rewrite List.filter_app, Hrows.
      cbn [app List.filter is_row]. now rewrite app_nil_r.
    + symmetry in Htr1. apply Nat.ltb_ge in Htr1.
      destruct (files_loop rest rc1) as [ps1 tr2] eqn:E2.
      injection E as <- <-.
      cbn [app List.filter is_row]. rewrite !List.filter_app, Hrows, (IH _ _ _ E2 ltac:(lia)).
      cbn [app List.filter is_row]. rewrite app_nil_r. f_equal. f_equal. lia.
Qed.

(** The data rows of the table are the first rows of the parse result. *)
Lemma details_rows_first (fs : files) (workflow_url : string) :
  List.filter is_row (details_parts fs workflow_url)
  = firstn MAX_ROWS (map (fun p => PRow (fst p) (snd p)) (entries fs)).
Proof.
  unfold details_parts. destruct fs as [|kv fs']; [reflexivity |].
  destruct (files_loop (kv :: fs') 0) as [ps tr] eqn:E.
  pose proof (files_loop_rows _ _ _ _ E ltac:(lia)) as H.
  rewrite Nat.sub_0_r in H. rewrite <- H.
  destruct tr; rewrite !List.filter_app; simpl; now rewrite !app_nil_r.
Qed.

(** Every data row of the table shows an issue of the parse result under
    its file. *)
Lemma details_row_in_entries (fs : files) (workflow_url file_path : string) (it : issue) :
  In (PRow file_path it) (details_parts fs workflow_url) -> In (file_path, it) (entries fs).
Proof.
  intros Hin.
  assert (Hrow : In (PRow file_path it)
                   (List.filter is_row (details_parts fs workflow_url)))
    by (apply filter_In; now split).
  rewrite details_rows_first in Hrow.
  assert (Hall : In (PRow file_path it)
                   (map (fun p => PRow (fst p) (snd p)) (entries fs))).
  { rewrite <- (firstn_skipn MAX_ROWS). apply in_or_app. now left. }
  apply in_map_iff in Hall as ([f i] & E & Hall). cbn [fst snd] in E.
  now injection E as <- <-.
Qed.

End Rows.

(** X9. The details table shows the first 500 issues of the parse result,
    in its order and each under its own file; the truncation notice is
    there exactly when more than 500 issues were parsed. *)
Theorem details_rows_are_first_max_rows (fs : Lint.files) (workflow_url : string) :
  List.filter LintSpec.is_row (Lint.details_parts fs workflow_url)
  = firstn Lint.MAX_ROWS (map (fun p => Lint.PRow (fst p) (snd p)) (LintSpec.entries fs))
  /\ LintSpec.rows (Lint.details_parts fs workflow_url)
     = Nat.min (LintSpec.total_issues fs) Lint.MAX_ROWS
  /\ LintSpec.notices (Lint.details_parts fs workflow_url)
     = (if Lint.MAX_ROWS <? LintSpec.total_issues fs then 1 else 0).
Proof.
  split.
  - apply details_rows_first.
  - destruct (Nat.ltb_spec Lint.MAX_ROWS (LintSpec.total_issues fs)) as [Hbig | Hsmall].
    + destruct (details_rows_capped fs workflow_url Hbig) as [-> ->]. split; lia.
    + destruct (details_rows_complete fs workflow_url Hsmall) as [-> ->]. split; lia.
Qed.

(** ** Balance of the details table *)

Section Flow.

Import Py Html HtmlFlow.

Lemma lex_run_spec (s : string) :
  forall st rest,
    lex st (s +:+ rest) = snd (lex_run st s) ++ lex (fst (lex_run st s)) rest.
Proof.
  induction s as [|c s IH]; intros st rest; [reflexivity |].
  cbn [String.append lex_run].
  destruct (lex_step st c) as [st1 t1] eqn:E1.
  destruct (lex_run st1 s) as [st2 t2] eqn:E2.
  cbn [fst snd]. rewrite <- app_assoc.
  specialize (IH st1 rest). rewrite E2 in IH. cbn [fst snd] in IH. rewrite <- IH.
  unfold lex_step in E1.
  destruct st; cbn [lex];
    repeat match type of E1 with
           | (if ?b then _ else _) = _ => destruct b
           end;
    injection E1 as <- <-; reflexivity.
Qed.

Lemma lex_run_app (a b : string) :
  forall st,
    lex_run st (a +:+ b)
    = (fst (lex_run (fst (lex_run st a)) b),
       snd (lex_run st a) ++ snd (lex_run (fst (lex_run st a)) b)).
Proof.
  induction a as [|c a IH]; intros st; cbn [String.append lex_run fst snd].
  - now destruct (lex_run st b).
  - destruct (lex_step st c) as [st1 t1]. rewrite IH.
    destruct (lex_run st1 a) as [st2 t2]. cbn [fst snd].
    now rewrite app_assoc.
Qed.

Lemma reads_app (st st1 st2 : lex_state) (a b : string) (ba bb : list tag) :
  reads st a st1 ba -> reads st1 b st2 bb -> reads st (a +:+ b) st2 (ba ++ bb).
Proof.
  unfold reads. intros [Ha1 Ha2] [Hb1 Hb2]. rewrite lex_run_app. cbn [fst snd].
  rewrite Ha1, List.filter_app, Ha2, Hb1, Hb2. now split.
Qed.

Lemma inert_app (a b : string) : inert a -> inert b -> inert (a +:+ b).
Proof. intros Ha Hb. exact (reads_app _ _ _ _ _ _ _ Ha Hb). Qed.

Lemma reads_inert_l (a b : string) (bs : list tag) :
  inert a -> reads InText b InText bs -> reads InText (a +:+ b) InText bs.
Proof. intros Ha Hb. exact (reads_app _ _ _ _ _ _ _ Ha Hb). Qed.

Lemma reads_inert_r (a b : string) (bs : list tag) :
  reads InText a InText bs -> inert b -> reads InText (a +:+ b) InText bs.
Proof.
  intros Ha Hb. pose proof (reads_app _ _ _ _ _ _ _ Ha Hb) as H.
  now rewrite app_nil_r in H.
Qed.

(** Text without [<] opens no tag. *)
Lemma inert_text (t : string) : tag_free t = true -> inert t.
Proof.
  unfold tag_free, inert, reads. induction t as [|c t IH]; [now split |].
  cbn [forall_str lex_run lex_step]. intros H. apply andb_true_iff in H as [Hc Ht].
  apply negb_true_iff in Hc. rewrite Hc.
  destruct (IH Ht) as [E1 E2]. destruct (lex_run InText t) as [st2 t2].
  cbn [fst snd] in *. now split.
Qed.

(** Inside an apostrophe-quoted attribute value, text without an apostrophe
    stays inside. *)
Lemma reads_quoted (v : string) :
  quote_free v = true -> reads (InQuote "'") v (InQuote "'") [].
Proof.
  unfold quote_free, reads. induction v as [|c v IH]; [now split |].
  cbn [forall_str lex_run lex_step]. intros H. apply andb_true_iff in H as [Hc Hv].
  apply negb_true_iff in Hc. rewrite Hc.
  destruct (IH Hv) as [E1 E2]. destruct (lex_run (InQuote "'") v) as [st2 t2].
  cbn [fst snd] in *. now split.
Qed.

Lemma tag_free_str_of_Z (z : Z) : tag_free (str_of_Z z) = true.
Proof.
  apply forall_str_str_of_Z; [| reflexivity].
  intros c Hc. apply negb_true_iff, Ascii.eqb_neq. intros ->. discriminate.
Qed.

Lemma quote_free_str_of_Z (z : Z) : quote_free (str_of_Z z) = true.
Proof.
  apply forall_str_str_of_Z; [| reflexivity].
  intros c Hc. apply negb_true_iff, Ascii.eqb_neq. intros ->. discriminate.
Qed.

Lemma tag_free_app (a b : string) : tag_free (a +:+ b) = tag_free a && tag_free b.
Proof. apply forall_str_app. Qed.

Lemma quote_free_app (a b : string) : quote_free (a +:+ b) = quote_free a && quote_free b.
Proof. apply forall_str_app. Qed.

(** [html.escape] leaves no [<] behind. *)
Lemma tag_free_escape (s : string) : tag_free (escape s) = true.
Proof.
  induction s as [|c s IH]; [reflexivity |].
  cbn [escape]. rewrite tag_free_app, IH, andb_true_r. unfold escape_char.
  destruct (c =? "&")%char; [reflexivity |].
  destruct (c =? "<")%char eqn:E; [reflexivity |].
  destruct (c =? ">")%char; [reflexivity |].
  destruct (c =? "034")%char; [reflexivity |].
  destruct (c =? "'")%char; [reflexivity |].
  unfold tag_free. cbn [forall_str]. now rewrite E.
Qed.

Lemma tag_free_emoji (lvl : string) :
  tag_free (default "ℹ️" (Lint.SEV_EMOJI !! lvl)) = true.
Proof.
  unfold Lint.SEV_EMOJI. cbn [list_to_map foldr uncurry fst snd].
  repeat match goal with
         | |- context [<[?k := ?v]> ?m !! lvl] =>
             destruct (decide (k = lvl)) as [<- | Hne];
             [rewrite lookup_insert_eq; reflexivity | rewrite (lookup_insert_ne m k lvl v Hne)];
             clear Hne
         end.
  rewrite lookup_empty. reflexivity.
Qed.

End Flow.

Section DetailsBalance.

Import Py Html HtmlFlow Lint LintSpec.

(** Closed pieces are read by evaluation. *)
Ltac lit := split; reflexivity.

Variable g : globals.

Lemma inert_line_cell (file_path : string) (it : issue) :
  href_safe g file_path = true -> inert (line_cell g file_path it).
Proof.
  unfold href_safe, line_cell. intros H.
  destruct (is_empty (GITHUB_SHA g)); cbn [negb].
  - apply inert_text, tag_free_str_of_Z.
  - cbn [orb] in H. apply andb_true_iff in H as [H Hf].
    apply andb_true_iff in H as [H Hs]. apply andb_true_iff in H as [Ho Hr].
    cbv zeta.
    refine (reads_app _ (InQuote "'") _ _ _ [] [] _ _); [lit |].
    refine (reads_app _ (InQuote "'") _ _ _ [] [] _ _).
    + apply reads_quoted.
      rewrite !quote_free_app, Ho, Hr, Hs, Hf, quote_free_str_of_Z. reflexivity.
    + refine (reads_app _ InText _ _ _ [] [] _ _); [lit |].
      apply inert_app; [apply inert_text, tag_free_str_of_Z | lit].
Qed.

Lemma reads_row (file_path : string) (it : issue) :
  href_safe g file_path = true ->
  reads InText (row_html g file_path it) InText [TOpen "tr"; TClose "tr"].
Proof.
  intros H. unfold row_html. cbv zeta.
  refine (reads_app _ InText _ _ _ [TOpen "tr"] [TClose "tr"] _ _); [lit |].
  apply reads_inert_l; [lit |].
  apply reads_inert_l; [now apply inert_line_cell |].
  apply reads_inert_l; [lit |].
  apply reads_inert_l; [lit |].
  apply reads_inert_l; [apply inert_text, tag_free_str_of_Z |].
  apply reads_inert_l; [lit |].
  apply reads_inert_l; [lit |].
  apply reads_inert_l; [apply inert_text, tag_free_emoji |].
  apply reads_inert_l; [lit |].
  apply reads_inert_l; [apply inert_text, tag_free_escape |].
  apply reads_inert_l; [lit |].
  apply reads_inert_l; [lit |].
  apply reads_inert_l;
    [destruct (negb (is_empty (rule it))); [apply inert_text, tag_free_escape | lit] |].
  apply reads_inert_l; [lit |].
  apply reads_inert_l; [lit |].
  apply reads_inert_l; [apply inert_text, tag_free_escape |].
  apply reads_inert_l; [lit |].
  lit.
Qed.

Lemma reads_file_open (file_path : string) (n : nat) :
  reads InText (render_part g (PFileOpen file_path n)) InText [TOpen "details"].
Proof.
  cbn [render_part].
  apply reads_inert_l; [lit |].
  apply reads_inert_r; [lit |].
  apply inert_app; [apply inert_text, tag_free_escape |].
  apply inert_app; [lit |].
  apply inert_app; [apply inert_text, tag_free_str_of_Z |].
  apply inert_app; lit.
Qed.

Lemma reads_truncated (workflow_url : string) :
  tag_free workflow_url = true ->
  inert (render_part g (PTruncated workflow_url)).
Proof.
  intros H. cbn [render_part].
  apply inert_app; [lit |].
  apply inert_app; [apply inert_text, tag_free_str_of_Z |].
  apply inert_app; [lit |].
  apply inert_app; [now apply inert_text | lit].
Qed.

(** A part whose rendering starts and ends outside any tag and holds the
    block tags [part_blocks] lists. *)
Abbreviation good := (fun p => reads InText (render_part g p) InText (part_blocks p)).

Lemma rows_loop_good (file_path : string) :
  href_safe g file_path = true ->
  forall issues rc ps rc' tr,
    rows_loop file_path issues rc = (ps, rc', tr) ->
    Forall good ps /\ Forall (fun p => is_row p = true) ps.
Proof.
  intros H.
  induction issues as [|it rest IH]; intros rc ps rc' tr E; cbn [rows_loop] in E.
  - injection E as <- <- <-. split; constructor.
  - destruct (MAX_ROWS <=? rc).
    + injection E as <- <- <-. split; constructor.
    + destruct (rows_loop file_path rest (rc + 1)) as [[ps1 rc1] tr1] eqn:E1.
      injection E as <- <- <-.
      destruct (IH _ _ _ _ E1) as [H1 H2].
      split; constructor; auto. now apply reads_row.
Qed.

Lemma files_loop_good :
  forall fs rc ps tr,
    forallb (fun kv => href_safe g (fst kv)) fs = true ->
    files_loop fs rc = (ps, tr) ->
    Forall good ps.
Proof.
  induction fs as [|[file_path issues] rest IH]; intros rc ps tr Hs E; cbn [files_loop] in E.
  - injection E as <- <-. constructor.
  - cbn [forallb fst] in Hs. apply andb_true_iff in Hs as [Hf Hs].
    destruct (rows_loop file_path issues rc) as [[rws rc1] tr1] eqn:E1.
    destruct (rows_loop_good file_path Hf _ _ _ _ _ E1) as [Hrows _].
    set (block := [PFileOpen file_path (length issues); PTableOpen] ++ rws ++ [PFileClose])
      in *.
    assert (Hblock : Forall good block).
    { unfold block. apply List.Forall_app. split.
      - constructor; [apply reads_file_open |]. constructor; [lit | constructor].
      - apply List.Forall_app. split; [exact Hrows |]. constructor; [lit | constructor]. }
    destruct tr1.
    + injection E as <- <-. exact Hblock.
    + destruct (files_loop rest rc1) as [ps1 tr2] eqn:E2.
      injection E as <- <-.
      change (PFileOpen file_path (length issues) :: PTableOpen :: (rws ++ [PFileClose]) ++ ps1)
        with (block ++ ps1).
      apply List.Forall_app. split; [exact Hblock | exact (IH _ _ _ Hs E2)].
Qed.

(** Joined by line feeds, good parts make a good document. *)
Lemma join_good (ps : list part) :
  Forall good ps ->
  reads InText (join nl (map (render_part g) ps)) InText (flat_map part_blocks ps).
Proof.
  induction 1 as [|p ps Hp Hps IH]; [lit |].
  destruct ps as [|q ps].
  - cbn [map join String.concat flat_map]. now rewrite app_nil_r.
  - change (join nl (map (render_part g) (p :: q :: ps)))
      with (render_part g p +:+ nl +:+ join nl (map (render_part g) (q :: ps))).
    change (flat_map part_blocks (p :: q :: ps))
      with (part_blocks p ++ flat_map part_blocks (q :: ps)).
    refine (reads_app _ InText _ _ _ _ _ Hp _).
    apply reads_inert_l; [lit | exact IH].
Qed.

Lemma nested_rows (ps : list part) :
  Forall (fun p => is_row p = true) ps ->
  forall stack rest,
    nested stack (flat_map part_blocks ps ++ rest) = nested stack rest.
Proof.
  induction 1 as [|p ps Hp _ IH]; intros stack rest; [reflexivity |].
  destruct p; try discriminate. cbn [flat_map part_blocks app nested].
  rewrite String.eqb_refl. apply IH.
Qed.

Lemma nested_files :
  forall fs rc ps tr,
    files_loop fs rc = (ps, tr) ->
    forall stack rest,
      nested stack (flat_map part_blocks ps ++ rest) = nested stack rest.
Proof.
  induction fs as [|[file_path issues] rest0 IH]; intros rc ps tr E stack rest;
    cbn [files_loop] in E.
  - injection E as <- <-. reflexivity.
  - destruct (rows_loop file_path issues rc) as [[rws rc1] tr1] eqn:E1.
    assert (Hrows : Forall (fun p => is_row p = true) rws).
    { clear -E1. revert rc rws rc1 tr1 E1.
      induction issues as [|it r IHr]; intros rc rws rc1 tr1 E1; cbn [rows_loop] in E1.
      - injection E1 as <- <- <-. constructor.
      - destruct (MAX_ROWS <=? rc).
        + injection E1 as <- <- <-. constructor.
        + destruct (rows_loop file_path r (rc + 1)) as [[ps1 rc2] tr2] eqn:E2.
          injection E1 as <- <- <-. constructor; [reflexivity | exact (IHr _ _ _ _ E2)]. }
    set (block := [PFileOpen file_path (length issues); PTableOpen] ++ rws ++ [PFileClose])
      in *.
    assert (Hblock : forall stack rest,
               nested stack (flat_map part_blocks block ++ rest) = nested stack rest).
    { intros stack0 rest1. unfold block.
      rewrite !flat_map_app, <- !app_assoc.
      cbn [flat_map part_blocks app nested]. rewrite !String.eqb_refl. cbn [andb].
      rewrite (nested_rows rws Hrows).
      cbn [flat_map part_blocks app nested]. now rewrite !String.eqb_refl. }
    destruct tr1.
    + injection E as <- <-. apply Hblock.
    + destruct (files_loop rest0 rc1) as [ps1 tr2] eqn:E2.
      injection E as <- <-.
      change (PFileOpen file_path (length issues) :: PTableOpen :: (rws ++ [PFileClose]) ++ ps1)
        with (block ++ ps1).
      rewrite flat_map_app, <- app_assoc, Hblock. exact (IH _ _ _ E2 stack rest).
Qed.

End DetailsBalance.

(** X10. The details table is well nested whenever its line links stay
    inside their quotes, that is, when no commit is known or neither the
    repository coordinates, the commit nor any file name holds an
    apostrophe, and the run URL holds no [<]: the block tags of the rendered
    HTML are those of its parts, and they balance, truncated or not. *)
Theorem details_html_balanced_when_links_are_safe
    (g : Lint.globals) (fs : Lint.files) (workflow_url : string) :
  forallb (fun kv => HtmlFlow.href_safe g (fst kv)) fs = true ->
  HtmlFlow.tag_free workflow_url = true ->
  List.filter Html.is_block (Html.tags (Lint.build_details_html g fs workflow_url))
  = flat_map HtmlFlow.part_blocks (Lint.details_parts fs workflow_url)
  /\ Html.balanced (Lint.build_details_html g fs workflow_url) = true.
Proof.
  intros Hsafe Hurl.
  assert (Hgood : Forall (fun p => HtmlFlow.reads Html.InText (Lint.render_part g p)
                                     Html.InText (HtmlFlow.part_blocks p))
                    (Lint.details_parts fs workflow_url)).
  { unfold Lint.details_parts. destruct fs as [|kv fs'].
    - repeat constructor.
    - destruct (Lint.files_loop (kv :: fs') 0) as [ps tr] eqn:E.
      pose proof (files_loop_good g _ _ _ _ Hsafe E) as Hps.
      repeat (apply List.Forall_app; split); try exact Hps;
        try (repeat constructor; fail).
      destruct tr; repeat (apply List.Forall_app; split); try exact Hps;
        try (repeat constructor; fail).
      constructor; [now apply reads_truncated | constructor]. }
  assert (Hblocks :
            List.filter Html.is_block (Html.tags (Lint.build_details_html g fs workflow_url))
            = flat_map HtmlFlow.part_blocks (Lint.details_parts fs workflow_url)).
  { destruct (join_good g _ Hgood) as [Hend Hbs].
    unfold Html.tags, Lint.build_details_html.
    rewrite <- (str_app_nil_r (Py.join _ _)), lex_run_spec, Hend.
    cbn [Html.lex]. now rewrite app_nil_r. }
  split; [exact Hblocks |].
  unfold Html.balanced. rewrite Hblocks.
  unfold Lint.details_parts. destruct fs as [|kv fs']; [reflexivity |].
  destruct (Lint.files_loop (kv :: fs') 0) as [ps tr] eqn:E.
  pose proof (nested_files _ _ _ _ E) as Hn.
  destruct tr; rewrite !flat_map_app, <- !app_assoc;
    match goal with
    | |- Html.nested [] (flat_map _ ?pre ++ _) = _ =>
        change (flat_map HtmlFlow.part_blocks pre) with [Html.TOpen "details"]
    end;
    cbn [app Html.nested]; rewrite Hn; reflexivity.
Qed.

Lemma details_html_balanced_when_links_are_safe_witness :
  forallb (fun kv => HtmlFlow.href_safe Cases.lint_globals_at_commit (fst kv)) Sample.lint_files
  = true /\
  HtmlFlow.tag_free (Lint.workflow_url Cases.lint_globals_at_commit) = true /\
  List.filter Html.is_block
    (Html.tags (Lint.build_details_html Cases.lint_globals_at_commit Sample.lint_files
                  (Lint.workflow_url Cases.lint_globals_at_commit)))
  = flat_map HtmlFlow.part_blocks
      (Lint.details_parts Sample.lint_files (Lint.workflow_url Cases.lint_globals_at_commit))
  /\ Html.balanced
       (Lint.build_details_html Cases.lint_globals_at_commit Sample.lint_files
          (Lint.workflow_url Cases.lint_globals_at_commit)) = true.
Proof.
  split; [reflexivity |]. split; [reflexivity |].
  exact (details_html_balanced_when_links_are_safe Cases.lint_globals_at_commit
           Sample.lint_files (Lint.workflow_url Cases.lint_globals_at_commit)
           eq_refl eq_refl).
Defined.

(** ** The status in the lint header *)

Section Status.

Import Py Lint.

Lemma str_of_nat_head (n : nat) :
  exists c r, str_of_nat n = String c r /\ isdigit c = true.
Proof.
  unfold str_of_nat, str_of_Z.
  assert (H : forall d, exists c r,
               NilZero.string_of_uint d = String c r /\ isdigit c = true).
  { intros d. destruct d; eexists _, _; split; reflexivity. }
  destruct (Z.of_nat n) as [|p|p] eqn:E; [apply H | apply H | lia].
Qed.

Lemma count_is_not_no_issues (n : nat) (rest : string) :
  str_of_nat n +:+ rest <> "no issues".
Proof.
  destruct (str_of_nat_head n) as (c & r & -> & Hc). cbn [String.append].
  intros E. injection E as -> _. discriminate.
Qed.

End Status.

(** X11. The lint header says "no issues" exactly when the error, warning
    and info counts are all zero; for a parse result that is when no issue
    has one of the four known levels, whatever else the details table
    lists. *)
Theorem lint_status_no_issues_iff_all_counts_zero :
  (forall t : Lint.totals,
     Lint.status_of t = "no issues"
     <-> Lint.t_error t = 0 /\ Lint.t_warning t = 0 /\ Lint.t_info t = 0)
  /\ (forall fs : Lint.files,
        Lint.status_of (Lint.totals_from_files fs) = "no issues"
        <-> List.filter LintSpec.known_level (LintSpec.all_issues fs) = []).
Proof.
  assert (Hstatus : forall t : Lint.totals,
             Lint.status_of t = "no issues"
             <-> Lint.t_error t = 0 /\ Lint.t_warning t = 0 /\ Lint.t_info t = 0).
  { intros t. unfold Lint.status_of.
    destruct (Nat.eqb_spec (Lint.t_error t) 0) as [He | He];
      destruct (Nat.eqb_spec (Lint.t_warning t) 0) as [Hw | Hw];
      destruct (Nat.eqb_spec (Lint.t_info t) 0) as [Hi | Hi];
      cbn [negb app Py.join String.concat];
      (split; [intros H | intros (H1 & H2 & H3)]);
      try tauto; try lia; try contradiction;
      exfalso; revert H; rewrite ?str_app_assoc; apply count_is_not_no_issues. }
  split; [exact Hstatus |].
  intros fs. rewrite Hstatus.
  destruct (totals_from_files_spec fs) as (_ & _ & _ & Hsum & Hknown).
  rewrite <- length_zero_iff_nil, <- Hknown. lia.
Qed.

(** ** The code fence of the plan details *)

(** A character other than a backtick ends the run before it. *)
Lemma fence_runs_app (a : string) (c : ascii) (r : string) :
  (c =? "`")%char = false ->
  forall run, fence_runs run (a +:+ String c r) = fence_runs run a + fence_runs 0 r.
Proof.
  intros Hc. induction a as [|x a IH]; intros run; cbn [String.append fence_runs].
  - now rewrite Hc.
  - destruct (x =? "`")%char; [apply IH |]. rewrite IH. lia.
Qed.

(** X12. The details block of the plan comment opens its code fence with
    three backticks and ends the plan text with a run of two: besides the
    runs of three or more backticks that the plan text and the footer hold
    themselves, the block holds exactly one, the opening fence.  The text
    is that of [plan.txt] when it exists, else that of [output.txt]; without
    either file the block holds no fence of its own; and the block is not
    built when [exists] or [read_text] raises. *)
Theorem plan_details_fence_is_opened_once (w : Plan.world) (footer : string) :
  match Plan.read_plan_details w footer with
  | Ok block =>
      (exists text,
         (Plan.path_exists (Plan.plan_txt w) = Ok true /\
          Plan.path_read_text (Plan.plan_txt w) = Ok text
          \/ Plan.path_exists (Plan.plan_txt w) = Ok false /\
             Plan.path_exists (Plan.output_txt w) = Ok true /\
             Plan.path_read_text (Plan.output_txt w) = Ok text) /\
         block = Plan.details_block (Plan._extract_plan_only text) footer /\
         fence_runs 0 block
         = 1 + fence_runs 0 (Plan._extract_plan_only text) + fence_runs 0 footer)
      \/ (Plan.path_exists (Plan.plan_txt w) = Ok false /\
          Plan.path_exists (Plan.output_txt w) = Ok false /\
          block = Plan.not_available_block footer /\
          fence_runs 0 block = fence_runs 0 footer)
  | Raise e =>
      Plan.path_exists (Plan.plan_txt w) = Raise e
      \/ (Plan.path_exists (Plan.plan_txt w) = Ok true /\
          Plan.path_read_text (Plan.plan_txt w) = Raise e)
      \/ (Plan.path_exists (Plan.plan_txt w) = Ok false /\
          Plan.path_exists (Plan.output_txt w) = Raise e)
      \/ (Plan.path_exists (Plan.plan_txt w) = Ok false /\
          Plan.path_exists (Plan.output_txt w) = Ok true /\
          Plan.path_read_text (Plan.output_txt w) = Raise e)
  end.
Proof.
  assert (Hblock : forall body,
             fence_runs 0 (Plan.details_block body footer)
             = 1 + fence_runs 0 body + fence_runs 0 footer).
  { intros body. unfold Plan.details_block, Py.nl.
    cbn [String.append fence_runs Ascii.eqb Bool.eqb Nat.leb Nat.add].
    rewrite (fence_runs_app body) by reflexivity.
    cbn [String.append fence_runs Ascii.eqb Bool.eqb Nat.leb Nat.add].
    rewrite (fence_runs_app footer) by reflexivity.
    cbn [String.append fence_runs Ascii.eqb Bool.eqb Nat.leb Nat.add]. lia. }
  assert (Hnone : fence_runs 0 (Plan.not_available_block footer) = fence_runs 0 footer).
  { unfold Plan.not_available_block, Py.nl.
    cbn [String.append fence_runs Ascii.eqb Bool.eqb Nat.leb Nat.add].
    rewrite (fence_runs_app footer) by reflexivity.
    cbn [String.append fence_runs Ascii.eqb Bool.eqb Nat.leb Nat.add]. lia. }
  unfold Plan.read_plan_details.
  destruct (Plan.path_exists (Plan.plan_txt w)) as [[|]|e1]; cbn [mbind result_bind bind];
    [| | now left].
  - destruct (Plan.path_read_text (Plan.plan_txt w)) as [text|e2]; cbn [mbind result_bind bind].
    + left. exists text. split; [left; now split |]. split; [reflexivity | apply Hblock].
    + right. left. now split.
  - destruct (Plan.path_exists (Plan.output_txt w)) as [[|]|e3]; cbn [mbind result_bind bind].
    + destruct (Plan.path_read_text (Plan.output_txt w)) as [text|e4];
        cbn [mbind result_bind bind].
      * left. exists text. split; [right; repeat split |].
        split; [reflexivity | apply Hblock].
      * right. right. right. repeat split.
    + right. repeat split. exact Hnone.
    + right. right. left. now split.
Qed.

(** ** The module-level settings *)

Lemma span_rest_head (p : ascii -> bool) (s : string) :
  forall a c r, Py.span p s = (a, String c r) -> p c = false.
Proof.
  induction s as [|x s IH]; intros a c r E; cbn [Py.span] in E; [discriminate |].
  destruct (p x) eqn:Hx.
  - destruct (Py.span p s) as [a' b'] eqn:Es. injection E as <- ->.
    exact (IH _ _ _ eq_refl).
  - injection E as <- <- <-. exact Hx.
Qed.

(** X13. Both scripts split [GITHUB_REPOSITORY] at its first slash: when
    the settings load, owner and name put together with a slash give the
    slug back and the owner holds no slash; loading fails with [KeyError]
    when the variable is unset and with [ValueError] when it holds no
    slash.  The lint script needs [GITHUB_TOKEN] besides; whenever its
    settings load, those of the plan script load too, with the same
    repository, token and event. *)
Theorem load_globals_split_the_repository_slug (environ : gmap string string) :
  match Plan.load_globals environ with
  | Ok g =>
      environ !! "GITHUB_REPOSITORY" = Some (Plan.REPO g) /\
      Plan.REPO g = Plan.OWNER g +:+ "/" +:+ Plan.REPO_NAME g /\
      Py.forall_str (fun c => negb (c =? "/")%char) (Plan.OWNER g) = true
  | Raise e =>
      (environ !! "GITHUB_REPOSITORY" = None /\ e = Exn "KeyError" "'GITHUB_REPOSITORY'")
      \/ (exists repo,
            environ !! "GITHUB_REPOSITORY" = Some repo /\
            Py.forall_str (fun c => negb (c =? "/")%char) repo = true /\
            e = Exn "ValueError" "not enough values to unpack (expected 2, got 1)")
  end
  /\
  match Lint.load_globals environ with
  | Ok gl =>
      environ !! "GITHUB_TOKEN" = Some (Lint.TOKEN gl) /\
      exists gp,
        Plan.load_globals environ = Ok gp /\
        Plan.REPO gp = Lint.REPO gl /\
        Plan.OWNER gp = Lint.OWNER gl /\
        Plan.REPO_NAME gp = Lint.REPO_NAME gl /\
        Plan.REPO_OWNER_FOR_URL gp = Lint.REPO_OWNER_FOR_URL gl /\
        Plan.TOKEN gp = Lint.TOKEN gl /\
        Plan.EVENT_NAME gp = Lint.EVENT_NAME gl /\
        Plan.EVENT_PATH gp = Lint.EVENT_PATH gl /\
        Plan.RUN_ID gp = Lint.RUN_ID gl /\
        Plan.GITHUB_SHA gp = Lint.GITHUB_SHA gl
  | Raise e =>
      Plan.load_globals environ = Raise e
      \/ (environ !! "GITHUB_TOKEN" = None /\ e = Exn "KeyError" "'GITHUB_TOKEN'")
  end.
Proof.
  unfold Plan.load_globals, Lint.load_globals.
  destruct (environ !! "GITHUB_REPOSITORY") as [repo|] eqn:Erepo;
    [| split; [now left | now left]].
  destruct (Py.span (fun c => negb (c =? "/")%char) repo) as [owner rest] eqn:Espan.
  destruct (span_spec _ _ _ _ Espan) as [Hrepo Howner].
  destruct rest as [|c repo_name].
  - rewrite str_app_nil_r in Hrepo. subst owner.
    split; [| now left]. right. now exists repo.
  - pose proof (span_rest_head _ _ _ _ _ Espan) as Hc.
    apply negb_false_iff, Ascii.eqb_eq in Hc. subst c.
    split; [cbn; auto |].
    unfold Plan.getenv, Lint.getenv.
    destruct (environ !! "GITHUB_TOKEN") as [token|] eqn:Etok; [| now right].
    cbn. split; [reflexivity |]. eexists. split; [reflexivity |]. cbn. auto 12.
Qed.

(** ** The two scripts on one pull request *)

Lemma plan_body_names_working_dir (g : Plan.globals) (details : string) :
  Py.contains (Plan.TF_ACTIONS_WORKING_DIR g) (Plan.body g details) = true.
Proof.
  unfold Plan.body, Plan.header.
  apply contains_app_l, contains_app_r, contains_app_l, contains_refl.
Qed.

(** X14. The lint locator takes the plan comment for its own: for the same
    working directory the body the plan script posts, whatever the details
    it read, always matches, so a lint run on a pull request whose only
    comment is the plan comment rewrites that comment, and in delete mode
    removes it. *)
Theorem lint_locator_matches_the_plan_comment
    (gp : Plan.globals) (gl : Lint.globals) (details : string) (id pr : Z) (fs : Lint.files) :
  Plan.TF_ACTIONS_WORKING_DIR gp = Lint.wd_visible gl ->
  (0 < id)%Z ->
  Lint.locator_match (Lint.wd_visible gl) (Comment id pr (Some (Plan.body gp details))) = true
  /\ Lint.upsert [Comment id pr (Some (Plan.body gp details))] pr (Lint.wd_visible gl)
       (Lint.comment_body gl fs)
     = Ok ([Comment id pr (Some (Lint.comment_body gl fs))],
           ["::notice::Updated TFLint PR comment (id=" +:+ Py.str_of_Z id +:+ ")."])
  /\ Lint.delete_existing [Comment id pr (Some (Plan.body gp details))] pr (Lint.wd_visible gl)
     = Ok ([], ["::notice::Deleted existing TFLint comment."]).
Proof.
  intros Hwd Hid.
  set (c := Comment id pr (Some (Plan.body gp details))).
  assert (Hm : Lint.locator_match (Lint.wd_visible gl) c = true).
  { unfold Lint.locator_match. change (body_of c) with (Plan.body gp details).
    rewrite <- Hwd, plan_body_names_working_dir. apply orb_true_r. }
  assert (Hloc : locate (lint_match (Lint.wd_visible gl)) [c] pr = Some id).
  { apply (locate_first (lint_match (Lint.wd_visible gl)) pr [] [] c); [constructor |].
    unfold pr_match. change (c_pr c) with pr. rewrite Z.eqb_refl. exact Hm. }
  assert (Hnz : (id =? 0)%Z = false) by (apply Z.eqb_neq; lia).
  split; [exact Hm |]. split.
  - unfold Lint.upsert. rewrite lint_find_existing. cbn [mbind result_bind bind].
    fold (locate (lint_match (Lint.wd_visible gl)) [c] pr). rewrite Hloc.
    cbn [truthy default negb]. rewrite Hnz. cbn [negb].
    unfold update_comment, has_id, set_body, Datatypes.id. cbn [existsb c_id c_pr c map].
    now rewrite Z.eqb_refl.
  - rewrite lint_delete_state, Hloc. cbn [truthy default negb]. rewrite Hnz.
    unfold Datatypes.id. cbn [negb List.filter c_id c]. now rewrite Z.eqb_refl.
Qed.

Lemma lint_locator_matches_the_plan_comment_witness :
  Plan.TF_ACTIONS_WORKING_DIR Sample.plan_globals = Lint.wd_visible Sample.lint_globals /\
  (0 < 7)%Z /\
  exists b,
    Plan.comment_body Sample.plan_globals Sample.plan_world = Ok b /\
    Lint.locator_match (Lint.wd_visible Sample.lint_globals) (Comment 7 5 (Some b)) = true /\
    Lint.upsert [Comment 7 5 (Some b)] 5 (Lint.wd_visible Sample.lint_globals)
      (Lint.comment_body Sample.lint_globals Sample.lint_files)
    = Ok ([Comment 7 5 (Some (Lint.comment_body Sample.lint_globals Sample.lint_files))],
          ["::notice::Updated TFLint PR comment (id=" +:+ Py.str_of_Z 7 +:+ ")."]) /\
    Lint.delete_existing [Comment 7 5 (Some b)] 5 (Lint.wd_visible Sample.lint_globals)
    = Ok ([], ["::notice::Deleted existing TFLint comment."]).
Proof.
  split; [reflexivity |]. split; [reflexivity |].
  destruct (Plan.read_plan_details Sample.plan_world (Plan.footer_md Sample.plan_globals))
    as [details|e] eqn:E; [| vm_compute in E; discriminate].
  exists (Plan.body Sample.plan_globals details).
  split; [unfold Plan.comment_body; rewrite E; reflexivity |].
  exact (lint_locator_matches_the_plan_comment Sample.plan_globals Sample.lint_globals
           details 7 5 Sample.lint_files eq_refl eq_refl).
Defined.

(** ** Settings that change nothing *)

(** X15. The lint script reads [PR_COMMENT_MARKER] and never uses it:
    whatever the variable holds, a run does and prints the same. *)
Theorem lint_run_ignores_pr_comment_marker
    (environ : gmap string string) (m : string) (w : Lint.world) (st : forge) :
  Lint.run (<["PR_COMMENT_MARKER" := m]> environ) w st = Lint.run environ w st.
Proof.
  unfold Lint.run, Lint.load_globals, Lint.getenv.
  rewrite lookup_insert_eq, !lookup_insert_ne by discriminate.
  destruct (environ !! "GITHUB_REPOSITORY") as [repo|]; [| reflexivity].
  destruct (Py.span _ repo) as [owner [|c repo_name]]; [reflexivity |].
  destruct (environ !! "GITHUB_TOKEN") as [token|]; [| reflexivity].
  reflexivity.
Qed.

(** X16. [CREATE_COMMENT] does not switch the plan comment off: with a
    token in the environment, a run does and prints the same whatever the
    variable holds. *)
Theorem plan_run_posts_whatever_create_comment_says
    (environ : gmap string string) (v token : string) (w : Plan.world) (st : forge) :
  environ !! "GITHUB_TOKEN" = Some token ->
  Py.is_empty token = false ->
  Plan.run (<["CREATE_COMMENT" := v]> environ) w st = Plan.run environ w st.
Proof.
  intros Htok Hne.
  unfold Plan.run, Plan.load_globals, Plan.getenv.
  rewrite lookup_insert_eq, !lookup_insert_ne by discriminate. rewrite Htok.
  destruct (environ !! "GITHUB_REPOSITORY") as [repo|]; [| reflexivity].
  destruct (Py.span _ repo) as [owner [|c repo_name]]; [reflexivity |].
  cbn [mbind result_bind bind].
  unfold Plan.main. cbn [Plan.CREATE_COMMENT Plan.TOKEN default]. unfold Datatypes.id.
  rewrite Hne, !andb_false_r. reflexivity.
Qed.

Lemma plan_run_posts_whatever_create_comment_says_witness :
  Sample.plan_environ !! "GITHUB_TOKEN" = Some "t0ken" /\
  Py.is_empty "t0ken" = false /\
  Plan.run (<["CREATE_COMMENT" := "false"]> Sample.plan_environ) Sample.plan_world
    Sample.review_forge
  = Plan.run Sample.plan_environ Sample.plan_world Sample.review_forge.
Proof.
  split; [reflexivity |]. split; [reflexivity |].
  exact (plan_run_posts_whatever_create_comment_says Sample.plan_environ "false" "t0ken"
           Sample.plan_world Sample.review_forge eq_refl eq_refl).
Defined.

(** ** Running a script again *)

(** An upsert of the body that is already there changes nothing. *)
Lemma upsert_state_again (mb : string -> bool) (pr : Z) (st : forge) (b : string) :
  forge_wf st ->
  mb b = true ->
  upsert_state mb (upsert_state mb st pr b) pr b = upsert_state mb st pr b.
Proof.
  intros Hwf Hb.
  destruct (upsert_twice_shape mb pr st b b Hwf Hb Hb)
    as (before & after & id & _ & S1 & S2 & _).
  now rewrite S2, S1.
Qed.

(** X17. Running a script a second time with the same inputs leaves the
    comments as the first run left them: whenever the first run returns
    normally, so does the second, and it finds the comment the first one
    wrote and writes the same body into it.  This holds for the plan
    script, and for the lint script outside delete mode. *)
Theorem main_twice_is_main_once (st : forge) :
  forge_wf st ->
  (forall (g : Plan.globals) (w : Plan.world) (st1 : forge) (out1 : list string),
     Plan.main g w st = Ok (st1, out1) ->
     exists out2, Plan.main g w st1 = Ok (st1, out2))
  /\
  (forall (g : Lint.globals) (w : Lint.world) (st1 : forge) (out1 : list string),
     Lint.PR_DELETE_COMMENT g = false ->
     Lint.main g w st = Ok (st1, out1) ->
     exists out2, Lint.main g w st1 = Ok (st1, out2)).
Proof.
  intros Hwf. split.
  - intros g w st1 out1. unfold Plan.main.
    destruct (Plan.is_pr_event (Plan.EVENT_NAME g)); cbn [negb];
      [| intros H; injection H as <- <-; eexists; reflexivity].
    destruct (Plan.get_pr_number g w) as [prn out0].
    destruct (truthy prn); cbn [negb];
      [| intros H; injection H as <- <-; eexists; reflexivity].
    destruct (Plan.CREATE_COMMENT g && Py.is_empty (Plan.TOKEN g));
      [intros H; injection H as <- <-; eexists; reflexivity |].
    unfold Plan.comment_body.
    destruct (Plan.read_plan_details w (Plan.footer_md g)) as [details|e];
      cbn [mbind result_bind bind]; [| discriminate].
    set (pr := default 0%Z prn). set (mk := Plan.marker_html g).
    set (b := Plan.body g details).
    destruct (plan_upsert_state st pr mk b) as [o1 E1].
    destruct (plan_upsert_state (upsert_state (plan_match mk) st pr b) pr mk b) as [o2 E2].
    rewrite (upsert_state_again (plan_match mk) pr st b Hwf
               (plan_body_carries_marker g details)) in E2.
    rewrite E1. cbn [mbind result_bind bind]. intros H. injection H as <- <-.
    rewrite E2. eexists. reflexivity.
  - intros g w st1 out1 Hdel. unfold Lint.main. rewrite Hdel.
    destruct (Lint.is_pr_event (Lint.EVENT_NAME g)); cbn [negb];
      [| intros H; injection H as <- <-; eexists; reflexivity].
    destruct (Lint.get_pr_number g w) as [prn|e]; cbn [mbind result_bind bind];
      [| discriminate].
    destruct (truthy prn); cbn [negb];
      [| intros H; injection H as <- <-; eexists; reflexivity].
    destruct (Lint.parse_tflint_output (Lint.TFLINT_OUTPUT g)) as [fs|e];
      cbn [mbind result_bind bind]; [| discriminate].
    set (pr := default 0%Z prn). set (mk := Lint.wd_visible g).
    set (b := Lint.comment_body g fs).
    assert (Hb : lint_match mk b = true).
    { unfold lint_match. unfold b, mk. now rewrite lint_body_carries_hidden_token. }
    destruct (lint_upsert_state st pr mk b) as [o1 E1].
    destruct (lint_upsert_state (upsert_state (lint_match mk) st pr b) pr mk b) as [o2 E2].
    rewrite (upsert_state_again (lint_match mk) pr st b Hwf Hb) in E2.
    rewrite E1. intros H. injection H as <- <-.
    rewrite E2. eexists. reflexivity.
Qed.

Lemma main_twice_is_main_once_witness :
  forge_wf Sample.review_forge /\
  (exists st1 out1 out2,
     Plan.main Sample.plan_globals Sample.plan_world Sample.review_forge = Ok (st1, out1) /\
     Plan.main Sample.plan_globals Sample.plan_world st1 = Ok (st1, out2)) /\
  Lint.PR_DELETE_COMMENT Sample.lint_globals = false /\
  (exists st1 out1 out2,
     Lint.main Sample.lint_globals Sample.lint_world Sample.review_forge = Ok (st1, out1) /\
     Lint.main Sample.lint_globals Sample.lint_world st1 = Ok (st1, out2)).
Proof.
  assert (Hwf : forge_wf Sample.review_forge).
  { split; repeat constructor; simpl; tauto. }
  destruct (main_twice_is_main_once Sample.review_forge Hwf) as [Hplan Hlint].
  split; [exact Hwf |].
  split.
  - destruct (Plan.main Sample.plan_globals Sample.plan_world Sample.review_forge)
      as [[st1 out1]|e] eqn:E; [| vm_compute in E; discriminate].
    destruct (Hplan _ _ _ _ E) as [out2 E2]. exists st1, out1, out2. now split.
  - split; [reflexivity |].
    destruct (Lint.main Sample.lint_globals Sample.lint_world Sample.review_forge)
      as [[st1 out1]|e] eqn:E; [| vm_compute in E; discriminate].
    destruct (Hlint Sample.lint_globals _ _ _ eq_refl E) as [out2 E2].
    exists st1, out1, out2. now split.
Defined.

(** ** Summary and table *)

(** X18. Summary and table agree up to the cap: when at most 500 issues
    were parsed and each has one of the four known levels, the total in the
    summary is the number of rows in the details table. *)
Theorem summary_total_is_the_number_of_rows (fs : Lint.files) (workflow_url : string) :
  LintSpec.total_issues fs <= Lint.MAX_ROWS ->
  forallb LintSpec.known_level (LintSpec.all_issues fs) = true ->
  Lint.t_total (Lint.totals_from_files fs)
  = LintSpec.rows (Lint.details_parts fs workflow_url).
Proof.
  intros Hsmall Hknown.
  destruct (totals_from_files_spec fs) as (_ & _ & _ & _ & ->).
  destruct (details_rows_complete fs workflow_url Hsmall) as [-> _].
  now rewrite (filter_all _ _ Hknown).
Qed.

Lemma summary_total_is_the_number_of_rows_witness :
  LintSpec.total_issues Sample.lint_files <= Lint.MAX_ROWS /\
  forallb LintSpec.known_level (LintSpec.all_issues Sample.lint_files) = true /\
  Lint.t_total (Lint.totals_from_files Sample.lint_files)
  = LintSpec.rows (Lint.details_parts Sample.lint_files "https://example.invalid/run").
Proof.
  assert (Hsmall : LintSpec.total_issues Sample.lint_files <= Lint.MAX_ROWS)
    by (vm_compute; lia).
  split; [exact Hsmall |]. split; [reflexivity |].
  exact (summary_total_is_the_number_of_rows Sample.lint_files "https://example.invalid/run"
           Hsmall eq_refl).
Defined.

(** ** The level cell *)

Section LevelCell.

Import Py.

Lemma title_go_cased (r : string) :
  forall_str islower r = true -> title_go true r = r.
Proof.
  induction r as [|c r IH]; cbn [forall_str title_go]; [reflexivity |].
  intros H. apply andb_true_iff in H as [Hc Hr]. now rewrite Hc, (IH Hr).
Qed.

Lemma escape_char_letter (c : ascii) :
  isalpha c = true -> escape_char c = String c "".
Proof.
  destruct c as [[] [] [] [] [] [] [] []]; intros H; vm_compute in H |- *;
    solve [reflexivity | discriminate].
Qed.

Lemma escape_letters (s : string) : forall_str isalpha s = true -> escape s = s.
Proof.
  induction s as [|c s IH]; cbn [forall_str escape]; [reflexivity |].
  intros H. apply andb_true_iff in H as [Hc Hs].
  now rewrite (escape_char_letter c Hc), (IH Hs).
Qed.

Lemma upper_char_isupper (c : ascii) : islower c = true -> isupper (upper_char c) = true.
Proof.
  destruct c as [[] [] [] [] [] [] [] []]; intros H; vm_compute in H |- *;
    solve [reflexivity | discriminate].
Qed.

(** The cell of a lower-case level: its first letter upper-cased, nothing
    escaped. *)
Lemma level_cell_of_lower (c : ascii) (r : string) :
  forall_str islower (String c r) = true ->
  escape (title (String c r)) = String (upper_char c) r.
Proof.
  cbn [forall_str]. intros H. apply andb_true_iff in H as [Hc Hr].
  unfold title. cbn [title_go]. rewrite Hc, (title_go_cased r Hr).
  apply escape_letters. cbn [forall_str]. apply andb_true_iff. split.
  - unfold isalpha. now rewrite (upper_char_isupper c Hc).
  - eapply forall_str_impl; [| exact Hr]. intros x Hx. unfold isalpha.
    rewrite Hx. apply orb_true_r.
Qed.

End LevelCell.

Lemma contains_join_member (sep x : string) (ls : list string) :
  In x ls -> Py.contains x (Py.join sep ls) = true.
Proof.
  induction ls as [|l ls IH]; intros Hin; [destruct Hin |].
  destruct ls as [|l' ls'].
  - destruct Hin as [-> | []]. apply contains_refl.
  - change (Py.join sep (l :: l' :: ls')) with (l +:+ sep +:+ Py.join sep (l' :: ls')).
    destruct Hin as [-> | Hin].
    + apply contains_app_l, contains_refl.
    + do 2 apply contains_app_r. exact (IH Hin).
Qed.

(** The level cell of a row, as the table prints it. *)
Lemma row_html_level_cell (g : Lint.globals) (file_path : string) (it : Lint.issue)
    (c : ascii) (r : string) :
  Lint.level it = String c r ->
  Py.forall_str Py.islower (Lint.level it) = true ->
  Py.contains
    ("<td>" +:+ default "ℹ️" (Lint.SEV_EMOJI !! Lint.level it)
     +:+ " <strong>" +:+ String (Py.upper_char c) r +:+ "</strong></td>")
    (Lint.row_html g file_path it) = true.
Proof.
  intros Hlvl Hlow. unfold Lint.row_html. cbv zeta.
  rewrite Hlvl in Hlow |- *. rewrite (level_cell_of_lower c r Hlow).
  do 7 apply contains_app_r.
  match goal with
  | |- Py.contains ?cell ?hay = true =>
      replace hay
        with (cell +:+ "<td><code>"
              +:+ (if negb (Py.is_empty (Lint.rule it)) then Py.escape (Lint.rule it) else "")
              +:+ "</code></td>" +:+ "<td>" +:+ Py.escape (Lint.msg it) +:+ "</td>"
              +:+ "</tr>")
        by (rewrite !str_app_assoc; reflexivity)
  end.
  apply contains_app_l, contains_refl.
Qed.

(** X19. The level column shows the parsed level capitalised: for every
    row of the details table rendered from a parse result, the level cell
    of the row, and so of the rendered table, is the severity emoji
    followed by the level with its first letter in upper case, with nothing
    escaped in it. *)
Theorem level_cell_is_the_capitalised_level
    (g : Lint.globals) (text : string) (fs : Lint.files) (workflow_url : string) :
  Lint.parse_tflint_output text = Ok fs ->
  Forall
    (fun p =>
       match p with
       | Lint.PRow file_path it =>
           exists c r,
             Lint.level it = String c r /\
             Py.contains
               ("<td>" +:+ default "ℹ️" (Lint.SEV_EMOJI !! Lint.level it)
                +:+ " <strong>" +:+ String (Py.upper_char c) r +:+ "</strong></td>")
               (Lint.row_html g file_path it) = true /\
             Py.contains
               ("<td>" +:+ default "ℹ️" (Lint.SEV_EMOJI !! Lint.level it)
                +:+ " <strong>" +:+ String (Py.upper_char c) r +:+ "</strong></td>")
               (Lint.build_details_html g fs workflow_url) = true
       | _ => True
       end)
    (Lint.details_parts fs workflow_url).
Proof.
  intros E. pose proof (parse_entries_shape text fs E) as Hent.
  rewrite List.Forall_forall in Hent.
  apply List.Forall_forall. intros p Hin.
  destruct p as [| | |file_path it| |]; try exact I.
  destruct (Hent _ (details_row_in_entries fs workflow_url file_path it Hin))
    as (_ & _ & _ & Hne & Hlow & _).
  cbn [snd] in Hne, Hlow.
  destruct (Lint.level it) as [|c r] eqn:Hlvl; [discriminate |].
  exists c, r. split; [reflexivity |].
  assert (Hcell : Py.contains
                    ("<td>" +:+ default "ℹ️" (Lint.SEV_EMOJI !! String c r)
                     +:+ " <strong>" +:+ String (Py.upper_char c) r +:+ "</strong></td>")
                    (Lint.row_html g file_path it) = true).
  { rewrite <- Hlvl at 1. apply row_html_level_cell; [exact Hlvl | now rewrite Hlvl]. }
  split; [exact Hcell |].
  apply (contains_trans _ _ _ Hcell).
  unfold Lint.build_details_html. apply contains_join_member.
  apply in_map_iff. exists (Lint.PRow file_path it). split; [reflexivity | exact Hin].
Qed.

Lemma level_cell_is_the_capitalised_level_witness :
  Lint.parse_tflint_output (Lint.TFLINT_OUTPUT Sample.lint_globals) = Ok Sample.lint_files /\
  In (Lint.PRow "main.tf"
        (Lint.Issue 10 5 "warning" "terraform_unused_declarations" "unused variable"))
     (Lint.details_parts Sample.lint_files (Lint.workflow_url Sample.lint_globals)) /\
  Py.contains "<td>⚠️ <strong>Warning</strong></td>"
    (Lint.build_details_html Sample.lint_globals Sample.lint_files
       (Lint.workflow_url Sample.lint_globals)) = true.
Proof.
  assert (E : Lint.parse_tflint_output (Lint.TFLINT_OUTPUT Sample.lint_globals)
              = Ok Sample.lint_files) by (vm_compute; reflexivity).
  assert (Hin : In (Lint.PRow "main.tf"
                      (Lint.Issue 10 5 "warning" "terraform_unused_declarations"
                         "unused variable"))
                  (Lint.details_parts Sample.lint_files
                     (Lint.workflow_url Sample.lint_globals)))
    by (vm_compute; tauto).
  split; [exact E |]. split; [exact Hin |].
  pose proof (level_cell_is_the_capitalised_level Sample.lint_globals _ _
                (Lint.workflow_url Sample.lint_globals) E) as H.
  rewrite List.Forall_forall in H.
  destruct (H _ Hin) as (c & r & Hlvl & _ & Hhtml).
  cbn [Lint.level] in Hlvl. injection Hlvl as <- <-. exact Hhtml.
Defined.

(** ** Extracting an extracted plan *)

Section ExtractAgain.

Import Py.

Abbreviation no_break := (forall_str (fun c => negb (is_linebreak c))).

Lemma splitlines_no_break (s : string) : Forall (fun l => no_break l = true) (splitlines s).
Proof.
  induction s as [|c r IH]; cbn [splitlines]; [constructor |].
  destruct (is_linebreak c) eqn:Hc.
  - destruct ((c =? "013")%char && starts_with_lf r); [exact IH | now constructor].
  - destruct (splitlines r) as [|l ls].
    + constructor; [| constructor]. cbn [forall_str]. now rewrite Hc.
    + inversion IH; subst. constructor; [| assumption]. cbn [forall_str]. now rewrite Hc.
Qed.

Lemma no_break_lf_only (s : string) : no_break s = true -> lf_only s = true.
Proof.
  unfold lf_only. apply forall_str_impl. intros c Hc. now rewrite Hc.
Qed.

Lemma lf_only_join (ls : list string) :
  Forall (fun l => no_break l = true) ls -> lf_only (join nl ls) = true.
Proof.
  induction 1 as [|l ls Hl Hls IH]; [reflexivity |].
  destruct ls as [|l' ls'].
  - cbn [join String.concat]. now apply no_break_lf_only.
  - change (join nl (l :: l' :: ls')) with (l +:+ nl +:+ join nl (l' :: ls')).
    pose proof (no_break_lf_only l Hl) as Hl'.
    unfold lf_only in *. rewrite !forall_str_app, IH, Hl'. reflexivity.
Qed.

Lemma forall_str_rstrip (p : ascii -> bool) (s : string) :
  forall_str p s = true -> forall_str p (rstrip s) = true.
Proof.
  induction s as [|c s IH]; cbn [forall_str rstrip]; [reflexivity |].
  intros H. apply andb_true_iff in H as [Hc Hs]. specialize (IH Hs).
  destruct (rstrip s) as [|x r].
  - destruct (isspace c); [reflexivity |]. cbn [forall_str]. now rewrite Hc.
  - cbn [forall_str] in *. now rewrite Hc, IH.
Qed.

Lemma forall_str_strip (p : ascii -> bool) (s : string) :
  forall_str p s = true -> forall_str p (strip s) = true.
Proof. intros H. unfold strip. now apply forall_str_rstrip, forall_str_lstrip. Qed.

Lemma length_rstrip (s : string) : String.length (rstrip s) <= String.length s.
Proof.
  induction s as [|c s IH]; cbn [rstrip String.length]; [lia |].
  destruct (rstrip s) as [|x r].
  - destruct (isspace c); cbn [String.length]; lia.
  - cbn [String.length] in *. lia.
Qed.

Lemma str_length_app (a b : string) :
  String.length (a +:+ b) = String.length a + String.length b.
Proof. induction a as [|c a IH]; cbn [String.append String.length]; [reflexivity | now rewrite IH]. Qed.

(** What [rstrip] returns does not end in a line feed. *)
Lemma rstrip_no_final_nl (s a : string) : rstrip s <> a +:+ nl.
Proof.
  intros E. pose proof (rstrip_idem s) as Hi. rewrite E in Hi.
  unfold nl in Hi. rewrite rstrip_app_space in Hi by reflexivity.
  pose proof (length_rstrip a) as Hlen. rewrite Hi, str_length_app in Hlen.
  cbn [String.length] in Hlen. lia.
Qed.

Lemma rstrip_app (a b : string) :
  rstrip (a +:+ b) = if forall_str isspace b then rstrip a else a +:+ rstrip b.
Proof.
  induction a as [|x a IH]; cbn [String.append].
  - destruct (forall_str isspace b) eqn:Hb; [now apply rstrip_all_space | reflexivity].
  - cbn [rstrip]. rewrite IH. destruct (forall_str isspace b) eqn:Hb; [reflexivity |].
    destruct (a +:+ rstrip b) as [|y r] eqn:E; [| reflexivity].
    destruct a; [| discriminate]. cbn [String.append] in E.
    apply rstrip_empty_inv in E. congruence.
Qed.

(** Splitting after a first line. *)
Lemma splitlines_first (u z : string) :
  no_break u = true -> splitlines (u +:+ nl +:+ z) = u :: splitlines z.
Proof.
  induction u as [|c u IH]; cbn [String.append forall_str]; intros H.
  - reflexivity.
  - apply andb_true_iff in H as [Hc Hu]. apply negb_true_iff in Hc.
    cbn [splitlines]. rewrite Hc. cbn [String.append] in IH. now rewrite (IH Hu).
Qed.

Lemma startswith_before (m a : string) (c : ascii) (b : string) :
  forall_str (fun x => negb (x =? c)%char) m = true ->
  startswith m (a +:+ String c b) = true -> startswith m a = true.
Proof.
  revert a. induction m as [|y m IH]; intros a Hm H; [reflexivity |].
  cbn [forall_str] in Hm. apply andb_true_iff in Hm as [Hy Hm].
  destruct a as [|x a]; cbn [String.append startswith] in *.
  - apply andb_true_iff in H as [H _]. rewrite H in Hy. discriminate.
  - apply andb_true_iff in H as [Hx H]. rewrite Hx. exact (IH a Hm H).
Qed.

(** A needle without the separator lies on one side of it. *)
Lemma contains_either_side (m a : string) (c : ascii) (b : string) :
  forall_str (fun x => negb (x =? c)%char) m = true ->
  contains m (a +:+ String c b) = true ->
  contains m a = true \/ contains m b = true.
Proof.
  intros Hm. induction a as [|x a IH]; intros H.
  - cbn [String.append contains] in H. apply orb_true_iff in H as [H | H]; [| now right].
    left. apply contains_here. exact (startswith_before m "" c b Hm H).
  - cbn [String.append] in H. cbn [contains] in H. apply orb_true_iff in H as [H | H].
    + left. apply contains_here. exact (startswith_before m (String x a) c b Hm H).
    + destruct (IH H) as [Ha | Hb]; [left | now right].
      cbn [contains]. rewrite Ha. apply orb_true_r.
Qed.

Lemma contains_join (m : string) (ls : list string) :
  forall_str (fun x => negb (x =? "010")%char) m = true ->
  is_empty m = false ->
  contains m (join nl ls) = true ->
  Exists (fun l => contains m l = true) ls.
Proof.
  intros Hm Hne. induction ls as [|l ls IH]; intros H.
  - destruct m; discriminate.
  - destruct ls as [|l' ls'].
    + constructor. exact H.
    + change (join nl (l :: l' :: ls')) with (l +:+ String "010" (join nl (l' :: ls'))) in H.
      destruct (contains_either_side m l "010" _ Hm H) as [Hl | Hr].
      * now constructor.
      * apply Exists_cons_tl. exact (IH Hr).
Qed.

Lemma rstrip_decomp (s : string) :
  exists w, s = rstrip s +:+ w.
Proof.
  induction s as [|c s [w IH]]; [now exists "" |].
  cbn [rstrip]. destruct (rstrip s) as [|x r] eqn:E.
  - destruct (isspace c).
    + now exists (String c s).
    + exists s. reflexivity.
  - exists w. cbn [String.append] in IH |- *. now rewrite <- IH.
Qed.

Lemma contains_strip (s : string) : contains (strip s) s = true.
Proof.
  unfold strip. destruct (lstrip_decomp s) as (w & Hs & _).
  destruct (rstrip_decomp (lstrip s)) as (w' & Hr).
  apply contains_iff. exists w, w'. now rewrite <- Hr.
Qed.

Lemma splitlines_contains (s l : string) : In l (splitlines s) -> contains l s = true.
Proof.
  revert l. induction s as [|c r IH]; intros l Hin; [destruct Hin |].
  cbn [splitlines] in Hin.
  assert (Hr : forall l', In l' (splitlines r) -> contains l' (String c r) = true).
  { intros l' Hl'. cbn [contains]. rewrite (IH l' Hl'). apply orb_true_r. }
  destruct (is_linebreak c).
  - destruct ((c =? "013")%char && starts_with_lf r); [now apply Hr |].
    destruct Hin as [<- | Hin]; [reflexivity | now apply Hr].
  - destruct (splitlines r) as [|l0 ls] eqn:E.
    + destruct Hin as [<- | []]. cbn [contains startswith]. now rewrite Ascii.eqb_refl.
    + destruct Hin as [<- | Hin]; [| apply Hr; now right].
      cbn [contains startswith]. rewrite Ascii.eqb_refl. cbn [andb].
      assert (H0 : contains l0 r = true) by (apply IH; now left).
      apply orb_true_iff. left.
      (* the first line of the rest is a prefix of the rest *)
      clear -E. revert l0 ls E. induction r as [|d r IHr]; intros l0 ls E; [discriminate |].
      cbn [splitlines] in E. destruct (is_linebreak d).
      * destruct ((d =? "013")%char && starts_with_lf r) eqn:Hcr.
        -- apply andb_true_iff in Hcr as [_ Hlf].
           destruct r as [|e r]; [discriminate |]. cbn [starts_with_lf] in Hlf.
           apply Ascii.eqb_eq in Hlf. subst e. cbn [splitlines] in E.
           change (is_linebreak "010") with true in E. cbv iota in E.
           change (("010" =? "013")%char) with false in E. cbn [andb] in E.
           injection E as <- _. reflexivity.
        -- injection E as <- _. reflexivity.
      * destruct (splitlines r) as [|l1 ls1] eqn:E1.
        -- injection E as <- _. cbn [startswith]. now rewrite Ascii.eqb_refl.
        -- injection E as <- _. cbn [startswith]. rewrite Ascii.eqb_refl.
           exact (IHr l1 ls1 eq_refl).
Qed.

Lemma contains_nonempty (m s : string) :
  is_empty m = false -> contains m s = true -> is_empty s = false.
Proof. destruct m, s; cbn; congruence. Qed.

(** A needle that starts on a character that is not whitespace survives
    [lstrip]. *)
Lemma contains_lstrip (c : ascii) (m s : string) :
  isspace c = false ->
  contains (String c m) s = true -> contains (String c m) (lstrip s) = true.
Proof.
  intros Hc. induction s as [|x s IH]; intros H; [exact H |].
  cbn [lstrip]. destruct (isspace x) eqn:Hx; [| exact H].
  cbn [contains] in H. apply orb_true_iff in H as [H | H]; [| exact (IH H)].
  cbn [startswith] in H. apply andb_true_iff in H as [H _].
  apply Ascii.eqb_eq in H. congruence.
Qed.

Lemma not_all_space (c : ascii) (m s : string) :
  isspace c = false -> contains (String c m) s = true -> forall_str isspace s = false.
Proof.
  intros Hc. induction s as [|x s IH]; intros H; [discriminate |].
  cbn [contains] in H. cbn [forall_str]. apply orb_true_iff in H as [H | H].
  - cbn [startswith] in H. apply andb_true_iff in H as [H _].
    apply Ascii.eqb_eq in H. subst x. now rewrite Hc.
  - rewrite (IH H). apply andb_false_r.
Qed.

Lemma startswith_rstrip (m s : string) :
  rstrip m = m -> is_empty m = false ->
  startswith m s = true -> startswith m (rstrip s) = true.
Proof.
  revert s. induction m as [|y m IH]; intros s Hm Hne H; [discriminate |].
  destruct s as [|x s]; [discriminate |].
  cbn [startswith] in H. apply andb_true_iff in H as [Hyx H].
  cbn [rstrip] in Hm. destruct m as [|z m'].
  - cbn [rstrip] in Hm. destruct (isspace y) eqn:Hy; [discriminate |].
    apply Ascii.eqb_eq in Hyx. subst x. cbn [rstrip].
    destruct (rstrip s); [rewrite Hy |]; cbn [startswith]; now rewrite Ascii.eqb_refl.
  - assert (Hm' : rstrip (String z m') = String z m').
    { destruct (rstrip (String z m')) as [|a r] eqn:E.
      - destruct (isspace y); discriminate.
      - congruence. }
    specialize (IH s Hm' eq_refl H).
    cbn [rstrip]. destruct (rstrip s) as [|a r] eqn:E; [discriminate |].
    cbn [startswith]. rewrite Hyx. exact IH.
Qed.

(** A needle that does not end in whitespace survives [rstrip]. *)
Lemma contains_rstrip (m s : string) :
  rstrip m = m -> is_empty m = false ->
  contains m s = true -> contains m (rstrip s) = true.
Proof.
  intros Hm Hne. induction s as [|x s IH]; intros H; [destruct m; discriminate |].
  cbn [contains] in H. apply orb_true_iff in H as [H | H].
  - apply contains_here. now apply startswith_rstrip.
  - specialize (IH H). cbn [rstrip].
    destruct (rstrip s) as [|a r] eqn:E.
    + pose proof (contains_nonempty m "" Hne IH) as Hx. discriminate Hx.
    + cbn [contains]. cbn [contains] in IH. rewrite IH. apply orb_true_r.
Qed.

Lemma first_plan_line_none (lines : list string) :
  no_plan_line lines -> forall i, Plan.first_plan_line i lines = None.
Proof.
  induction 1 as [|l ls Hl _ IH]; intros i; cbn [Plan.first_plan_line]; [reflexivity |].
  rewrite Hl. apply IH.
Qed.

(** Text that is stripped and broken by line feeds only is what its lines
    give back. *)
Lemma join_splitlines_stripped (s : string) :
  lf_only (strip s) = true -> join nl (splitlines (strip s)) = strip s.
Proof.
  intros H. destruct (join_splitlines_lf _ H) as [E | E]; [exact E |].
  exfalso. unfold strip in E. symmetry in E. exact (rstrip_no_final_nl _ _ E).
Qed.

(** The lines kept by the extractor, and what the extractor finds in its
    own result. *)
Lemma extract_again_start (ls : list string) :
  Forall (fun l => no_break l = true) ls ->
  (no_plan_line ls \/
   exists l after, ls = l :: after /\ contains Plan.plan_marker_phrase l = true) ->
  default 0 (Plan.first_plan_line 0 (splitlines (strip (join nl ls)))) = 0.
Proof.
  intros Hnb [Hnone | (l & after & -> & Hl)].
  - rewrite first_plan_line_none; [reflexivity |].
    unfold no_plan_line in *. apply List.Forall_forall. intros l0 Hin.
    destruct (contains Plan.plan_marker_phrase l0) eqn:E; [| reflexivity].
    exfalso.
    assert (Hj : contains Plan.plan_marker_phrase (join nl ls) = true).
    { eapply contains_trans; [exact E |].
      eapply contains_trans; [apply splitlines_contains; exact Hin | apply contains_strip]. }
    apply contains_join in Hj; [| reflexivity | reflexivity].
    apply List.Exists_exists in Hj as (l1 & Hin1 & Hl1).
    rewrite List.Forall_forall in Hnone. rewrite (Hnone l1 Hin1) in Hl1. discriminate.
  - inversion Hnb as [|? ? Hl_nb Hafter]; subst.
    assert (Hsp : forall_str isspace l = false)
      by (eapply (not_all_space "T"); [reflexivity | exact Hl]).
    assert (Hu : contains Plan.plan_marker_phrase (lstrip l) = true)
      by (apply (contains_lstrip "T"); [reflexivity | exact Hl]).
    assert (Hu_nb : no_break (lstrip l) = true) by now apply forall_str_lstrip.
    assert (Hfirst : exists l0 rest,
               splitlines (strip (join nl (l :: after))) = l0 :: rest /\
               contains Plan.plan_marker_phrase l0 = true).
    { assert (Hone : forall t, forall_str isspace t = true ->
                 exists l0 rest,
                   splitlines (rstrip (lstrip l +:+ t)) = l0 :: rest /\
                   contains Plan.plan_marker_phrase l0 = true).
      { intros t Ht. rewrite rstrip_app, Ht.
        assert (Hc : contains Plan.plan_marker_phrase (rstrip (lstrip l)) = true)
          by (apply contains_rstrip; [reflexivity | reflexivity | exact Hu]).
        exists (rstrip (lstrip l)), []. split; [| exact Hc].
        apply splitlines_single; [now apply forall_str_rstrip |].
        exact (contains_nonempty Plan.plan_marker_phrase _ eq_refl Hc). }
      unfold strip. destruct after as [|l' after'].
      - cbn [join String.concat].
        specialize (Hone "" eq_refl). now rewrite str_app_nil_r in Hone.
      - change (join nl (l :: l' :: after')) with (l +:+ nl +:+ join nl (l' :: after')).
        rewrite lstrip_app, Hsp.
        destruct (forall_str isspace (nl +:+ join nl (l' :: after'))) eqn:Ht;
          [exact (Hone _ Ht) |].
        rewrite rstrip_app, Ht.
        change (nl +:+ join nl (l' :: after')) with (String "010" (join nl (l' :: after')))
          in *.
        rewrite (rstrip_cons _ _ Ht).
        change (lstrip l +:+ String "010" (rstrip (join nl (l' :: after'))))
          with (lstrip l +:+ nl +:+ rstrip (join nl (l' :: after'))).
        rewrite (splitlines_first _ _ Hu_nb). eexists _, _. split; [reflexivity | exact Hu]. }
    destruct Hfirst as (l0 & rest & -> & Hl0).
    cbn [Plan.first_plan_line]. now rewrite Hl0.
Qed.

End ExtractAgain.

(** X20. Extracting the plan from an extracted plan changes nothing:
    [_extract_plan_only] gives its own result back. *)
Theorem extract_plan_only_is_idempotent (text : string) :
  Plan._extract_plan_only (Plan._extract_plan_only text) = Plan._extract_plan_only text.
Proof.
  unfold Plan._extract_plan_only.
  set (ls := Py.slice_from (default 0 (Plan.first_plan_line 0 (Py.splitlines text)))
               (Py.splitlines text)).
  assert (Hnb : Forall (fun l => Py.forall_str (fun c => negb (Py.is_linebreak c)) l = true) ls).
  { unfold ls, Py.slice_from. apply Forall_drop, splitlines_no_break. }
  assert (Hcase : no_plan_line ls \/
                  exists l after, ls = l :: after /\
                                  Py.contains Plan.plan_marker_phrase l = true).
  { unfold ls. pose proof (first_plan_line_spec (Py.splitlines text) 0) as H.
    destruct (Plan.first_plan_line 0 (Py.splitlines text)) as [k|].
    - destruct H as (before & l & after & -> & _ & Hl & ->).
      right. exists l, after. split; [| exact Hl].
      unfold Py.slice_from.
      change (default 0 (Some (0 + length before))) with (length before).
      now rewrite skipn_app, skipn_all, Nat.sub_diag.
    - left. exact H. }
  rewrite (extract_again_start ls Hnb Hcase).
  unfold Py.slice_from. rewrite skipn_O.
  rewrite join_splitlines_stripped.
  - apply strip_idem.
  - apply forall_str_strip. now apply lf_only_join.
Qed.

(** ** Grouping by file *)

Section Grouping.

Import Lint LintSpec.

(** The issues that the entries [es] hold for [file], in their order. *)
Abbreviation issues_of file es :=
  (map snd (List.filter (fun p : string * issue => (fst p =? file)%string) es)).

Lemma issues_of_snoc (k file : string) (it : issue) (es : list (string * issue)) :
  issues_of k (es ++ [(file, it)])
  = issues_of k es ++ (if (file =? k)%string then [it] else []).
Proof.
  rewrite List.filter_app, map_app. cbn [List.filter fst].
  now destruct (file =? k)%string.
Qed.

Lemma setdefault_append_keeps_keys (file : string) (it : issue) (fs : files) :
  In file (map fst (setdefault_append file it fs))
  /\ forall k, In k (map fst fs) -> In k (map fst (setdefault_append file it fs)).
Proof.
  induction fs as [|[k v] fs [IH1 IH2]]; cbn [setdefault_append map fst].
  - split; [now left | intros k []].
  - destruct (String.eqb_spec k file) as [-> | _]; cbn [map fst].
    + split; [now left | auto].
    + split; [now right |]. intros k0 [<- | Hin]; [now left | right; auto].
Qed.

(** [setdefault(file, []).append(issue)] puts the issue at the end of the
    list of its file and leaves the other lists alone. *)
Lemma setdefault_append_groups (file : string) (it : issue) (es : list (string * issue)) :
  forall fs : files,
    List.NoDup (map fst fs) ->
    (forall kv, In kv fs -> snd kv = issues_of (fst kv) es) ->
    (~ In file (map fst fs) -> issues_of file es = []) ->
    forall kv, In kv (setdefault_append file it fs) ->
               snd kv = issues_of (fst kv) (es ++ [(file, it)]).
Proof.
  induction fs as [|[k v] fs IH]; intros Hnd Hfs Habsent kv Hin;
    cbn [setdefault_append] in Hin.
  - destruct Hin as [<- | []]. cbn [fst snd].
    rewrite issues_of_snoc, String.eqb_refl, Habsent; [reflexivity | intros []].
  - inversion Hnd as [|? ? Hk Hnd']; subst.
    destruct (String.eqb_spec k file) as [-> | Hne].
    + destruct Hin as [<- | Hin]; cbn [fst snd].
      * rewrite issues_of_snoc, String.eqb_refl.
        pose proof (Hfs (file, v) (or_introl eq_refl)) as Hv. cbn [fst snd] in Hv.
        now rewrite <- Hv.
      * rewrite issues_of_snoc.
        destruct (String.eqb_spec file (fst kv)) as [E | _].
        -- exfalso. apply Hk. rewrite E. now apply in_map.
        -- rewrite app_nil_r. apply Hfs. now right.
    + destruct Hin as [<- | Hin]; cbn [fst snd].
      * rewrite issues_of_snoc.
        destruct (String.eqb_spec file k) as [E | _]; [congruence |].
        rewrite app_nil_r. exact (Hfs (k, v) (or_introl eq_refl)).
      * apply (IH Hnd'); auto.
        -- intros kv0 H0. apply Hfs. now right.
        -- intros Hno. apply Habsent. intros [E | H0]; [cbn [fst] in E; congruence | contradiction].
Qed.

Lemma parse_lines_groups (lines : list string) :
  forall fs es fs',
    parse_lines lines fs = Ok fs' ->
    List.NoDup (map fst fs) ->
    (forall p, In p es -> In (fst p) (map fst fs)) ->
    (forall kv, In kv fs -> snd kv = issues_of (fst kv) es) ->
    forall kv, In kv fs' -> snd kv = issues_of (fst kv) (es ++ kept_entries lines).
Proof.
  induction lines as [|raw rest IH]; intros fs es fs' H Hnd Hkeys Hfs;
    cbn [parse_lines] in H.
  - injection H as <-. unfold kept_entries. cbn [flat_map]. now rewrite app_nil_r.
  - destruct (parse_line raw fs) as [fs1|e] eqn:E1; [| discriminate].
    apply parse_line_inv in E1 as [_ ->]. cbn [mbind result_bind bind] in H.
    unfold kept_entries. cbn [flat_map]. fold (kept_entries rest).
    destruct (line_entry raw) as [[file it]|].
    + rewrite app_assoc. apply (IH _ _ _ H).
      * now apply setdefault_append_keys.
      * destruct (setdefault_append_keeps_keys file it fs) as [Hfile Hmono].
        intros p Hin. apply in_app_or in Hin as [Hin | [<- | []]]; auto.
      * apply setdefault_append_groups; auto.
        intros Hno.
        destruct (List.filter (fun p => (fst p =? file)%string) es) as [|p r] eqn:E;
          [reflexivity |].
        assert (Hp : In p (List.filter (fun p => (fst p =? file)%string) es))
          by (rewrite E; now left).
        apply filter_In in Hp as [Hp He]. apply String.eqb_eq in He.
        exfalso. apply Hno. rewrite <- He. now apply Hkeys.
    + cbn [app]. exact (IH _ _ _ H Hnd Hkeys Hfs).
Qed.

(** The sort is stable: elements with the same key keep their order. *)
Lemma insert_by_stable {A K : Type} `{EqDecision K} (le : A -> A -> bool) (key : A -> K)
    (k : K) (x : A) (l : list A) :
  (forall a b, key a = key b -> le a b = true) ->
  List.filter (fun a => bool_decide (key a = k)) (insert_by le x l)
  = List.filter (fun a => bool_decide (key a = k)) (x :: l).
Proof.
  intros Hle. induction l as [|y l IH]; [reflexivity |].
  cbn [insert_by]. destruct (le x y) eqn:E; [reflexivity |].
  cbn [List.filter] in *. rewrite IH.
  destruct (bool_decide (key x = k)) eqn:Hx, (bool_decide (key y = k)) eqn:Hy;
    try reflexivity.
  apply bool_decide_eq_true in Hx, Hy.
  rewrite (Hle x y) in E by congruence. discriminate.
Qed.

Lemma sort_by_stable {A K : Type} `{EqDecision K} (le : A -> A -> bool) (key : A -> K)
    (k : K) (l : list A) :
  (forall a b, key a = key b -> le a b = true) ->
  List.filter (fun a => bool_decide (key a = k)) (sort_by le l)
  = List.filter (fun a => bool_decide (key a = k)) l.
Proof.
  intros Hle. induction l as [|x l IH]; [reflexivity |].
  cbn [sort_by fold_right]. fold (sort_by le l).
  rewrite (insert_by_stable le key k x _ Hle). cbn [List.filter]. now rewrite IH.
Qed.

Lemma issue_le_same_key (a b : issue) : issue_key a = issue_key b -> issue_le a b = true.
Proof.
  unfold issue_le. intros ->. destruct (issue_key b) as [[k1 k2] k3]. unfold key_le.
  rewrite !orb_true_iff, !andb_true_iff, !orb_true_iff, !andb_true_iff,
    !Z.ltb_lt, !Z.eqb_eq, !Z.leb_le.
  lia.
Qed.

End Grouping.

(** X21. The parser groups by file and sorts stably: in a parse result,
    the issues of a file are the issues of the matched lines that name the
    file, taken in the order of the lines and then sorted by severity
    weight, line and column; issues with equal keys stay in the order of
    the lint output. *)
Theorem parse_tflint_output_groups_by_file (text : string) (fs : Lint.files) :
  Lint.parse_tflint_output text = Ok fs ->
  Forall
    (fun kv =>
       snd kv
       = Lint.sort_by Lint.issue_le
           (map snd
              (List.filter (fun p => (fst p =? fst kv)%string)
                 (LintSpec.kept_entries (Py.splitlines text))))
       /\
       forall k : Z * Z * Z,
         List.filter (fun it => bool_decide (Lint.issue_key it = k)) (snd kv)
         = List.filter (fun it => bool_decide (Lint.issue_key it = k))
             (map snd
                (List.filter (fun p => (fst p =? fst kv)%string)
                   (LintSpec.kept_entries (Py.splitlines text)))))
    fs.
Proof.
  intros E. apply parse_tflint_output_inv in E as (fs0 & E & ->).
  pose proof (parse_lines_groups _ _ [] _ E (List.NoDup_nil _)
                (fun p (H : In p []) => match H with end)
                (fun kv (H : In kv []) => match H with end)) as Hgroups.
  cbn [app] in Hgroups.
  apply List.Forall_forall. intros kv Hin.
  assert (Hin0 : In kv (Lint.sort_issues fs0))
    by (eapply Permutation_in; [apply sort_by_perm | exact Hin]).
  unfold Lint.sort_issues in Hin0. apply in_map_iff in Hin0 as (kv0 & <- & Hkv0).
  cbn [fst snd]. rewrite (Hgroups kv0 Hkv0). split; [reflexivity |].
  intros k. apply sort_by_stable. exact issue_le_same_key.
Qed.

Lemma parse_tflint_output_groups_by_file_witness :
  exists fs,
    Lint.parse_tflint_output
      ("a.tf:5:1: Warning - second" +:+ Py.nl +:+ "b.tf:1:1: Error - other" +:+ Py.nl
       +:+ "a.tf:5:1: Warning - first" +:+ Py.nl +:+ "a.tf:9:9: Error - top") = Ok fs /\
    fs = [("a.tf", [Lint.Issue 9 9 "error" "" "top"; Lint.Issue 5 1 "warning" "" "second";
                    Lint.Issue 5 1 "warning" "" "first"]);
          ("b.tf", [Lint.Issue 1 1 "error" "" "other"])] /\
    Forall
      (fun kv =>
         snd kv
         = Lint.sort_by Lint.issue_le
             (map snd
                (List.filter (fun p => (fst p =? fst kv)%string)
                   (LintSpec.kept_entries
                      (Py.splitlines
                         ("a.tf:5:1: Warning - second" +:+ Py.nl +:+ "b.tf:1:1: Error - other"
                          +:+ Py.nl +:+ "a.tf:5:1: Warning - first" +:+ Py.nl
                          +:+ "a.tf:9:9: Error - top"))))))
      fs.
Proof.
  eexists. split; [vm_compute; reflexivity |]. split; [reflexivity |].
  eapply List.Forall_impl;
    [| exact (parse_tflint_output_groups_by_file
                ("a.tf:5:1: Warning - second" +:+ Py.nl +:+ "b.tf:1:1: Error - other"
                 +:+ Py.nl +:+ "a.tf:5:1: Warning - first" +:+ Py.nl
                 +:+ "a.tf:9:9: Error - top") _ eq_refl)].
  intros kv [H _]. exact H.
Defined.
